(** * fakeChain: document registry, stamping and verification

    A shallow embedding of

    - [contracts/DocumentVerification.sol] (the on-chain registry),
    - [blockchain.js] (the [BlockchainService] RPC wrapper),
    - the two Express servers: the watermark variant and the QR variant,

    together with the properties of the registration and verification
    protocol that the specification states about them.

    Conventions.  A Solidity [string] and a JavaScript string are both
    modelled by [string], read as the UTF-8 bytes of the text.  A [uint256]
    is a [Z]; the contract does no arithmetic on it.  The file system is a
    finite map from file names to contents, one per directory the servers
    use.  Everything the servers get from outside (clock, random source,
    hash functions, the PDF and QR libraries, the JSON parser, the reach of
    the RPC node) is an explicit parameter. *)

From Stdlib Require Import ZArith Lia Ascii String.
From stdpp Require Import base gmap strings list fin_maps.

Local Open Scope Z_scope.

(* ===================================================================== *)
(** * The registry contract                                              *)
(* ===================================================================== *)

Module Contract.

(** [struct Document]. [exists] is a keyword here, hence [exists_]. *)
Record Document := mkDocument {
  certificateNumber : string;
  documentHash : string;
  timestamp : Z;
  exists_ : bool
}.

#[global] Instance Document_eq_dec : EqDecision Document.
Proof. solve_decision. Defined.

(** [event DocumentRegistered(certificateNumber, documentHash, timestamp)]. *)
Record Event := DocumentRegistered {
  ev_certificateNumber : string;
  ev_documentHash : string;
  ev_timestamp : Z
}.

#[global] Instance Event_eq_dec : EqDecision Event.
Proof. solve_decision. Defined.

(** Contract storage: the [documents] mapping, and the log of emitted
    events.  A Solidity mapping is total: a key never written reads as the
    all-zero struct. *)
Record State := mkState {
  documents : gmap string Document;
  events : list Event
}.

Definition zero_document : Document := mkDocument "" "" 0 false.

Definition documents_at (st : State) (k : string) : Document :=
  default zero_document (documents st !! k).

Definition init : State := mkState ∅ [].

(** A call either returns or reverts with the [require] message; a revert
    rolls the storage back. *)
Inductive Outcome (A : Type) :=
| Return (a : A)
| Revert (msg : string).
Arguments Return {A} a.
Arguments Revert {A} msg.

Definition AlreadyExists : string := "Certificate number already exists".

(** [registerDocument]; [now] is [block.timestamp]. *)
Definition registerDocument (now : Z) (_certificateNumber _documentHash : string)
    (st : State) : Outcome State :=
  if negb (exists_ (documents_at st _certificateNumber)) then
    Return (mkState
      (<[_certificateNumber :=
           mkDocument _certificateNumber _documentHash now true]> (documents st))
      (events st ++ [DocumentRegistered _certificateNumber _documentHash now]))
  else Revert AlreadyExists.

(** [getDocument]. *)
Definition getDocument (_certificateNumber : string) (st : State)
    : string * string * Z * bool :=
  let doc := documents_at st _certificateNumber in
  (certificateNumber doc, documentHash doc, timestamp doc, exists_ doc).

(** [abi.encodePacked] of one string is the string's bytes. *)
Definition abi_encodePacked (s : string) : string := s.

Section WithKeccak.

(** [keccak256] is only ever compared for equality.  It is a parameter;
    the results that turn digest equality into string equality assume it
    collision free, which is what the Solidity idiom relies on. *)
Context {Digest : Type} `{EqDecision Digest} (keccak256 : string -> Digest).

(** [verifyDocument]. *)
Definition verifyDocument (_certificateNumber _documentHash : string)
    (st : State) : bool * Z :=
  let doc := documents_at st _certificateNumber in
  if negb (exists_ doc) then (false, 0)
  else
    let isValid :=
      bool_decide (keccak256 (abi_encodePacked (documentHash doc))
                   = keccak256 (abi_encodePacked _documentHash)) in
    (isValid, timestamp doc).

End WithKeccak.

(** The public interface, as calls arriving in blocks. *)
Inductive Call :=
| CallRegister (cert hash : string)
| CallVerify (cert hash : string)
| CallGet (cert : string)
| CallDocuments (cert : string).

(** One call at block time [now]: only [registerDocument] writes, and a
    reverted call leaves the storage as it was. *)
Definition step (st : State) (c : Z * Call) : State :=
  match c with
  | (now, CallRegister cert hash) =>
      match registerDocument now cert hash st with
      | Return st' => st'
      | Revert _ => st
      end
  | (_, CallVerify _ _) => st
  | (_, CallGet _) => st
  | (_, CallDocuments _) => st
  end.

Definition run (cs : list (Z * Call)) (st : State) : State :=
  fold_left step cs st.

Definition reachable (st : State) : Prop :=
  exists cs, run cs init = st.

(** The events of the log that concern identifier [k]. *)
Definition registrations_of (k : string) (st : State) : list Event :=
  filter (fun e => ev_certificateNumber e = k) (events st).

(** The storage invariant: a record that exists carries its own key, and
    is the one written by the only registration of that key in the log;
    a key without a record has no registration. *)
Definition Inv (st : State) : Prop :=
  forall k,
    let d := documents_at st k in
    if exists_ d then
      certificateNumber d = k /\
      registrations_of k st = [DocumentRegistered k (documentHash d) (timestamp d)]
    else registrations_of k st = [].

(** Every stored record has its [exists] flag set. *)
Definition all_exist (st : State) : Prop :=
  forall k d, documents st !! k = Some d -> exists_ d = true.

End Contract.

(* ===================================================================== *)
(** * The JavaScript and Node primitives the servers use                 *)
(* ===================================================================== *)

Module JS.

Definition LF : ascii := "010"%char.
Definition CR : ascii := "013"%char.
Definition dquote : ascii := "034"%char.
Definition backslash : ascii := "092"%char.

Definition code (c : ascii) : Z := Z.of_N (N_of_ascii c).
Definition char (n : Z) : ascii := ascii_of_N (Z.to_N n).
Definition str (c : ascii) : string := String c "".

(** ** Strings *)

(** [s.repeat(n)]. *)
Fixpoint repeat (s : string) (n : nat) : string :=
  match n with
  | O => ""
  | S n' => s +:+ repeat s n'
  end.

Fixpoint drop (n : nat) (s : string) : string :=
  match n, s with
  | O, _ => s
  | S n', String _ s' => drop n' s'
  | S _, EmptyString => ""
  end.

Fixpoint take (n : nat) (s : string) : string :=
  match n, s with
  | S n', String c s' => String c (take n' s')
  | _, _ => ""
  end.

(** [s.slice(-n)] for [n > 0]: the last [n] characters, or all of [s]
    when it is shorter. *)
Definition slice_last (n : nat) (s : string) : string :=
  drop (String.length s - n) s.

(** [s.slice(i, j)] for [0 <= i], [0 <= j]. *)
Definition slice (i j : Z) (s : string) : string :=
  take (Z.to_nat (j - i)) (drop (Z.to_nat i) s).

(** [s.padStart(n, c)] with a one-character filler. *)
Definition padStart (n : nat) (c : ascii) (s : string) : string :=
  repeat (str c) (n - String.length s) +:+ s.

(** When [p] is a prefix of [s], what follows it. *)
Fixpoint strip_prefix (p s : string) : option string :=
  match p, s with
  | EmptyString, _ => Some s
  | String a p', String b s' =>
      if Ascii.eqb a b then strip_prefix p' s' else None
  | String _ _, EmptyString => None
  end.

(** [s.startsWith(p)]. *)
Definition startsWith (p s : string) : bool :=
  match strip_prefix p s with Some _ => true | None => false end.

(** [s.includes(p)]; also [/p/.test(s)] for a literal pattern. *)
Fixpoint includes (p s : string) : bool :=
  match strip_prefix p s with
  | Some _ => true
  | None => match s with
            | EmptyString => false
            | String _ s' => includes p s'
            end
  end.

Fixpoint map_chars (f : ascii -> ascii) (s : string) : string :=
  match s with
  | EmptyString => ""
  | String c s' => String (f c) (map_chars f s')
  end.

Fixpoint all_chars (f : ascii -> bool) (s : string) : bool :=
  match s with
  | EmptyString => true
  | String c s' => f c && all_chars f s'
  end.

Definition lower_char (c : ascii) : ascii :=
  if (65 <=? code c) && (code c <=? 90) then char (code c + 32) else c.

(** [s.toLowerCase()] on the ASCII letters.  The code points outside ASCII
    whose lower case is an ASCII letter are U+0130 (to i) and U+212A
    (to k); neither letter occurs in the extensions the servers compare
    against, so leaving the other bytes alone changes no comparison made
    here. *)
Definition toLowerCase (s : string) : string := map_chars lower_char s.

Definition is_digit (c : ascii) : bool :=
  (48 <=? code c) && (code c <=? 57).

(** ** Numbers *)

Definition digit_char (d : Z) : ascii := char (48 + d).

(** The decimal digits of [n >= 0], most significant first, pushed in
    front of [acc].  [fuel] bounds the number of digits. *)
Fixpoint digits_go (fuel : nat) (n : Z) (acc : string) : string :=
  match fuel with
  | O => acc
  | S fuel' =>
      let acc' := String (digit_char (n mod 10)) acc in
      if n / 10 =? 0 then acc' else digits_go fuel' (n / 10) acc'
  end.

Definition digits (n : Z) : string :=
  digits_go (S (Z.to_nat (Z.log2 n))) n "".

(** [n.toString()] for an integer below 10^21 in size, where JavaScript
    prints plain decimal digits. *)
Definition Number_toString (n : Z) : string :=
  if n <? 0 then String "-" (digits (- n)) else digits n.

(** The number that a string of decimal digits denotes, continuing from
    [v]. *)
Fixpoint decimal_value (s : string) (v : Z) : Z :=
  match s with
  | EmptyString => v
  | String c s' => decimal_value s' (10 * v + (code c - 48))
  end.

(** [Number(b)] for a non-negative BigInt [b]: the nearest double, ties
    to even.  Exact below 2^53. *)
Definition Number_of_BigInt (b : Z) : Z :=
  let e := Z.log2 b - 52 in
  if e <=? 0 then b
  else
    let m := Z.shiftr b e in
    let r := Z.land b (Z.ones e) in
    let half := Z.shiftl 1 (e - 1) in
    let m' := if (half <? r) || ((r =? half) && Z.odd m) then m + 1 else m in
    Z.shiftl m' e.

(** ** [path.extname] (POSIX), following Node's loop from the right. *)

Record ExtScan := mkExtScan {
  startDot : Z;
  startPart : Z;
  end_ : Z;
  matchedSlash : bool;
  preDotState : Z;
  stopped : bool
}.

Definition ext_step (i : Z) (c : ascii) (st : ExtScan) : ExtScan :=
  if stopped st then st
  else if Ascii.eqb c "/" then
    if negb (matchedSlash st)
    then mkExtScan (startDot st) (i + 1) (end_ st) (matchedSlash st)
                   (preDotState st) true
    else st
  else
    let st1 :=
      if end_ st =? -1
      then mkExtScan (startDot st) (startPart st) (i + 1) false
                     (preDotState st) false
      else st in
    if Ascii.eqb c "." then
      if startDot st1 =? -1
      then mkExtScan i (startPart st1) (end_ st1) (matchedSlash st1)
                     (preDotState st1) false
      else if negb (preDotState st1 =? 1)
      then mkExtScan (startDot st1) (startPart st1) (end_ st1)
                     (matchedSlash st1) 1 false
      else st1
    else if negb (startDot st1 =? -1)
    then mkExtScan (startDot st1) (startPart st1) (end_ st1)
                   (matchedSlash st1) (-1) false
    else st1.

(** The loop [for (i = path.length - 1; i >= 0; --i)], over the
    characters in reverse. *)
Fixpoint ext_loop (rev_chars : list ascii) (i : Z) (st : ExtScan) : ExtScan :=
  match rev_chars with
  | [] => st
  | c :: cs => ext_loop cs (i - 1) (ext_step i c st)
  end.

Definition extname (path : string) : string :=
  let st := ext_loop (rev (list_ascii_of_string path))
                     (Z.of_nat (String.length path) - 1)
                     (mkExtScan (-1) 0 (-1) true 0 false) in
  if (startDot st =? -1) || (end_ st =? -1) || (preDotState st =? 0)
     || ((preDotState st =? 1) && (startDot st =? end_ st - 1)
         && (startDot st =? startPart st + 1))
  then ""
  else slice (startDot st) (end_ st) path.

(** ** Reading a file as ['utf8'] *)

Definition REPLACEMENT : string :=
  String (char 239) (String (char 191) (String (char 189) "")).

(** For a lead byte: the number of continuation bytes and the range
    allowed for the first of them. *)
Definition utf8_lead (n : Z) : option (nat * Z * Z) :=
  if (194 <=? n) && (n <=? 223) then Some (1%nat, 128, 191)
  else if (224 <=? n) && (n <=? 239) then
    Some (2%nat, if n =? 224 then 160 else 128, if n =? 237 then 159 else 191)
  else if (240 <=? n) && (n <=? 244) then
    Some (3%nat, if n =? 240 then 144 else 128, if n =? 244 then 143 else 191)
  else None.

(** Decoding bytes to text and writing the text back as UTF-8: well-formed
    sequences pass through, each ill-formed one becomes U+FFFD.  [needed]
    continuation bytes are still expected, the next within [lo..hi];
    [pend] holds the bytes of the unfinished sequence. *)
Fixpoint utf8_go (s : string) (needed : nat) (lo hi : Z) (pend : string)
    : string :=
  match s with
  | EmptyString => match needed with O => "" | S _ => REPLACEMENT end
  | String b s' =>
      let n := code b in
      let restart (_ : unit) :=
        if n <=? 127 then String b (utf8_go s' 0 128 191 "")
        else match utf8_lead n with
             | Some (k, lo', hi') => utf8_go s' k lo' hi' (str b)
             | None => REPLACEMENT +:+ utf8_go s' 0 128 191 ""
             end in
      match needed with
      | O => restart tt
      | S k =>
          if (lo <=? n) && (n <=? hi) then
            match k with
            | O => pend +:+ String b (utf8_go s' 0 128 191 "")
            | S _ => utf8_go s' k 128 191 (pend +:+ str b)
            end
          else REPLACEMENT +:+ restart tt
      end
  end.

(** The text of a file read with encoding ['utf8'], as UTF-8 bytes. *)
Definition utf8_decode (bytes : string) : string := utf8_go bytes 0 128 191 "".

(** A text that the decoder copies as it is, whatever follows it:
    well-formed UTF-8 with no sequence left open. *)
Definition passes (a : string) : Prop :=
  forall b, utf8_decode (a +:+ b) = a +:+ utf8_decode b.

(** [pend] is the start of a sequence that [S k] more bytes complete,
    the next of them within [lo..hi]. *)
Fixpoint expects (k : nat) (lo hi : Z) (pend : string) : Prop :=
  forall b, lo <= code b <= hi ->
    match k with
    | O => forall t, passes t -> passes (pend +:+ String b t)
    | S k' => expects k' 128 191 (pend +:+ str b)
    end.

(** ** [JSON.stringify] of a string *)

Definition hex_digit (d : Z) : ascii :=
  if d <? 10 then char (48 + d) else char (87 + d).

Definition json_escape_char (c : ascii) : string :=
  let n := code c in
  if Ascii.eqb c dquote then String backslash (str dquote)
  else if Ascii.eqb c backslash then String backslash (str backslash)
  else if n =? 8 then String backslash "b"
  else if n =? 12 then String backslash "f"
  else if n =? 10 then String backslash "n"
  else if n =? 13 then String backslash "r"
  else if n =? 9 then String backslash "t"
  else if n <? 32 then
    String backslash
      ("u00" +:+ String (hex_digit (n / 16)) (str (hex_digit (n mod 16))))
  else str c.

Fixpoint json_escape (s : string) : string :=
  match s with
  | EmptyString => ""
  | String c s' => json_escape_char c +:+ json_escape s'
  end.

Definition JSON_stringify_string (s : string) : string :=
  String dquote (json_escape s +:+ str dquote).

(** ** Values from request bodies and from [JSON.parse] *)

(** A value is a string, or something else of which only its truthiness
    and its string conversion matter here ([undefined], [null], numbers,
    booleans, objects, arrays). *)
Inductive Value :=
| VString (s : string)
| VOther (truthy : bool) (as_string : string).

Definition undefined : Value := VOther false "undefined".

Definition truthy (v : Value) : bool :=
  match v with
  | VString s => negb (String.eqb s "")
  | VOther t _ => t
  end.

Definition toString (v : Value) : string :=
  match v with
  | VString s => s
  | VOther _ s => s
  end.

(** What [const { cert, hash } = JSON.parse(text)] can give: the parsed
    value is [null] (destructuring throws), or it has the two properties
    (each possibly [undefined]). *)
Inductive Parsed :=
| PNull
| PProps (cert hash : Value).

End JS.
(* ===================================================================== *)
(** * The Node process: files, the ledger, effects, exceptions           *)
(* ===================================================================== *)

Module Node.

(** What a request handler does to the outside, in order. *)
Inductive Effect :=
| FsRead (path : string)
| FsWrite (path : string)
| FsUnlink (path : string)
| Rpc (call : Contract.Call).

(** The state the servers share: the files on disk, by full path, the
    ledger behind the RPC node, and the effects performed so far. *)
Record World := mkWorld {
  fs : gmap string string;
  chain : Contract.State;
  trace : list Effect
}.

(** A computation ends with a value or with a thrown error; the world
    keeps the changes made before the throw. *)
Inductive Res (A : Type) :=
| Ok (a : A)
| Throw (message : string).
Arguments Ok {A} a.
Arguments Throw {A} message.

Definition M (A : Type) : Type := World -> Res A * World.

Definition ret {A} (a : A) : M A := fun w => (Ok a, w).

Definition throw {A} (message : string) : M A := fun w => (Throw message, w).

Definition bind {A B} (m : M A) (k : A -> M B) : M B :=
  fun w =>
    match m w with
    | (Ok a, w') => k a w'
    | (Throw e, w') => (Throw e, w')
    end.

(** [try { m } catch (error) { h error }]. *)
Definition try_catch {A} (m : M A) (h : string -> M A) : M A :=
  fun w =>
    match m w with
    | (Ok a, w') => (Ok a, w')
    | (Throw e, w') => h e w'
    end.

Definition emit (e : Effect) : M unit :=
  fun w => (Ok tt, mkWorld (fs w) (chain w) (trace w ++ [e])).

Declare Scope node_scope.
Delimit Scope node_scope with node.
Notation "x <- m ;; k" := (bind m (fun x => k))
  (at level 100, m at next level, right associativity) : node_scope.
Notation "m ;;; k" := (bind m (fun _ => k))
  (at level 100, right associativity) : node_scope.
Local Open Scope node_scope.

(** ** [fs] *)

Definition join (dir name : string) : string := dir +:+ "/" +:+ name.

Definition uploadsDir : string := "uploads".
Definition certifiedDir : string := "certified-documents".
Definition qrDir : string := "qr-codes".

Definition existsSync (path : string) : M bool :=
  fun w => (Ok (bool_decide (is_Some (fs w !! path))), w).

(** [fs.readFileSync(path)]: the bytes, or ENOENT. *)
Definition readFileSync (path : string) : M string :=
  fun w =>
    match fs w !! path with
    | Some bytes => (Ok bytes, mkWorld (fs w) (chain w) (trace w ++ [FsRead path]))
    | None => (Throw "ENOENT", w)
    end.

(** [fs.readFileSync(path, 'utf8')]. *)
Definition readFileSync_utf8 (path : string) : M string :=
  bytes <- readFileSync path ;; ret (JS.utf8_decode bytes).

(** [fs.writeFileSync(path, data)]; the directories exist from start-up. *)
Definition writeFileSync (path data : string) : M unit :=
  fun w => (Ok tt, mkWorld (<[path := data]> (fs w)) (chain w)
                           (trace w ++ [FsWrite path])).

(** [fs.unlinkSync(path)]: removes the file, or ENOENT. *)
Definition unlinkSync (path : string) : M unit :=
  fun w =>
    match fs w !! path with
    | Some _ => (Ok tt, mkWorld (delete path (fs w)) (chain w)
                                (trace w ++ [FsUnlink path]))
    | None => (Throw "ENOENT", w)
    end.

(** [if (filePath && fs.existsSync(filePath)) fs.unlinkSync(filePath)];
    [None] is the [null] that [filePath] starts with, and a path that
    multer has set is never empty. *)
Definition unlink_if_exists (filePath : option string) : M unit :=
  match filePath with
  | None => ret tt
  | Some p => b <- existsSync p ;; if b : bool then unlinkSync p else ret tt
  end.

(** A computation that removes no file: whatever is on disk before it is
    on disk after it. *)
Definition keeps_files {A} (m : M A) : Prop :=
  forall w r w', m w = (r, w') ->
    forall p, is_Some (fs w !! p) -> is_Some (fs w' !! p).

(** A computation all of whose runs relate the world before and the world
    after by [R]. *)
Definition preserves {A} (R : World -> World -> Prop) (m : M A) : Prop :=
  forall w r w', m w = (r, w') -> R w w'.

(** The ledger is the same. *)
Definition same_chain (w w' : World) : Prop := chain w' = chain w.

(** The ledger and the files are the same. *)
Definition same_state (w w' : World) : Prop :=
  fs w' = fs w /\ chain w' = chain w.

(** The files outside [P] are the same: none written, none removed. *)
Definition fs_within (P : string -> Prop) (w w' : World) : Prop :=
  forall q, ~ P q -> fs w' !! q = fs w !! q.

(** A path in directory [dir]. *)
Definition inside (dir : string) (q : string) : Prop :=
  JS.startsWith (dir +:+ "/") q = true.

(** A computation that always ends with a value, never with a throw. *)
Definition never_throws {A} (m : M A) : Prop :=
  forall w, exists a w', m w = (Ok a, w').

(** ** What the libraries compute *)

Inductive Draw :=
| DrawRectangle
| DrawImage (bytes : string)
| DrawText (text : string)
| DrawLine.

(** A PDF document as the servers see it through pdf-lib: the metadata
    they set and read, and per page what has been drawn on it (positions,
    sizes and colours are left out). *)
Record PdfDoc := mkPdfDoc {
  pdf_title : option string;
  pdf_subject : option string;
  pdf_keywords : list string;
  pdf_pages : list (list Draw)
}.



(** The functions of the libraries the servers call, which the model does
    not look into.  [None] and [false] stand for a thrown error.
    [PDF_save] is the serializer that [pdfDoc.save()] ends with. *)
Record Lib := mkLib {
  keccak256 : string -> string;
  sha256_hex : string -> string;
  PDF_load : string -> option PdfDoc;
  PDF_save : PdfDoc -> string;
  embedPng : string -> bool;
  embedJpg : string -> bool;
  QRCode_toBuffer : string -> option string;
  JSON_parse : string -> option JS.Parsed;
  toLocaleString : Z -> string;
  basename : string -> string -> string
}.

(** [pdfDoc.save()]: pdf-lib first gives a document without pages one
    blank page ([addDefaultPage], on unless switched off), then
    serializes. *)
Definition with_default_page (d : PdfDoc) : PdfDoc :=
  match pdf_pages d with
  | [] => mkPdfDoc (pdf_title d) (pdf_subject d) (pdf_keywords d) [[]]
  | _ :: _ => d
  end.

Definition pdfDoc_save (lib : Lib) (d : PdfDoc) : string :=
  PDF_save lib (with_default_page d).

(** What one request finds around it: [Date.now()],
    [Math.floor(Math.random() * 10000)], [new Date().toLocaleString()],
    the [block.timestamp] of the block that would mine its transaction,
    whether each of the three RPC calls gets through, the hash of the
    transaction receipt, and [Math.round(Math.random() * 1E9)]. *)
Record Env := mkEnv {
  Date_now : Z;
  random_10000 : Z;
  localeNow : string;
  block_timestamp : Z;
  rpc_register_up : bool;
  rpc_verify_up : bool;
  rpc_get_up : bool;
  tx_hash : string;
  random_1e9 : Z
}.

End Node.

(* ===================================================================== *)
(** * [blockchain.js]: the RPC wrapper                                   *)
(* ===================================================================== *)

Module BlockchainService.
Import Node.
Local Open Scope node_scope.

(** Every method catches what the call throws and reports
    [{ success: false, error }]. *)
Inductive Reply (A : Type) :=
| Success (a : A)
| Failure (error : string).
Arguments Success {A} a.
Arguments Failure {A} error.

(** The ABI encoder takes strings only: another value makes the call
    throw before anything is sent. *)
Definition as_string (v : JS.Value) : option string :=
  match v with
  | JS.VString s => Some s
  | JS.VOther _ _ => None
  end.

(** [registerDocument]: a transaction, mined at [block_timestamp]; the
    reply carries the receipt hash. *)
Definition registerDocument (env : Env) (certificateNumber documentHash : string)
    : M (Reply string) :=
  if rpc_register_up env then
    emit (Rpc (Contract.CallRegister certificateNumber documentHash)) ;;;
    fun w =>
      match Contract.registerDocument (block_timestamp env)
              certificateNumber documentHash (chain w) with
      | Contract.Return st' =>
          (Ok (Success (tx_hash env)), mkWorld (fs w) st' (trace w))
      | Contract.Revert msg => (Ok (Failure msg), w)
      end
  else ret (Failure "could not detect network").

Record Verified := mkVerified { isValid : bool; timestamp : Z }.

(** [verifyDocument]: a read-only call. *)
Definition verifyDocument (lib : Lib) (env : Env)
    (certificateNumber documentHash : JS.Value) : M (Reply Verified) :=
  match as_string certificateNumber, as_string documentHash with
  | Some cert, Some hash =>
      if rpc_verify_up env then
        emit (Rpc (Contract.CallVerify cert hash)) ;;;
        fun w =>
          let '(valid, ts) :=
            Contract.verifyDocument (keccak256 lib) cert hash (chain w) in
          (Ok (Success (mkVerified valid (JS.Number_of_BigInt ts))), w)
      else ret (Failure "could not detect network")
  | _, _ => ret (Failure "invalid string value")
  end.

Record DocumentInfo := mkDocumentInfo {
  info_certificateNumber : string;
  info_documentHash : string;
  info_timestamp : Z;
  info_exists : bool
}.

(** [getDocument]: a read-only call. *)
Definition getDocument (env : Env) (certificateNumber : JS.Value)
    : M (Reply DocumentInfo) :=
  match as_string certificateNumber with
  | Some cert =>
      if rpc_get_up env then
        emit (Rpc (Contract.CallGet cert)) ;;;
        fun w =>
          let '(c, h, ts, e) := Contract.getDocument cert (chain w) in
          (Ok (Success (mkDocumentInfo c h (JS.Number_of_BigInt ts) e)), w)
      else ret (Failure "could not detect network")
  | None => ret (Failure "invalid string value")
  end.

(** [documentInfo.documentHash]: [undefined] on a failed reply. *)
Definition documentHash_of (r : Reply DocumentInfo) : option string :=
  match r with
  | Success d => Some (info_documentHash d)
  | Failure _ => None
  end.

End BlockchainService.
(* ===================================================================== *)
(** * What the two servers share                                         *)
(* ===================================================================== *)

Module Http.
Import Node.
Local Open Scope node_scope.

(** [req.file], as multer leaves it. *)
Record File := mkFile {
  originalname : string;
  path : string;
  size : Z
}.

(** A file part of a multipart request: the [filename] parameter of its
    [Content-Disposition] header, unquoted, byte for byte as it is sent,
    and the content. *)
Record Upload := mkUpload {
  up_originalname : string;
  up_content : string
}.

(** The JSON bodies the servers send. *)
Inductive Body :=
| ErrorBody (error : string) (details : option string)
    (message : option string)
| UploadBody (certificateNumber documentHash fileName certifiedFileName : string)
    (fileSize : Z) (txHash downloadUrl : string) (qrData : option string)
    (message : string)
| VerdictBody (isValid : bool) (certificateNumber : JS.Value) (timestamp : Z)
    (registeredHash : option string) (hashKey : string) (hash : JS.Value)
    (registrationDate : string) (message : string)
| ErrorPage (message : string).

Record Response := mkResponse {
  status : Z;
  body : Body
}.

Definition json (b : Body) : Response := mkResponse 200 b.


(** The [isValid] field of a verdict. *)
Definition verdict_isValid (r : Response) : option bool :=
  match body r with
  | VerdictBody v _ _ _ _ _ _ _ => Some v
  | _ => None
  end.


Definition isValid_of (r : Res Response * World) : option bool :=
  match fst r with
  | Ok resp => verdict_isValid resp
  | Throw _ => None
  end.

(** A handler that always answers, and with 200, 400 or 500: no error
    escapes it. *)
Definition answers (m : M Response) : Prop :=
  forall w,
    match fst (m w) with
    | Ok r => status r = 200 \/ status r = 400 \/ status r = 500
    | Throw _ => False
    end.

(** An error handed to [next(err)].  Neither server installs an error
    handler, so Express's own answers: with the error's [status] when it
    is one of 400..599, with 500 otherwise. *)
Record Error := mkError {
  err_message : string;
  err_status : option Z
}.

Definition default_error_handler (err : Error) : Response :=
  mkResponse
    (match err_status err with
     | Some s => if (400 <=? s) && (s <? 600) then s else 500
     | None => 500
     end)
    (ErrorPage (err_message err)).

(** ** multer: [upload.single('document')] *)

(** [limits: { fileSize: 10 * 1024 * 1024 }]. *)
Definition fileSize_limit : Z := 10 * 1024 * 1024.

(** [const allowedTypes = /pdf|png|jpg|jpeg|txt/]. *)
Definition allowedTypes_test (s : string) : bool :=
  JS.includes "pdf" s || JS.includes "png" s || JS.includes "jpg" s
  || JS.includes "jpeg" s || JS.includes "txt" s.

(** The [fileFilter] callback: [true] for [cb(null, true)], [false] for
    [cb(new Error(...))]. *)
Definition fileFilter (originalname : string) : bool :=
  allowedTypes_test (JS.toLowerCase (JS.extname originalname)).

Inductive Multer :=
| NoFile
| Stored (f : File)
| Refused (err : Error).

Definition byte_length (s : string) : Z := Z.of_nat (String.length s).

(** The storage engine's [filename]. *)
Definition uniqueName (env : Env) (originalname : string) : string :=
  JS.Number_toString (Date_now env) +:+ "-"
  +:+ JS.Number_toString (random_1e9 env) +:+ JS.extname originalname.

(** busboy reads the [filename] parameter as latin1, one character for
    each byte; as UTF-8 a character above 127 takes two bytes. *)
Fixpoint latin1 (s : string) : string :=
  match s with
  | EmptyString => ""
  | String b s' =>
      let n := JS.code b in
      if n <? 128 then String b (latin1 s')
      else String (JS.char (192 + n / 64))
             (String (JS.char (128 + n mod 64)) (latin1 s'))
  end.

Definition is_separator (c : ascii) : bool :=
  Ascii.eqb c "/" || Ascii.eqb c JS.backslash.

(** What follows the last slash or backslash of [s], when there is
    one. *)
Fixpoint after_separator (s : string) : option string :=
  match s with
  | EmptyString => None
  | String c s' =>
      match after_separator s' with
      | Some t => Some t
      | None => if is_separator c then Some s' else None
      end
  end.

(** busboy's [basename], applied unless [preservePath] is set: the name
    without its directories; [.] and [..] give the empty name. *)
Definition busboy_basename (s : string) : string :=
  let p := default s (after_separator s) in
  if String.eqb p ".." || String.eqb p "." then "" else p.

(** [file.originalname]. *)
Definition multer_originalname (u : Upload) : string :=
  busboy_basename (latin1 (up_originalname u)).

(** The middleware.  A part without a file name is no file for multer;
    then the filter; then the file is stored, unless its length reaches
    the limit: busboy stops a file stream as soon as it has taken
    [fileSize] bytes, and multer then removes what was written and
    passes on the error.  [filter_message] is the text of the filter's
    error. *)
Definition single (filter_message : string) (env : Env) (part : option Upload)
    : M Multer :=
  match part with
  | None => ret NoFile
  | Some u =>
      let originalname := multer_originalname u in
      if String.eqb originalname "" then ret NoFile
      else if fileFilter originalname then
        if fileSize_limit <=? byte_length (up_content u)
        then ret (Refused (mkError "File too large" None))
        else
          let p := join uploadsDir (uniqueName env originalname) in
          writeFileSync p (up_content u) ;;;
          ret (Stored (mkFile originalname p (byte_length (up_content u))))
      else ret (Refused (mkError filter_message None))
  end.

(** A route [app.post(url, upload.single('document'), handler)]. *)
Definition route (filter_message : string) (env : Env)
    (handler : option File -> M Response) (part : option Upload)
    : M Response :=
  m <- single filter_message env part ;;
  match m with
  | NoFile => handler None
  | Stored f => handler (Some f)
  | Refused err => ret (default_error_handler err)
  end.

Definition PORT : string := "3000".

(** [generateCertificateNumber]; [random_10000] is
    [Math.floor(Math.random() * 10000)]. *)
Definition generateCertificateNumber (env : Env) : string :=
  let prefix := "CERT" in
  let timestamp := JS.slice_last 8 (JS.Number_toString (Date_now env)) in
  let random := JS.padStart 4 "0" (JS.Number_toString (random_10000 env)) in
  prefix +:+ "-" +:+ timestamp +:+ "-" +:+ random.

(** What an upload may have done to the ledger: nothing, with an answer
    other than 200, or one registration, of the digest of the uploaded
    bytes under the generated number at the block time. *)
Definition registered_or_not (lib : Lib) (env : Env) (f : File)
    (w : World) (r : Res Response * World) : Prop :=
  match r with
  | (Ok resp, w') =>
      (chain w' = chain w /\ status resp <> 200) \/
      exists bytes,
        fs w !! path f = Some bytes /\
        Contract.registerDocument (block_timestamp env)
          (generateCertificateNumber env) (sha256_hex lib bytes) (chain w)
        = Contract.Return (chain w')
  | (Throw _, _) => False
  end.

(** The same for a request that comes through the route with the file
    part [u]: what may have been registered is the digest of the bytes of
    the part. *)
Definition part_registered_or_not (lib : Lib) (env : Env) (u : Upload)
    (w : World) (r : Res Response * World) : Prop :=
  match r with
  | (Ok resp, w') =>
      (chain w' = chain w /\ status resp <> 200) \/
      Contract.registerDocument (block_timestamp env)
        (generateCertificateNumber env) (sha256_hex lib (up_content u))
        (chain w)
      = Contract.Return (chain w')
  | (Throw _, _) => False
  end.

(** What is left when the registration does not go through: an answer
    of 500, the uploaded file removed, nothing else changed. *)
Definition registration_failed (f : File) (w : World)
    (r : Res Response * World) : Prop :=
  exists resp w',
    r = (Ok resp, w') /\ status resp = 500 /\
    fs w' = delete (path f) (fs w) /\ chain w' = chain w.

(** The pattern [/^CERT-\d{8}-\d{4}$/]. *)
Definition cert_pattern (s : string) : bool :=
  match JS.strip_prefix "CERT-" s with
  | Some r =>
      (String.length (JS.take 8 r) =? 8)%nat
      && JS.all_chars JS.is_digit (JS.take 8 r)
      && match JS.strip_prefix "-" (JS.drop 8 r) with
         | Some r' =>
             (String.length r' =? 4)%nat && JS.all_chars JS.is_digit r'
         | None => false
         end
  | None => false
  end.

(** [generateDocumentHash]. *)
Definition generateDocumentHash (lib : Lib) (filePath : string) : M string :=
  fileBuffer <- readFileSync filePath ;;
  ret (sha256_hex lib fileBuffer).

(** What [digest('hex')] of a SHA-256 hash looks like: 64 characters of
    [0-9a-f]. *)
Definition hex_char (c : ascii) : bool :=
  JS.is_digit c || ((97 <=? JS.code c) && (JS.code c <=? 102)).

Definition is_digest (s : string) : bool :=
  (String.length s =? 64)%nat && JS.all_chars hex_char s.

(** One UTF-16 unit of the name through [/[^a-zA-Z0-9_-]/g -> '_']: a
    byte that starts a character outside ASCII stands for one unit (two
    when the character is outside the basic plane), a continuation byte
    for none. *)
Definition clean_char (c : ascii) : string :=
  let n := JS.code c in
  if ((97 <=? n) && (n <=? 122)) || ((65 <=? n) && (n <=? 90))
     || JS.is_digit c || (n =? 95) || (n =? 45)
  then JS.str c
  else if (128 <=? n) && (n <=? 191) then ""
  else if 240 <=? n then "__"
  else "_".

(** The characters of [[a-zA-Z0-9_-]]. *)
Definition name_char (c : ascii) : bool :=
  let n := JS.code c in
  ((97 <=? n) && (n <=? 122)) || ((65 <=? n) && (n <=? 90))
  || JS.is_digit c || (n =? 95) || (n =? 45).

Fixpoint clean_name (s : string) : string :=
  match s with
  | EmptyString => ""
  | String c s' => clean_char c +:+ clean_name s'
  end.

Definition bar (n : nat) : string := JS.repeat "═" n.
Definition thin_bar (n : nat) : string := JS.repeat "─" n.
Definition nl : string := JS.str JS.LF.

(** [new Date(timestamp * 1000).toLocaleString()]. *)
Definition registrationDate (lib : Lib) (timestamp : Z) : string :=
  toLocaleString lib (timestamp * 1000).

End Http.
(* ===================================================================== *)
(** * The QR server                                                      *)
(* ===================================================================== *)

Module ServerQR.
Import Node Http.
Local Open Scope node_scope.

Definition filter_message : string :=
  "Only PDF, PNG, JPG, JPEG, and TXT files allowed".

(** [JSON.stringify({ cert: certificateNumber, hash: documentHash })]. *)
Definition qr_payload (certificateNumber documentHash : string) : string :=
  "{" +:+ JS.JSON_stringify_string "cert" +:+ ":"
  +:+ JS.JSON_stringify_string certificateNumber +:+ ","
  +:+ JS.JSON_stringify_string "hash" +:+ ":"
  +:+ JS.JSON_stringify_string documentHash +:+ "}".

(** [generateQRCode]: the image, also saved under [qr-codes/]; [None]
    is the function's [null]. *)
Definition generateQRCode (lib : Lib) (certificateNumber documentHash : string)
    : M (option string) :=
  try_catch
    (let verificationData := qr_payload certificateNumber documentHash in
     match QRCode_toBuffer lib verificationData with
     | None => throw "QRCode.toBuffer"
     | Some qrBuffer =>
         let qrFilePath := join qrDir (certificateNumber +:+ ".png") in
         writeFileSync qrFilePath qrBuffer ;;;
         ret (Some qrBuffer)
     end)
    (fun _ => ret None).

(** [extractQRDataFromPDF]. *)
Definition extractQRDataFromPDF (lib : Lib) (pdfPath : string)
    : M (option string) :=
  try_catch
    (pdfBytes <- readFileSync pdfPath ;;
     match PDF_load lib pdfBytes with
     | None => throw "PDFDocument.load"
     | Some pdfDoc =>
         match pdf_title pdfDoc with
         | Some metadata =>
             if negb (String.eqb metadata "") && JS.startsWith "QR:" metadata
             then ret (Some (JS.drop 3 metadata))
             else ret None
         | None => ret None
         end
     end)
    (fun _ => ret None).

(** The certificate footer drawn on a page, in drawing order. *)
Definition footer_draws (qrBuffer certificateNumber : string) : list Draw :=
  [ DrawRectangle;
    DrawImage qrBuffer;
    DrawText "BLOCKCHAIN VERIFIED CERTIFICATE";
    DrawText ("Certificate No: " +:+ certificateNumber);
    DrawText "Upload this document to verify authenticity";
    DrawLine ].

Definition set_metadata (pdfDoc : PdfDoc) (certificateNumber documentHash : string)
    : PdfDoc :=
  let qrData := qr_payload certificateNumber documentHash in
  mkPdfDoc (Some ("QR:" +:+ qrData))
           (Some "Blockchain Verified Certificate")
           [certificateNumber; "blockchain"; "verified"]
           (pdf_pages pdfDoc).

(** [addMinimalCertificateToPDF]. *)
Definition addMinimalCertificateToPDF (lib : Lib)
    (inputPath outputPath certificateNumber documentHash : string) : M bool :=
  try_catch
    (existingPdfBytes <- readFileSync inputPath ;;
     match PDF_load lib existingPdfBytes with
     | None => throw "PDFDocument.load"
     | Some loaded =>
         let pdfDoc := set_metadata loaded certificateNumber documentHash in
         match pdf_pages pdfDoc with
         | [] => throw "TypeError"
         | firstPage :: pages =>
             qrBuffer <- generateQRCode lib certificateNumber documentHash ;;
             match qrBuffer with
             | None => ret false
             | Some qrBuffer =>
                 if embedPng lib qrBuffer then
                   let pdfDoc' :=
                     mkPdfDoc (pdf_title pdfDoc) (pdf_subject pdfDoc)
                       (pdf_keywords pdfDoc)
                       ((firstPage ++ footer_draws qrBuffer certificateNumber)
                        :: pages) in
                   writeFileSync outputPath (pdfDoc_save lib pdfDoc') ;;;
                   ret true
                 else throw "embedPng"
             end
         end
     end)
    (fun _ => ret false).

(** [convertImageToPDF]. *)
Definition convertImageToPDF (lib : Lib)
    (inputPath outputPath certificateNumber documentHash : string) : M bool :=
  try_catch
    (let pdfDoc := set_metadata (mkPdfDoc None None [] [])
                                certificateNumber documentHash in
     imageBytes <- readFileSync inputPath ;;
     let ext := JS.toLowerCase (JS.extname inputPath) in
     embedded <-
       (if String.eqb ext ".png" then
          if embedPng lib imageBytes then ret true else throw "embedPng"
        else if String.eqb ext ".jpg" || String.eqb ext ".jpeg" then
          if embedJpg lib imageBytes then ret true else throw "embedJpg"
        else ret false) ;;
     if embedded : bool then
       let page := [DrawImage imageBytes] in
       qrBuffer <- generateQRCode lib certificateNumber documentHash ;;
       match qrBuffer with
       | None => ret false
       | Some qrBuffer =>
           if embedPng lib qrBuffer then
             let pdfDoc' :=
               mkPdfDoc (pdf_title pdfDoc) (pdf_subject pdfDoc)
                 (pdf_keywords pdfDoc)
                 [page ++ footer_draws qrBuffer certificateNumber] in
             writeFileSync outputPath (pdfDoc_save lib pdfDoc') ;;;
             ret true
           else throw "embedPng"
       end
     else ret false)
    (fun _ => ret false).

(** What [createCertifiedTextFile] puts after the original content. *)
Definition text_footer (certificateNumber documentHash timestamp qrData : string)
    : string :=
  nl +:+ nl
  +:+ bar 80 +:+ nl
  +:+ "BLOCKCHAIN VERIFIED CERTIFICATE" +:+ nl
  +:+ "Certificate Number: " +:+ certificateNumber +:+ nl
  +:+ "Document Hash: " +:+ documentHash +:+ nl
  +:+ "Certified: " +:+ timestamp +:+ nl
  +:+ nl
  +:+ "QR Data (for verification): " +:+ qrData +:+ nl
  +:+ nl
  +:+ "Upload this file to verify at: http://localhost:" +:+ PORT +:+ nl
  +:+ bar 80 +:+ nl.

Definition certifiedContent (originalContent certificateNumber documentHash
    timestamp : string) : string :=
  originalContent
  +:+ text_footer certificateNumber documentHash timestamp
        (qr_payload certificateNumber documentHash).

(** [createCertifiedTextFile]. *)
Definition createCertifiedTextFile (env : Env)
    (inputPath outputPath certificateNumber documentHash : string) : M bool :=
  try_catch
    (originalContent <- readFileSync_utf8 inputPath ;;
     let timestamp := localeNow env in
     writeFileSync outputPath
       (certifiedContent originalContent certificateNumber documentHash
          timestamp) ;;;
     ret true)
    (fun _ => ret false).

(** [processCertifiedDocument]: the path of the stamped file, or [None]
    for [null]. *)
Definition processCertifiedDocument (lib : Lib) (env : Env)
    (inputPath certificateNumber documentHash originalName : string)
    : M (option string) :=
  let ext := JS.toLowerCase (JS.extname originalName) in
  let baseName := clean_name (basename lib originalName ext) in
  try_catch
    (r <-
       (if String.eqb ext ".pdf" then
          let certifiedFileName :=
            baseName +:+ "_CERTIFIED_" +:+ certificateNumber +:+ ".pdf" in
          let outputPath := join certifiedDir certifiedFileName in
          success <- addMinimalCertificateToPDF lib inputPath outputPath
                       certificateNumber documentHash ;;
          ret (Some outputPath, success)
        else if String.eqb ext ".png" || String.eqb ext ".jpg"
                || String.eqb ext ".jpeg" then
          let certifiedFileName :=
            baseName +:+ "_CERTIFIED_" +:+ certificateNumber +:+ ".pdf" in
          let outputPath := join certifiedDir certifiedFileName in
          success <- convertImageToPDF lib inputPath outputPath
                       certificateNumber documentHash ;;
          ret (Some outputPath, success)
        else if String.eqb ext ".txt" then
          let certifiedFileName :=
            baseName +:+ "_CERTIFIED_" +:+ certificateNumber +:+ ".txt" in
          let outputPath := join certifiedDir certifiedFileName in
          success <- createCertifiedTextFile env inputPath outputPath
                       certificateNumber documentHash ;;
          ret (Some outputPath, success)
        else ret (None, false)) ;;
     match r with
     | (Some outputPath, true) =>
         present <- existsSync outputPath ;;
         if present : bool then ret (Some outputPath) else ret None
     | _ => ret None
     end)
    (fun _ => ret None).

(** The handler of [POST /api/upload]. *)
Definition post_api_upload (lib : Lib) (env : Env) (file : option File)
    : M Response :=
  try_catch
    (match file with
     | None => ret (mkResponse 400 (ErrorBody "No file uploaded" None None))
     | Some f =>
         let filePath := path f in
         let certificateNumber := generateCertificateNumber env in
         originalDocumentHash <- generateDocumentHash lib filePath ;;
         blockchainResult <-
           BlockchainService.registerDocument env certificateNumber
             originalDocumentHash ;;
         match blockchainResult with
         | BlockchainService.Failure error =>
             unlink_if_exists (Some filePath) ;;;
             ret (mkResponse 500
                    (ErrorBody "Blockchain registration failed" (Some error)
                               None))
         | BlockchainService.Success txHash =>
             certifiedPath <-
               processCertifiedDocument lib env filePath certificateNumber
                 originalDocumentHash (originalname f) ;;
             match certifiedPath with
             | None =>
                 ret (mkResponse 500
                        (ErrorBody "Document processing failed" None None))
             | Some certifiedPath =>
                 let certifiedFileName := basename lib certifiedPath "" in
                 let downloadUrl :=
                   "http://localhost:" +:+ PORT +:+ "/download/"
                   +:+ certifiedFileName in
                 ret (json
                   (UploadBody certificateNumber originalDocumentHash
                      (originalname f) certifiedFileName (size f) txHash
                      downloadUrl
                      (Some (qr_payload certificateNumber originalDocumentHash))
                      "Document certified! QR data embedded in PDF. Simply upload the certified PDF to verify."))
             end
         end
     end)
    (fun error =>
       unlink_if_exists (option_map path file) ;;;
       ret (mkResponse 500 (ErrorBody "Server error" (Some error) None))).

(** ** Extraction from a stamped text file *)

Definition is_line_terminator_at (s : string) : bool :=
  match s with
  | String a rest =>
      Ascii.eqb a JS.LF || Ascii.eqb a JS.CR
      || match rest with
         | String b (String c _) =>
             (JS.code a =? 226) && (JS.code b =? 128)
             && ((JS.code c =? 168) || (JS.code c =? 169))
         | _ => false
         end
  | EmptyString => false
  end.

(** [.*?}] from the start of [s]: the shortest run of characters other
    than line terminators that a closing brace follows, with the brace. *)
Fixpoint lazy_to_brace (s : string) : option string :=
  match s with
  | EmptyString => None
  | String c s' =>
      if Ascii.eqb c "}" then Some "}"
      else if is_line_terminator_at s then None
      else option_map (String c) (lazy_to_brace s')
  end.

Definition marker : string := "QR Data (for verification): {".

(** [content.match(/QR Data \(for verification\): ({.*?})/)], group 1 of
    the leftmost match. *)
Fixpoint match_qr (content : string) : option string :=
  let here :=
    match JS.strip_prefix marker content with
    | Some rest => option_map (String "{") (lazy_to_brace rest)
    | None => None
    end in
  match here with
  | Some m => Some m
  | None => match content with
            | EmptyString => None
            | String _ content' => match_qr content'
            end
  end.

(** Characters that [JSON.stringify] leaves as they are and that cannot
    end or break the match: printable, and none of the double quote, the
    backslash, the closing brace, the letter Q that starts the marker, and
    the byte that starts U+2028 and U+2029.  Hexadecimal digests and
    generated certificate numbers consist of such characters. *)
Definition plain_char (x : ascii) : bool :=
  (32 <=? JS.code x) && negb (Ascii.eqb x JS.dquote)
  && negb (Ascii.eqb x JS.backslash) && negb (Ascii.eqb x "}")
  && negb (Ascii.eqb "Q" x) && negb (JS.code x =? 226).

(** Such characters within ASCII. *)
Definition token_char (x : ascii) : bool :=
  plain_char x && (JS.code x <=? 127).

(** Characters that [.*?] walks over on its way to the closing brace. *)
Definition inner_char (x : ascii) : bool :=
  negb (Ascii.eqb x "}") && negb (Ascii.eqb x JS.LF)
  && negb (Ascii.eqb x JS.CR) && negb (JS.code x =? 226).

(** What stands between the original content and the marker. *)
Definition before_marker (c h ts : string) : string :=
  nl +:+ bar 80 +:+ nl
  +:+ "BLOCKCHAIN VERIFIED CERTIFICATE" +:+ nl
  +:+ "Certificate Number: " +:+ c +:+ nl
  +:+ "Document Hash: " +:+ h +:+ nl
  +:+ "Certified: " +:+ ts +:+ nl
  +:+ nl.

(** What stands between the braces of the payload. *)
Definition payload_body (c h : string) : string :=
  JS.JSON_stringify_string "cert" +:+ ":"
  +:+ String JS.dquote (c +:+ JS.str JS.dquote)
  +:+ "," +:+ JS.JSON_stringify_string "hash" +:+ ":"
  +:+ String JS.dquote (h +:+ JS.str JS.dquote).

Definition after_payload : string :=
  nl +:+ nl
  +:+ "Upload this file to verify at: http://localhost:" +:+ PORT +:+ nl
  +:+ bar 80 +:+ nl.

(** [hash === documentInfo.documentHash]. *)
Definition strict_eq (v : JS.Value) (o : option string) : bool :=
  match v, o with
  | JS.VString a, Some b => String.eqb a b
  | _, _ => false
  end.

(** What [POST /api/verify-upload] decides once it holds the pair of the
    payload: the contract's verdict, and the registered hash of the
    lookup compared with the hash of the payload. *)
Definition payload_verdict (lib : Lib) (env : Env) (c h : string)
    (st : Contract.State) : bool :=
  fst (Contract.verifyDocument (keccak256 lib) c h st)
  && (rpc_get_up env
      && String.eqb h (Contract.documentHash (Contract.documents_at st c))).

(** Where [processCertifiedDocument] puts the certified file; [ext] is
    the extension of the certified file. *)
Definition certified_path (lib : Lib) (originalName certificateNumber ext
    : string) : string :=
  join certifiedDir
    (clean_name
       (basename lib originalName (JS.toLowerCase (JS.extname originalName)))
     +:+ "_CERTIFIED_" +:+ certificateNumber +:+ ext).

Definition valid_message : string :=
  "✓ VALID - Certificate is authentic and verified on blockchain".
Definition invalid_message : string :=
  "✗ INVALID - Certificate has been tampered with or is not authentic".

(** The handler of [POST /api/verify-upload]. *)
Definition post_api_verify_upload (lib : Lib) (env : Env) (file : option File)
    : M Response :=
  try_catch
    (match file with
     | None => ret (mkResponse 400 (ErrorBody "No file uploaded" None None))
     | Some f =>
         let filePath := path f in
         let ext := JS.toLowerCase (JS.extname (originalname f)) in
         qrData <-
           (if String.eqb ext ".pdf" then extractQRDataFromPDF lib filePath
            else if String.eqb ext ".txt" then
              content <- readFileSync_utf8 filePath ;;
              ret (match_qr content)
            else ret None) ;;
         unlinkSync filePath ;;;
         match qrData with
         | None | Some EmptyString =>
             ret (mkResponse 400
               (ErrorBody "No certificate found in document" None
                  (Some "This document does not appear to be a certified document. Please upload a certified document with QR code.")))
         | Some qrData =>
             match JSON_parse lib qrData with
             | None =>
                 ret (mkResponse 400
                   (ErrorBody "Invalid certificate data in document" None None))
             | Some JS.PNull => throw "TypeError"
             | Some (JS.PProps cert hash) =>
                 if negb (JS.truthy cert) || negb (JS.truthy hash) then
                   ret (mkResponse 400
                     (ErrorBody "Invalid certificate: missing data" None None))
                 else
                   result <- BlockchainService.verifyDocument lib env cert hash ;;
                   match result with
                   | BlockchainService.Failure error =>
                       ret (mkResponse 500
                         (ErrorBody "Verification failed" (Some error) None))
                   | BlockchainService.Success result =>
                       documentInfo <- BlockchainService.getDocument env cert ;;
                       let registeredHash :=
                         BlockchainService.documentHash_of documentInfo in
                       let isValid :=
                         BlockchainService.isValid result
                         && strict_eq hash registeredHash in
                       ret (json
                         (VerdictBody isValid cert
                            (BlockchainService.timestamp result)
                            registeredHash "extractedHash" hash
                            (registrationDate lib
                               (BlockchainService.timestamp result))
                            (if isValid then valid_message
                             else invalid_message)))
                   end
             end
         end
     end)
    (fun error =>
       unlink_if_exists (option_map path file) ;;;
       ret (mkResponse 500 (ErrorBody "Server error" (Some error) None))).

Definition qr_valid_message : string :=
  "✓ VALID - Certificate verified on blockchain".
Definition qr_invalid_message : string :=
  "✗ INVALID - Certificate not found or has been tampered with".

(** The handler of [POST /api/verify-qr]; [qrData] is [req.body.qrData]. *)
Definition post_api_verify_qr (lib : Lib) (env : Env) (qrData : JS.Value)
    : M Response :=
  try_catch
    (if negb (JS.truthy qrData) then
       ret (mkResponse 400 (ErrorBody "QR data is required" None None))
     else
       match JSON_parse lib (JS.toString qrData) with
       | None =>
           ret (mkResponse 400 (ErrorBody "Invalid QR data format" None None))
       | Some JS.PNull => throw "TypeError"
       | Some (JS.PProps cert hash) =>
           if negb (JS.truthy cert) || negb (JS.truthy hash) then
             ret (mkResponse 400
               (ErrorBody "Invalid QR data: missing cert or hash" None None))
           else
             result <- BlockchainService.verifyDocument lib env cert hash ;;
             match result with
             | BlockchainService.Failure error =>
                 ret (mkResponse 500
                   (ErrorBody "Verification failed" (Some error) None))
             | BlockchainService.Success result =>
                 documentInfo <- BlockchainService.getDocument env cert ;;
                 ret (json
                   (VerdictBody (BlockchainService.isValid result) cert
                      (BlockchainService.timestamp result)
                      (BlockchainService.documentHash_of documentInfo)
                      "scannedHash" hash
                      (registrationDate lib
                         (BlockchainService.timestamp result))
                      (if BlockchainService.isValid result
                       then qr_valid_message else qr_invalid_message)))
             end
       end)
    (fun error =>
       ret (mkResponse 500 (ErrorBody "Server error" (Some error) None))).

(** The routes that take a file. *)
Definition route_upload (lib : Lib) (env : Env) : option Upload -> M Response :=
  route filter_message env (post_api_upload lib env).

Definition route_verify_upload (lib : Lib) (env : Env)
    : option Upload -> M Response :=
  route filter_message env (post_api_verify_upload lib env).

End ServerQR.
(* ===================================================================== *)
(** * The watermark server                                               *)
(* ===================================================================== *)

Module ServerWM.
Import Node Http.
Local Open Scope node_scope.

Definition filter_message : string :=
  "Only PDF, PNG, JPG, JPEG, and TXT files are allowed".

(** [encodeURIComponent]: every byte of the UTF-8 text that is not an
    unreserved character becomes [%XX]. *)
Definition unreserved (c : ascii) : bool :=
  let n := JS.code c in
  ((97 <=? n) && (n <=? 122)) || ((65 <=? n) && (n <=? 90)) || JS.is_digit c
  || JS.includes (JS.str c) "-_.!~*'()".

Definition upper_hex (d : Z) : ascii :=
  if d <? 10 then JS.char (48 + d) else JS.char (55 + d).

Fixpoint encodeURIComponent (s : string) : string :=
  match s with
  | EmptyString => ""
  | String c s' =>
      (if unreserved c then JS.str c
       else String "%" (String (upper_hex (JS.code c / 16))
                               (JS.str (upper_hex (JS.code c mod 16)))))
      +:+ encodeURIComponent s'
  end.

(** The certificate box of the first page, in drawing order.  The hash
    is hexadecimal, one byte per character. *)
Definition box_draws (certificateNumber documentHash timestamp : string)
    : list Draw :=
  [ DrawRectangle;
    DrawText "BLOCKCHAIN CERTIFIED DOCUMENT";
    DrawText ("Certificate No: " +:+ certificateNumber);
    DrawText ("Hash: " +:+ JS.take 45 documentHash +:+ "...");
    DrawText "Verify at: http://localhost:3000 | Secured on Blockchain";
    DrawText ("Certified: " +:+ timestamp) ].

Definition watermark (certificateNumber : string) : Draw :=
  DrawText ("CERTIFIED • " +:+ certificateNumber).

Definition corner (certificateNumber : string) : Draw :=
  DrawText ("CERT: " +:+ certificateNumber).

(** The loop over the pages: the box on page 0, the two watermarks on
    every page. *)
Fixpoint stamp_pages (i : nat) (pages : list (list Draw))
    (certificateNumber documentHash timestamp : string) : list (list Draw) :=
  match pages with
  | [] => []
  | page :: rest =>
      (page
       ++ (match i with
           | O => box_draws certificateNumber documentHash timestamp
           | S _ => []
           end)
       ++ [watermark certificateNumber; corner certificateNumber])
      :: stamp_pages (S i) rest certificateNumber documentHash timestamp
  end.

(** [addCertificateToPDF]. *)
Definition addCertificateToPDF (lib : Lib) (env : Env)
    (inputPath outputPath certificateNumber documentHash : string) : M bool :=
  try_catch
    (existingPdfBytes <- readFileSync inputPath ;;
     match PDF_load lib existingPdfBytes with
     | None => throw "PDFDocument.load"
     | Some pdfDoc =>
         let pdfDoc' :=
           mkPdfDoc (pdf_title pdfDoc) (pdf_subject pdfDoc)
             (pdf_keywords pdfDoc)
             (stamp_pages 0 (pdf_pages pdfDoc) certificateNumber documentHash
                (localeNow env)) in
         writeFileSync outputPath (pdfDoc_save lib pdfDoc') ;;;
         ret true
     end)
    (fun _ => ret false).

(** [convertImageToPDF]. *)
Definition convertImageToPDF (lib : Lib) (env : Env)
    (inputPath outputPath certificateNumber documentHash : string) : M bool :=
  try_catch
    (imageBytes <- readFileSync inputPath ;;
     let ext := JS.toLowerCase (JS.extname inputPath) in
     embedded <-
       (if String.eqb ext ".png" then
          if embedPng lib imageBytes then ret true else throw "embedPng"
        else if String.eqb ext ".jpg" || String.eqb ext ".jpeg" then
          if embedJpg lib imageBytes then ret true else throw "embedJpg"
        else ret false) ;;
     if embedded : bool then
       let page :=
         box_draws certificateNumber documentHash (localeNow env)
         ++ [DrawImage imageBytes; watermark certificateNumber] in
       writeFileSync outputPath (pdfDoc_save lib (mkPdfDoc None None [] [page])) ;;;
       ret true
     else ret false)
    (fun _ => ret false).

(** What [createCertifiedTextFile] puts before the original content. *)
Definition text_header (certificateNumber documentHash timestamp : string)
    : string :=
  nl
  +:+ bar 80 +:+ nl
  +:+ "                    BLOCKCHAIN CERTIFIED DOCUMENT" +:+ nl
  +:+ bar 80 +:+ nl
  +:+ nl
  +:+ "CERTIFICATE NUMBER: " +:+ certificateNumber +:+ nl
  +:+ nl
  +:+ "DOCUMENT HASH: " +:+ documentHash +:+ nl
  +:+ nl
  +:+ "CERTIFICATION DATE: " +:+ timestamp +:+ nl
  +:+ nl
  +:+ "VERIFICATION: http://localhost:3000" +:+ nl
  +:+ nl
  +:+ "STATUS: SECURED ON BLOCKCHAIN" +:+ nl
  +:+ nl
  +:+ bar 80 +:+ nl
  +:+ nl
  +:+ "ORIGINAL DOCUMENT CONTENT:" +:+ nl
  +:+ thin_bar 80 +:+ nl
  +:+ nl.

(** What it puts after the original content. *)
Definition text_footer (certificateNumber : string) : string :=
  nl
  +:+ nl
  +:+ thin_bar 80 +:+ nl
  +:+ nl
  +:+ bar 80 +:+ nl
  +:+ "END OF CERTIFIED DOCUMENT" +:+ nl
  +:+ "Certificate Number: " +:+ certificateNumber +:+ nl
  +:+ "This document is secured on blockchain and can be verified at http://localhost:3000"
  +:+ nl
  +:+ bar 80 +:+ nl.

Definition certifiedContent (originalContent certificateNumber documentHash
    timestamp : string) : string :=
  text_header certificateNumber documentHash timestamp
  +:+ originalContent
  +:+ text_footer certificateNumber.

(** [createCertifiedTextFile]. *)
Definition createCertifiedTextFile (env : Env)
    (inputPath outputPath certificateNumber documentHash : string) : M bool :=
  try_catch
    (originalContent <- readFileSync_utf8 inputPath ;;
     let timestamp := localeNow env in
     writeFileSync outputPath
       (certifiedContent originalContent certificateNumber documentHash
          timestamp) ;;;
     ret true)
    (fun _ => ret false).

(** [processCertifiedDocument]. *)
Definition processCertifiedDocument (lib : Lib) (env : Env)
    (inputPath certificateNumber documentHash originalName : string)
    : M (option string) :=
  let ext := JS.toLowerCase (JS.extname originalName) in
  let baseName := basename lib originalName ext in
  let cleanBaseName := clean_name baseName in
  try_catch
    (r <-
       (if String.eqb ext ".pdf" then
          let certifiedFileName :=
            cleanBaseName +:+ "_CERTIFIED_" +:+ certificateNumber +:+ ".pdf" in
          let outputPath := join certifiedDir certifiedFileName in
          success <- addCertificateToPDF lib env inputPath outputPath
                       certificateNumber documentHash ;;
          ret (Some outputPath, success)
        else if String.eqb ext ".png" || String.eqb ext ".jpg"
                || String.eqb ext ".jpeg" then
          let certifiedFileName :=
            cleanBaseName +:+ "_CERTIFIED_" +:+ certificateNumber +:+ ".pdf" in
          let outputPath := join certifiedDir certifiedFileName in
          success <- convertImageToPDF lib env inputPath outputPath
                       certificateNumber documentHash ;;
          ret (Some outputPath, success)
        else if String.eqb ext ".txt" then
          let certifiedFileName :=
            cleanBaseName +:+ "_CERTIFIED_" +:+ certificateNumber +:+ ".txt" in
          let outputPath := join certifiedDir certifiedFileName in
          success <- createCertifiedTextFile env inputPath outputPath
                       certificateNumber documentHash ;;
          ret (Some outputPath, success)
        else ret (None, false)) ;;
     match r with
     | (Some outputPath, true) =>
         present <- existsSync outputPath ;;
         if present : bool then ret (Some outputPath) else ret None
     | _ => ret None
     end)
    (fun _ => ret None).

(** Where [processCertifiedDocument] puts the certified file; [ext] is
    the extension of the certified file. *)
Definition certified_path (lib : Lib) (originalName certificateNumber ext
    : string) : string :=
  join certifiedDir
    (clean_name
       (basename lib originalName (JS.toLowerCase (JS.extname originalName)))
     +:+ "_CERTIFIED_" +:+ certificateNumber +:+ ext).

(** The handler of [POST /api/upload]. *)
Definition post_api_upload (lib : Lib) (env : Env) (file : option File)
    : M Response :=
  try_catch
    (match file with
     | None => ret (mkResponse 400 (ErrorBody "No file uploaded" None None))
     | Some f =>
         let filePath := path f in
         let certificateNumber := generateCertificateNumber env in
         documentHash <- generateDocumentHash lib filePath ;;
         blockchainResult <-
           BlockchainService.registerDocument env certificateNumber
             documentHash ;;
         match blockchainResult with
         | BlockchainService.Failure error =>
             unlink_if_exists (Some filePath) ;;;
             ret (mkResponse 500
                    (ErrorBody "Failed to register on blockchain" (Some error)
                               None))
         | BlockchainService.Success txHash =>
             certifiedPath <-
               processCertifiedDocument lib env filePath certificateNumber
                 documentHash (originalname f) ;;
             match certifiedPath with
             | None =>
                 ret (mkResponse 500
                        (ErrorBody
                           "Failed to process document and add certificate"
                           None None))
             | Some certifiedPath =>
                 let certifiedFileName := basename lib certifiedPath "" in
                 let downloadUrl :=
                   "http://localhost:" +:+ PORT +:+ "/api/download/"
                   +:+ encodeURIComponent certifiedFileName in
                 ret (json
                   (UploadBody certificateNumber documentHash
                      (originalname f) certifiedFileName (size f) txHash
                      downloadUrl None
                      "Document uploaded, certified with watermark, and registered on blockchain successfully"))
             end
         end
     end)
    (fun error =>
       unlink_if_exists (option_map path file) ;;;
       ret (mkResponse 500
              (ErrorBody "Internal server error" (Some error) None))).

Definition valid_message : string :=
  "✓ Document is VALID and verified on blockchain".
Definition invalid_message : string :=
  "✗ Document verification FAILED - hash mismatch or certificate not found".

(** The shared tail of the two verification handlers: one [verify] call,
    then one [lookup] call for the registered hash. *)
Definition verdict (lib : Lib) (env : Env)
    (certificateNumber documentHash : JS.Value) : M Response :=
  result <-
    BlockchainService.verifyDocument lib env certificateNumber documentHash ;;
  match result with
  | BlockchainService.Failure error =>
      ret (mkResponse 500 (ErrorBody "Verification failed" (Some error) None))
  | BlockchainService.Success result =>
      documentInfo <- BlockchainService.getDocument env certificateNumber ;;
      ret (json
        (VerdictBody (BlockchainService.isValid result) certificateNumber
           (BlockchainService.timestamp result)
           (BlockchainService.documentHash_of documentInfo)
           "providedHash" documentHash
           (registrationDate lib (BlockchainService.timestamp result))
           (if BlockchainService.isValid result
            then valid_message else invalid_message)))
  end.

(** The handler of [POST /api/verify-upload]; [certificateNumber] is
    [req.body.certificateNumber].  The handler's [filePath] is still
    [null] while the certificate number is being checked, so an error
    thrown there would find nothing to remove. *)
Definition post_api_verify_upload (lib : Lib) (env : Env)
    (certificateNumber : JS.Value) (file : option File) : M Response :=
  match file with
  | None =>
      ret (mkResponse 400 (ErrorBody "No file uploaded" None None))
  | Some f =>
      if negb (JS.truthy certificateNumber) then
        try_catch
          (unlink_if_exists (Some (path f)) ;;;
           ret (mkResponse 400
                  (ErrorBody "Certificate number is required" None None)))
          (fun error =>
             ret (mkResponse 500
                    (ErrorBody "Internal server error" (Some error) None)))
      else
        try_catch
          (let filePath := path f in
           documentHash <- generateDocumentHash lib filePath ;;
           unlink_if_exists (Some filePath) ;;;
           verdict lib env certificateNumber (JS.VString documentHash))
          (fun error =>
             unlink_if_exists (Some (path f)) ;;;
             ret (mkResponse 500
                    (ErrorBody "Internal server error" (Some error) None)))
  end.

(** The handler of [POST /api/verify]. *)
Definition post_api_verify (lib : Lib) (env : Env)
    (certificateNumber documentHash : JS.Value) : M Response :=
  try_catch
    (if negb (JS.truthy certificateNumber) || negb (JS.truthy documentHash) then
       ret (mkResponse 400
              (ErrorBody "Certificate number and document hash are required"
                         None None))
     else verdict lib env certificateNumber documentHash)
    (fun error =>
       ret (mkResponse 500
              (ErrorBody "Internal server error" (Some error) None))).

(** What [GET /api/document/:certificateNumber] sends: the record, or an
    error with its status. *)
Inductive DocumentAnswer :=
| DocumentFound (certificateNumber documentHash : string) (timestamp : Z)
    (registrationDate : string)
| DocumentError (status : Z) (error : string) (details : option string).

(** The handler of [GET /api/document/:certificateNumber]; a route
    parameter is a string. *)
Definition get_api_document (lib : Lib) (env : Env) (certificateNumber : string)
    : M DocumentAnswer :=
  try_catch
    (result <- BlockchainService.getDocument env (JS.VString certificateNumber) ;;
     match result with
     | BlockchainService.Failure error =>
         ret (DocumentError 500 "Failed to retrieve document" (Some error))
     | BlockchainService.Success d =>
         if negb (BlockchainService.info_exists d) then
           ret (DocumentError 404
                  "Document not found with this certificate number" None)
         else
           ret (DocumentFound
                  (BlockchainService.info_certificateNumber d)
                  (BlockchainService.info_documentHash d)
                  (BlockchainService.info_timestamp d)
                  (registrationDate lib (BlockchainService.info_timestamp d)))
     end)
    (fun error =>
       ret (DocumentError 500 "Internal server error" (Some error))).

Definition route_upload (lib : Lib) (env : Env) : option Upload -> M Response :=
  route filter_message env (post_api_upload lib env).

End ServerWM.
(* ===================================================================== *)
(** * Concrete libraries and surroundings, to run the model on           *)
(* ===================================================================== *)

Module Fixtures.
Import JS Node Http.

(** A stand-in PDF format: the title on the first line. *)
Definition demo_PDF_save (d : PdfDoc) : string :=
  "%PDF:" +:+ default "" (pdf_title d).

Definition demo_PDF_load (bytes : string) : option PdfDoc :=
  match JS.strip_prefix "%PDF:" bytes with
  | Some "" => Some (mkPdfDoc None None [] [[]])
  | Some title => Some (mkPdfDoc (Some title) None [] [[]])
  | None => None
  end.

(** Stand-ins for the library functions: the hashes are collision free
    (they keep their input), every image embeds, every text has a QR
    code, and [JSON.parse] knows no text. *)
Definition demo_lib : Lib :=
  mkLib (fun s => s)
        (fun bytes => "sha256:" +:+ bytes)
        demo_PDF_load demo_PDF_save
        (fun _ => true) (fun _ => true)
        (fun data => Some ("PNG:" +:+ data))
        (fun _ => None)
        (fun ms => JS.Number_toString ms)
        (fun p ext => p).

(** A request served at 2024-10-27, with the RPC node up. *)
Definition demo_env : Env :=
  mkEnv 1730000000123 42 "10/27/2024, 3:33:20 AM" 1730000000
        true true true "0xfeed" 123456789.

(** The same, on a machine whose clock was never set: a little under
    three hours after the epoch. *)
Definition unset_clock_env : Env :=
  mkEnv 9999999 42 "1/1/1970, 2:46:39 AM" 1730000000
        true true true "0xfeed" 123456789.

(** The same request when the node answers [verifyDocument] but not
    [getDocument]. *)
Definition lookup_down_env : Env :=
  mkEnv 1730000000123 42 "10/27/2024, 3:33:20 AM" 1730000000
        true true false "0xfeed" 123456789.

Definition empty_world : World := mkWorld ∅ Contract.init [].

Definition no_certificate_found : Response :=
  mkResponse 400
    (ErrorBody "No certificate found in document" None
       (Some "This document does not appear to be a certified document. Please upload a certified document with QR code.")).

(** What [POST /api/verify-upload] of the QR server leaves when it finds
    no payload in file [f]: the answer, the file read once and removed,
    the ledger not asked. *)
Definition no_certificate (f : File) (w : World) : Res Response * World :=
  (Ok no_certificate_found,
   mkWorld (delete (path f) (fs w)) (chain w)
     (trace w ++ [FsRead (path f); FsUnlink (path f)])).

(** A ledger holding one record: [CERT-1] with fingerprint [aa],
    registered at time 100. *)
Definition one_record : World :=
  mkWorld ∅
    (Contract.step Contract.init (100, Contract.CallRegister "CERT-1" "aa"))
    [].

Definition QR_processing_failed : Response :=
  mkResponse 500 (ErrorBody "Document processing failed" None None).

Definition WM_processing_failed : Response :=
  mkResponse 500
    (ErrorBody "Failed to process document and add certificate" None None).

(** A PDF that pdf-lib cannot load, as multer stored it. *)
Definition damaged_pdf : File := mkFile "scan.pdf" "uploads/1-2.pdf" 9.

Definition damaged_pdf_world : World :=
  mkWorld {["uploads/1-2.pdf" := "not a pdf"]} Contract.init [].

Definition damaged_pdf_world_after : World :=
  mkWorld {["uploads/1-2.pdf" := "not a pdf"]}
    (Contract.step Contract.init
       (1730000000,
        Contract.CallRegister "CERT-00000123-0042" "sha256:not a pdf"))
    [FsRead "uploads/1-2.pdf";
     Rpc (Contract.CallRegister "CERT-00000123-0042" "sha256:not a pdf");
     FsRead "uploads/1-2.pdf"].

Definition hello_world : World :=
  mkWorld {["uploads/1-2.txt" := "hello"]} Contract.init [].

(** The same upload when the certificate number that [demo_env] generates
    is registered already. *)
Definition taken_world : World :=
  mkWorld {["uploads/1-2.txt" := "hello"]}
    (Contract.step Contract.init
       (100, Contract.CallRegister "CERT-00000123-0042" "aa"))
    [].

Definition hello_txt : File := mkFile "hello.txt" "uploads/1-2.txt" 5.

(** The watermark server after the upload of [hello_txt], and a later
    request that brings a copy of the same bytes. *)
Definition WM_after_upload : Res Response * World :=
  ServerWM.post_api_upload demo_lib demo_env (Some hello_txt) hello_world.

Definition WM_uploaded : Response :=
  match fst WM_after_upload with
  | Ok resp => resp
  | Throw e => mkResponse 0 (ErrorPage e)
  end.

Definition hello_copy : File := mkFile "copy.txt" "uploads/3-4.txt" 5.

Definition WM_copy_world : World :=
  mkWorld {["uploads/3-4.txt" := "hello"]} (chain (snd WM_after_upload)) [].

(** Stand-ins with the shape of the real ones: a digest of 64
    hexadecimal digits, and a parser that knows the payload of the
    certificate that [demo_env] gives to [hello]. *)
Definition digest_stub (bytes : string) : string :=
  JS.padStart 64 "0" (JS.Number_toString (Z.of_nat (String.length bytes))).

Definition hello_payload : string :=
  ServerQR.qr_payload "CERT-00000123-0042" (digest_stub "hello").

Definition parse_stub (text : string) : option JS.Parsed :=
  if String.eqb text hello_payload
  then Some (JS.PProps (JS.VString "CERT-00000123-0042")
                       (JS.VString (digest_stub "hello")))
  else None.

Definition office_lib : Lib :=
  mkLib (fun s => s) digest_stub demo_PDF_load demo_PDF_save
        (fun _ => true) (fun _ => true)
        (fun data => Some ("PNG:" +:+ data))
        parse_stub
        (fun ms => JS.Number_toString ms)
        (fun p ext => p).

(** The QR server after the upload of [hello_txt], and a later request
    that brings the certified file back. *)
Definition QR_after_upload : Res Response * World :=
  ServerQR.post_api_upload office_lib demo_env (Some hello_txt) hello_world.

Definition certified_copy : File := mkFile "certified.txt" "uploads/5-6.txt" 400.

Definition QR_copy_world : World :=
  mkWorld
    {["uploads/5-6.txt" :=
        ServerQR.certifiedContent "hello" "CERT-00000123-0042"
          (digest_stub "hello") (localeNow demo_env)]}
    (chain (snd QR_after_upload)) [].

(** The same for a PDF of one blank page. *)
Definition blank_pdf : File := mkFile "blank.pdf" "uploads/7-8.pdf" 5.

Definition blank_pdf_world : World :=
  mkWorld {["uploads/7-8.pdf" := "%PDF:"]} Contract.init [].

Definition QR_pdf_after_upload : Res Response * World :=
  ServerQR.post_api_upload office_lib demo_env (Some blank_pdf) blank_pdf_world.

Definition certified_pdf_copy : File :=
  mkFile "certified.pdf" "uploads/9-10.pdf" 120.

Definition QR_pdf_copy_world : World :=
  mkWorld
    {["uploads/9-10.pdf" :=
        default ""
          (fs (snd QR_pdf_after_upload)
             !! ServerQR.certified_path office_lib "blank.pdf"
                  "CERT-00000123-0042" ".pdf")]}
    (chain (snd QR_pdf_after_upload)) [].

(** A later request to the watermark server that brings its own
    certified file. *)
Definition WM_certified_world : World :=
  mkWorld
    {["uploads/3-4.txt" :=
        default ""
          (fs (snd WM_after_upload)
             !! ServerWM.certified_path demo_lib "hello.txt"
                  "CERT-00000123-0042" ".txt")]}
    (chain (snd WM_after_upload)) [].

(** A file part as it arrives in a request. *)
Definition hello_part : Upload := mkUpload "hello.txt" "hello".





(** An upload that is no UTF-8: the byte 255, then [a]. *)
Definition ill_formed_world : World :=
  mkWorld {["uploads/1-2.txt" := String (JS.char 255) "a"]} Contract.init [].

(** A text file that was stamped before: certificate [CERT-00000001-0001],
    fingerprint [aa]. *)
Definition stamped_once : string :=
  ServerQR.certifiedContent "hello" "CERT-00000001-0001" "aa"
    "10/26/2024, 9:00:00 AM".

Definition stamped_once_world : World :=
  mkWorld {["uploads/1-2.txt" := stamped_once]} Contract.init [].

(** The world after stamping it again for [CERT-00000002-0002], [bb]. *)
Definition stamped_twice_world : World :=
  snd (ServerQR.createCertifiedTextFile demo_env "uploads/1-2.txt"
         "certified-documents/out.txt" "CERT-00000002-0002" "bb"
         stamped_once_world).

End Fixtures.
(* ===================================================================== *)
(** * Properties of the registry contract                                *)
(* ===================================================================== *)

(** String concatenation computes on a constructor in the proofs below. *)
#[local] Arguments String.append !s1 s2 : simpl nomatch.

(** Case analysis on whatever a handler branches on. *)
Ltac branch :=
  match goal with
  | H : context [match ?x with _ => _ end] |- _ =>
      match type of x with
      | sumbool _ _ => fail 1
      | _ => destruct x eqn:?
      end
  | H : (_, _) = (_, _) |- _ =>
      first [ injection H as ? ?; subst | injection H as ?; subst ]
  | H : Node.Ok _ = Node.Ok _ |- _ => injection H as ?; subst
  | H : Node.Ok _ = Node.Throw _ |- _ => discriminate H
  | H : Node.Throw _ = Node.Ok _ |- _ => discriminate H
  end.

Ltac branches :=
  repeat (branch; cbn [Http.body Http.status] in * ); try discriminate.

Section ContractFacts.
Import Contract.

Lemma documents_at_insert (m : gmap string Document) (ev : list Event)
    (k k' : string) (d : Document) :
  documents_at (mkState (<[k := d]> m) ev) k'
  = if decide (k = k') then d else documents_at (mkState m ev) k'.
Proof.
  unfold documents_at; simpl. rewrite lookup_insert.
  destruct (decide (k = k')); reflexivity.
Qed.

Lemma documents_at_events (m : gmap string Document) (ev ev' : list Event)
    (k : string) :
  documents_at (mkState m ev) k = documents_at (mkState m ev') k.
Proof. reflexivity. Qed.

Lemma registerDocument_fresh now id h st :
  exists_ (documents_at st id) = false ->
  registerDocument now id h st
  = Return (mkState (<[id := mkDocument id h now true]> (documents st))
                    (events st ++ [DocumentRegistered id h now])).
Proof. intros E. unfold registerDocument. rewrite E. reflexivity. Qed.

Lemma registerDocument_taken now id h st :
  exists_ (documents_at st id) = true ->
  registerDocument now id h st = Revert AlreadyExists.
Proof. intros E. unfold registerDocument. rewrite E. reflexivity. Qed.

Lemma registerDocument_inv now id h st st' :
  registerDocument now id h st = Return st' ->
  exists_ (documents_at st id) = false /\
  st' = mkState (<[id := mkDocument id h now true]> (documents st))
                (events st ++ [DocumentRegistered id h now]).
Proof.
  unfold registerDocument.
  destruct (exists_ (documents_at st id)); simpl; intros E.
  - discriminate.
  - injection E as <-. split; reflexivity.
Qed.

Lemma step_keeps_record st c k :
  exists_ (documents_at st k) = true ->
  documents_at (step st c) k = documents_at st k.
Proof.
  intros Hk. destruct c as [now [cert hash | cert hash | cert | cert]]; simpl;
    try reflexivity.
  destruct (registerDocument now cert hash st) as [st'|msg] eqn:E;
    [| reflexivity].
  apply registerDocument_inv in E as [Hfresh ->].
  destruct st as [m ev]. simpl. rewrite documents_at_insert.
  destruct (decide (cert = k)) as [->|]; [| reflexivity].
  rewrite Hk in Hfresh. discriminate.
Qed.

Lemma run_keeps_record cs : forall st k,
  exists_ (documents_at st k) = true ->
  documents_at (run cs st) k = documents_at st k.
Proof.
  induction cs as [| c cs IH]; intros st k Hk; [reflexivity |].
  change (run (c :: cs) st) with (run cs (step st c)).
  rewrite IH; rewrite step_keeps_record; auto.
Qed.

Lemma registrations_of_snoc k st e ds :
  registrations_of k (mkState ds (events st ++ [e]))
  = registrations_of k st
    ++ (if decide (ev_certificateNumber e = k) then [e] else []).
Proof.
  unfold registrations_of; simpl. rewrite filter_app. reflexivity.
Qed.

Lemma Inv_init : Inv init.
Proof. intros k. reflexivity. Qed.

Lemma Inv_registerDocument st now c h st' :
  Inv st -> registerDocument now c h st = Return st' -> Inv st'.
Proof.
  intros HI E. apply registerDocument_inv in E as [Hfresh ->].
  intros k. specialize (HI k). cbv zeta in *.
  destruct st as [m ev]. rewrite documents_at_insert.
  rewrite (registrations_of_snoc k (mkState m ev)).
  cbn [ev_certificateNumber].
  cbn [documents events].
  destruct (decide (c = k)) as [->|Hne]; cbn [exists_ documentHash timestamp certificateNumber].
  - rewrite Hfresh in HI. rewrite HI. split; reflexivity.
  - rewrite app_nil_r, (documents_at_events m _ ev).
    destruct (exists_ (documents_at (mkState m ev) k)).
    + exact HI.
    + exact HI.
Qed.

Lemma Inv_step st c : Inv st -> Inv (step st c).
Proof.
  intros HI. destruct c as [now [cert hash | cert hash | cert | cert]]; simpl;
    try exact HI.
  destruct (registerDocument now cert hash st) eqn:E; [| exact HI].
  eapply Inv_registerDocument; eauto.
Qed.

Lemma Inv_run cs : forall st, Inv st -> Inv (run cs st).
Proof.
  induction cs as [| c cs IH]; intros st HI; [exact HI |].
  change (run (c :: cs) st) with (run cs (step st c)).
  apply IH, Inv_step, HI.
Qed.

(** C1. Once [register(id, h1)] has succeeded, the record of [id] is
    the one it wrote, whatever calls follow; every later
    [register(id, h2)] reverts with "already exists" and changes nothing;
    and no call of the interface changes or removes a record that exists. *)
Theorem register_is_write_once (st st1 : State) (now : Z) (id h1 : string) :
  registerDocument now id h1 st = Return st1 ->
  documents_at st1 id = mkDocument id h1 now true /\
  (forall cs now' h2,
      documents_at (run cs st1) id = mkDocument id h1 now true /\
      registerDocument now' id h2 (run cs st1) = Revert AlreadyExists /\
      step (run cs st1) (now', CallRegister id h2) = run cs st1) /\
  (forall s c k,
      exists_ (documents_at s k) = true ->
      documents_at (step s c) k = documents_at s k).
Proof.
  intros E. apply registerDocument_inv in E as [_ ->].
  assert (H1 : documents_at
                 (mkState (<[id := mkDocument id h1 now true]> (documents st))
                          (events st ++ [DocumentRegistered id h1 now])) id
               = mkDocument id h1 now true).
  { rewrite documents_at_insert. destruct (decide (id = id)); congruence. }
  split; [exact H1 |]. split.
  - intros cs now' h2.
    assert (H2 : documents_at (run cs
                   (mkState (<[id := mkDocument id h1 now true]> (documents st))
                            (events st ++ [DocumentRegistered id h1 now]))) id
                 = mkDocument id h1 now true).
    { rewrite run_keeps_record; rewrite H1; reflexivity. }
    split; [exact H2 |].
    assert (H3 : registerDocument now' id h2 (run cs
                   (mkState (<[id := mkDocument id h1 now true]> (documents st))
                            (events st ++ [DocumentRegistered id h1 now])))
                 = Revert AlreadyExists).
    { apply registerDocument_taken. rewrite H2. reflexivity. }
    split; [exact H3 |]. simpl. rewrite H3. reflexivity.
  - intros s c k. apply step_keeps_record.
Qed.

Lemma register_is_write_once_witness :
  documents_at
    (run [(200, CallRegister "CERT-1" "bb"); (300, CallVerify "CERT-1" "bb")]
         (mkState {["CERT-1" := mkDocument "CERT-1" "aa" 100 true]}
                  [DocumentRegistered "CERT-1" "aa" 100]))
    "CERT-1"
  = mkDocument "CERT-1" "aa" 100 true.
Proof.
  exact (proj1 (proj1 (proj2
    (register_is_write_once init _ 100 "CERT-1" "aa" eq_refl))
    [(200, CallRegister "CERT-1" "bb"); (300, CallVerify "CERT-1" "bb")]
    0 "")).
Defined.

(** C9. In every reachable state a record that exists is stored under
    its own certificate number, and its hash and timestamp are those of
    the single [DocumentRegistered] event of that number;
    [registerDocument], the only writer, preserves the invariant. *)
Theorem storage_invariant :
  (forall st, reachable st -> Inv st) /\
  (forall st now c h st',
      Inv st -> registerDocument now c h st = Return st' -> Inv st') /\
  (forall st c, Inv st -> Inv (step st c)).
Proof.
  split; [| split].
  - intros st [cs <-]. apply Inv_run, Inv_init.
  - apply Inv_registerDocument.
  - apply Inv_step.
Qed.

Section VerifyFacts.
Context {Digest : Type} `{EqDecision Digest} (keccak256 : string -> Digest).
Hypothesis keccak256_inj : forall a b, keccak256 a = keccak256 b -> a = b.

Lemma verifyDocument_cases (st : State) (id h : string) :
  verifyDocument keccak256 id h st
  = if exists_ (documents_at st id)
    then (bool_decide (h = documentHash (documents_at st id)),
          timestamp (documents_at st id))
    else (false, 0).
Proof.
  unfold verifyDocument, abi_encodePacked.
  destruct (exists_ (documents_at st id)); simpl; [| reflexivity].
  f_equal. apply bool_decide_ext. split.
  - intros E. symmetry. apply keccak256_inj, E.
  - intros ->. reflexivity.
Qed.

(** C2. [verify(id, h)] answers [(false, 0)] when [id] has no record;
    otherwise it answers whether [h] is the stored fingerprint,
    together with the stored registration time, match or no match. *)
Theorem verifyDocument_spec (st : State) (id h : string) :
  verifyDocument keccak256 id h st
  = if exists_ (documents_at st id)
    then (bool_decide (h = documentHash (documents_at st id)),
          timestamp (documents_at st id))
    else (false, 0).
Proof. apply verifyDocument_cases. Qed.
End VerifyFacts.

End ContractFacts.

Lemma verifyDocument_spec_witness :
  Contract.verifyDocument (fun s : string => s) "CERT-1" "bb"
    (Contract.step Contract.init (100, Contract.CallRegister "CERT-1" "aa"))
  = (false, 100) /\
  Contract.verifyDocument (fun s : string => s) "CERT-1" "aa"
    (Contract.step Contract.init (100, Contract.CallRegister "CERT-1" "aa"))
  = (true, 100) /\
  Contract.verifyDocument (fun s : string => s) "CERT-2" "aa"
    (Contract.step Contract.init (100, Contract.CallRegister "CERT-1" "aa"))
  = (false, 0).
Proof.
  split; [| split].
  - exact (verifyDocument_spec (fun s : string => s) (fun a b E => E)
             (Contract.step Contract.init
                (100, Contract.CallRegister "CERT-1" "aa"))
             "CERT-1" "bb").
  - exact (verifyDocument_spec (fun s : string => s) (fun a b E => E)
             (Contract.step Contract.init
                (100, Contract.CallRegister "CERT-1" "aa"))
             "CERT-1" "aa").
  - exact (verifyDocument_spec (fun s : string => s) (fun a b E => E)
             (Contract.step Contract.init
                (100, Contract.CallRegister "CERT-1" "aa"))
             "CERT-2" "aa").
Defined.

(** ** The wrapper *)

Lemma Number_of_BigInt_exact b : 0 <= b < 2 ^ 53 -> JS.Number_of_BigInt b = b.
Proof.
  intros Hb. unfold JS.Number_of_BigInt.
  assert (Hl : Z.log2 b <= 52).
  { destruct (Z.eq_dec b 0) as [-> | Hz]; [simpl; lia |].
    assert (Z.log2 b < 53) by (apply Z.log2_lt_pow2; lia). lia. }
  destruct (Z.log2 b - 52 <=? 0) eqn:E; [reflexivity |].
  apply Z.leb_gt in E. lia.
Qed.

(** With the node up, the wrapper's [verifyDocument] is the contract's,
    the time converted to a number. *)
Lemma service_verifyDocument lib env (cert hash : string) w :
  Node.rpc_verify_up env = true ->
  BlockchainService.verifyDocument lib env (JS.VString cert) (JS.VString hash) w
  = (Node.Ok (BlockchainService.Success
       (BlockchainService.mkVerified
          (fst (Contract.verifyDocument (Node.keccak256 lib) cert hash
                  (Node.chain w)))
          (JS.Number_of_BigInt
             (snd (Contract.verifyDocument (Node.keccak256 lib) cert hash
                     (Node.chain w)))))),
     Node.mkWorld (Node.fs w) (Node.chain w)
       (Node.trace w ++ [Node.Rpc (Contract.CallVerify cert hash)])).
Proof.
  intros Hup. unfold BlockchainService.verifyDocument, Node.bind, Node.emit.
  cbn [BlockchainService.as_string]. rewrite Hup. cbn [Node.chain Node.fs Node.trace].
  destruct (Contract.verifyDocument _ cert hash (Node.chain w)). reflexivity.
Qed.

(* ===================================================================== *)
(** * Properties of the string and number primitives                     *)
(* ===================================================================== *)

Section JSFacts.
Import JS.

Lemma length_append (a b : string) :
  String.length (a +:+ b) = (String.length a + String.length b)%nat.
Proof. induction a as [| c a IH]; simpl; [reflexivity | now rewrite IH]. Qed.

Lemma append_assoc (a b c : string) : (a +:+ b) +:+ c = a +:+ (b +:+ c).
Proof. induction a as [| x a IH]; simpl; [reflexivity | now rewrite IH]. Qed.

Lemma append_empty_r (a : string) : a +:+ "" = a.
Proof. induction a as [| x a IH]; simpl; [reflexivity | now rewrite IH]. Qed.

Lemma all_chars_app f (a b : string) :
  all_chars f (a +:+ b) = all_chars f a && all_chars f b.
Proof.
  induction a as [| c a IH]; simpl; [reflexivity |].
  rewrite IH. now rewrite andb_assoc.
Qed.

Lemma length_drop n : forall s,
  String.length (drop n s) = (String.length s - n)%nat.
Proof.
  induction n as [| n IH]; intros [| c s]; simpl; try reflexivity.
  apply IH.
Qed.

Lemma all_chars_drop f n : forall s,
  all_chars f s = true -> all_chars f (drop n s) = true.
Proof.
  induction n as [| n IH]; intros [| c s]; simpl; auto.
  intros H. apply andb_true_iff in H as [_ H]. auto.
Qed.

Lemma take_app_exact (a b : string) : take (String.length a) (a +:+ b) = a.
Proof. induction a as [| c a IH]; simpl; [now destruct b | now rewrite IH]. Qed.

Lemma drop_app_exact (a b : string) : drop (String.length a) (a +:+ b) = b.
Proof. induction a as [| c a IH]; simpl; [reflexivity | exact IH]. Qed.

Lemma length_take_le n : forall s, (String.length (take n s) <= n)%nat.
Proof.
  induction n as [| n IH]; intros [| c s]; simpl; try lia.
  specialize (IH s). lia.
Qed.

Lemma take_drop n : forall s, take n s +:+ drop n s = s.
Proof.
  induction n as [| n IH]; intros [| c s]; simpl; try reflexivity.
  now rewrite IH.
Qed.

Lemma length_repeat_char c n : String.length (repeat (str c) n) = n.
Proof. induction n as [| n IH]; simpl; [reflexivity | now rewrite IH]. Qed.

Lemma all_chars_repeat_char f c n :
  f c = true -> all_chars f (repeat (str c) n) = true.
Proof. intros H. induction n as [| n IH]; simpl; [reflexivity | now rewrite H]. Qed.

Lemma strip_prefix_app (p s : string) : strip_prefix p (p +:+ s) = Some s.
Proof.
  induction p as [| c p IH]; simpl; [reflexivity |].
  now rewrite Ascii.eqb_refl.
Qed.

Lemma strip_prefix_Some (p s r : string) :
  strip_prefix p s = Some r -> s = p +:+ r.
Proof.
  revert s. induction p as [| c p IH]; intros [| d s]; simpl; intros H;
    try congruence.
  destruct (Ascii.eqb c d) eqn:E; [| discriminate].
  apply Ascii.eqb_eq in E as ->. f_equal. auto.
Qed.

(** *** Decimal digits *)

Lemma digit_char_spec d :
  0 <= d < 10 -> is_digit (digit_char d) = true /\ code (digit_char d) - 48 = d.
Proof.
  intros H.
  assert (C : d = 0 \/ d = 1 \/ d = 2 \/ d = 3 \/ d = 4 \/ d = 5 \/ d = 6
              \/ d = 7 \/ d = 8 \/ d = 9) by lia.
  repeat (destruct C as [-> | C]; [split; reflexivity |]).
  subst d. split; reflexivity.
Qed.

Lemma digits_go_all_digits fuel : forall n acc,
  0 <= n -> all_chars is_digit acc = true ->
  all_chars is_digit (digits_go fuel n acc) = true.
Proof.
  induction fuel as [| fuel IH]; intros n acc Hn Hacc; simpl; [exact Hacc |].
  assert (Hd : all_chars is_digit (String (digit_char (n mod 10)) acc) = true).
  { simpl. rewrite Hacc.
    destruct (digit_char_spec (n mod 10)) as [-> _];
      [apply Z.mod_pos_bound; lia | reflexivity]. }
  destruct (n / 10 =? 0); [exact Hd |].
  apply IH; [apply Z.div_pos; lia | exact Hd].
Qed.

Lemma digits_go_length_ge fuel : forall n acc,
  (String.length acc <= String.length (digits_go fuel n acc))%nat.
Proof.
  induction fuel as [| fuel IH]; intros n acc; simpl; [lia |].
  destruct (n / 10 =? 0); simpl; [lia |].
  specialize (IH (n / 10) (String (digit_char (n mod 10)) acc)). simpl in IH.
  lia.
Qed.

(** A number of at least [10^k] has more than [k] digits, given fuel
    for them. *)
Lemma digits_go_length_lower k : forall fuel n acc,
  (k < fuel)%nat -> 10 ^ Z.of_nat k <= n ->
  (k + 1 + String.length acc <= String.length (digits_go fuel n acc))%nat.
Proof.
  induction k as [| k IH]; intros fuel n acc Hf Hn;
    (destruct fuel as [| fuel]; [lia |]); simpl digits_go.
  - destruct (n / 10 =? 0); simpl; [lia |].
    pose proof (digits_go_length_ge fuel (n / 10)
                  (String (digit_char (n mod 10)) acc)) as H.
    simpl in H. lia.
  - assert (Hp : 10 ^ Z.of_nat (S k) = 10 * 10 ^ Z.of_nat k).
    { rewrite Nat2Z.inj_succ, Z.pow_succ_r by lia. reflexivity. }
    assert (Hq : 10 ^ Z.of_nat k <= n / 10).
    { apply Z.div_le_lower_bound; lia. }
    assert (0 < 10 ^ Z.of_nat k) by (apply Z.pow_pos_nonneg; lia).
    destruct (n / 10 =? 0) eqn:E; [apply Z.eqb_eq in E; lia |].
    specialize (IH fuel (n / 10) (String (digit_char (n mod 10)) acc)
                   ltac:(lia) Hq).
    simpl in IH. lia.
Qed.

(** A number below [10^k] has at most [k] digits. *)
Lemma digits_go_length_upper fuel : forall k n acc,
  (1 <= k)%nat -> 0 <= n < 10 ^ Z.of_nat k ->
  (String.length (digits_go fuel n acc) <= k + String.length acc)%nat.
Proof.
  induction fuel as [| fuel IH]; intros k n acc Hk Hn; simpl; [lia |].
  destruct (n / 10 =? 0) eqn:E; simpl; [lia |].
  apply Z.eqb_neq in E.
  destruct k as [| k]; [lia |].
  assert (Hp : 10 ^ Z.of_nat (S k) = 10 * 10 ^ Z.of_nat k).
  { rewrite Nat2Z.inj_succ, Z.pow_succ_r by lia. reflexivity. }
  assert (Hq : 0 <= n / 10 < 10 ^ Z.of_nat k).
  { split; [apply Z.div_pos; lia |].
    apply Z.div_lt_upper_bound; lia. }
  destruct k as [| k]; [simpl in Hq; lia |].
  specialize (IH (S k) (n / 10) (String (digit_char (n mod 10)) acc)
                 ltac:(lia) Hq).
  simpl in IH. simpl. lia.
Qed.

(** With fuel for them, the digits produced denote the number. *)
Lemma digits_go_value fuel : forall n acc,
  0 <= n < 10 ^ Z.of_nat fuel -> (1 <= fuel)%nat ->
  decimal_value (digits_go fuel n acc) 0 = decimal_value acc n.
Proof.
  induction fuel as [| fuel IH]; intros n acc Hn Hf; [lia |].
  simpl digits_go.
  assert (Hd : 0 <= n mod 10 < 10) by (apply Z.mod_pos_bound; lia).
  destruct (digit_char_spec _ Hd) as [_ Hc].
  pose proof (Z.div_mod n 10 ltac:(lia)) as Hdm.
  destruct (n / 10 =? 0) eqn:E.
  - apply Z.eqb_eq in E. simpl. rewrite Hc. f_equal. lia.
  - apply Z.eqb_neq in E.
    assert (Hp : 10 ^ Z.of_nat (S fuel) = 10 * 10 ^ Z.of_nat fuel).
    { rewrite Nat2Z.inj_succ, Z.pow_succ_r by lia. reflexivity. }
    assert (Hq : 0 <= n / 10 < 10 ^ Z.of_nat fuel).
    { split; [apply Z.div_pos; lia |].
      apply Z.div_lt_upper_bound; lia. }
    destruct fuel as [| fuel]; [simpl in Hq; lia |].
    rewrite IH by (try exact Hq; lia).
    simpl. rewrite Hc. f_equal. lia.
Qed.

Lemma digits_fuel n :
  0 <= n -> n < 10 ^ Z.of_nat (S (Z.to_nat (Z.log2 n))).
Proof.
  intros Hn. destruct (Z.eq_dec n 0) as [-> | Hz]; [reflexivity |].
  rewrite Nat2Z.inj_succ, Z2Nat.id by apply Z.log2_nonneg.
  pose proof (Z.log2_spec n ltac:(lia)) as [_ Hlt].
  eapply Z.lt_le_trans; [exact Hlt |].
  apply Z.pow_le_mono_l. lia.
Qed.

(** [digits] is the decimal notation: it denotes its argument. *)
Lemma digits_value n : 0 <= n -> decimal_value (digits n) 0 = n.
Proof.
  intros Hn. unfold digits.
  rewrite digits_go_value; [reflexivity | | lia].
  split; [exact Hn | apply digits_fuel, Hn].
Qed.

Lemma digits_all_digits n : 0 <= n -> all_chars is_digit (digits n) = true.
Proof. intros Hn. apply digits_go_all_digits; [exact Hn | reflexivity]. Qed.

Lemma digits_length_lower (k : nat) n :
  10 ^ Z.of_nat k <= n -> (k + 1 <= String.length (digits n))%nat.
Proof.
  intros Hn. unfold digits.
  assert (0 < 10 ^ Z.of_nat k) by (apply Z.pow_pos_nonneg; lia).
  assert (Hk : Z.of_nat k <= Z.log2 n).
  { apply Z.log2_le_pow2; [lia |].
    etransitivity; [| exact Hn]. apply Z.pow_le_mono_l. lia. }
  pose proof (digits_go_length_lower k (S (Z.to_nat (Z.log2 n))) n ""
                ltac:(lia) Hn) as H1.
  simpl String.length in H1 at 1. lia.
Qed.

Lemma digits_length_upper (k : nat) n :
  (1 <= k)%nat -> 0 <= n < 10 ^ Z.of_nat k ->
  (String.length (digits n) <= k)%nat.
Proof.
  intros Hk Hn. unfold digits.
  pose proof (digits_go_length_upper (S (Z.to_nat (Z.log2 n))) k n "" Hk Hn) as H.
  simpl String.length in H at 2. lia.
Qed.

Lemma digits_length_pos n : (1 <= String.length (digits n))%nat.
Proof.
  unfold digits. simpl digits_go.
  destruct (n / 10 =? 0); simpl; [lia |].
  pose proof (digits_go_length_ge (Z.to_nat (Z.log2 n)) (n / 10)
                (String (digit_char (n mod 10)) "")) as H.
  simpl in H. lia.
Qed.

End JSFacts.

(* ===================================================================== *)
(** * Certificate numbers                                                *)
(* ===================================================================== *)

Section CertificateNumber.
Import JS Node Http Fixtures.

Lemma Number_toString_nonneg n : 0 <= n -> Number_toString n = digits n.
Proof.
  intros H. unfold Number_toString.
  destruct (n <? 0) eqn:E; [apply Z.ltb_lt in E; lia | reflexivity].
Qed.

(** The random part: four digits. *)
Lemma random_part r :
  0 <= r < 10000 ->
  String.length (padStart 4 "0" (Number_toString r)) = 4%nat /\
  all_chars is_digit (padStart 4 "0" (Number_toString r)) = true.
Proof.
  intros Hr. rewrite Number_toString_nonneg by lia. unfold padStart.
  pose proof (digits_length_upper 4 r ltac:(lia) ltac:(simpl; lia)) as Hu.
  split.
  - rewrite length_append, length_repeat_char. lia.
  - rewrite all_chars_app, all_chars_repeat_char by reflexivity.
    apply digits_all_digits. lia.
Qed.

(** The time part when the clock shows eight digits or more. *)
Lemma timestamp_part now :
  10 ^ 7 <= now ->
  String.length (slice_last 8 (Number_toString now)) = 8%nat /\
  all_chars is_digit (slice_last 8 (Number_toString now)) = true.
Proof.
  intros Hn. rewrite Number_toString_nonneg by lia. unfold slice_last.
  pose proof (digits_length_lower 7 now Hn) as Hl.
  split.
  - rewrite length_drop. lia.
  - apply all_chars_drop, digits_all_digits. lia.
Qed.

(** The time part when it shows fewer. *)
Lemma timestamp_part_short now :
  0 <= now < 10 ^ 7 ->
  (String.length (slice_last 8 (Number_toString now)) <= 7)%nat.
Proof.
  intros Hn. rewrite Number_toString_nonneg by lia. unfold slice_last.
  pose proof (digits_length_upper 7 now ltac:(lia) Hn) as Hu.
  rewrite length_drop. lia.
Qed.

Lemma cert_pattern_length s : cert_pattern s = true -> String.length s = 18%nat.
Proof.
  unfold cert_pattern.
  destruct (strip_prefix "CERT-" s) as [r |] eqn:E1; [| discriminate].
  apply strip_prefix_Some in E1 as ->.
  destruct (strip_prefix "-" (drop 8 r)) as [r' |] eqn:E2;
    [| rewrite andb_false_r; discriminate].
  apply strip_prefix_Some in E2.
  intros H. apply andb_true_iff in H as [H12 H34].
  apply andb_true_iff in H12 as [H1 _].
  apply andb_true_iff in H34 as [H3 _].
  apply Nat.eqb_eq in H1, H3.
  rewrite <- (take_drop 8 r), E2.
  rewrite !length_append, H1. simpl. lia.
Qed.

Lemma cert_pattern_parts (ts rnd : string) :
  String.length ts = 8%nat -> all_chars is_digit ts = true ->
  String.length rnd = 4%nat -> all_chars is_digit rnd = true ->
  cert_pattern ("CERT" +:+ "-" +:+ ts +:+ "-" +:+ rnd) = true.
Proof.
  intros L1 D1 L2 D2. unfold cert_pattern.
  change ("CERT" +:+ "-" +:+ ts +:+ "-" +:+ rnd)
    with ("CERT-" +:+ (ts +:+ "-" +:+ rnd)).
  rewrite strip_prefix_app.
  replace (take 8 (ts +:+ "-" +:+ rnd)) with ts
    by (rewrite <- L1; symmetry; apply take_app_exact).
  replace (drop 8 (ts +:+ "-" +:+ rnd)) with ("-" +:+ rnd)
    by (rewrite <- L1; symmetry; apply drop_app_exact).
  rewrite strip_prefix_app, L1, D1, L2, D2. reflexivity.
Qed.

(** C8, as the code has it.  With a clock at or after epoch (no
    negative reading) and the random draw in its range, the generated
    identifier has the shape [CERT-dddddddd-dddd] exactly when the
    clock reading has at least eight digits, that is from
    1970-01-01T02:46:40Z on. *)
Theorem generateCertificateNumber_pattern (env : Env) :
  0 <= Date_now env ->
  0 <= random_10000 env < 10000 ->
  cert_pattern (generateCertificateNumber env) = true
  <-> 10 ^ 7 <= Date_now env.
Proof.
  intros Hnow Hr. unfold generateCertificateNumber.
  destruct (random_part _ Hr) as [L2 D2].
  split.
  - intros H. apply cert_pattern_length in H.
    destruct (Z_lt_le_dec (Date_now env) (10 ^ 7)) as [Hlt | Hge];
      [| exact Hge].
    pose proof (timestamp_part_short (Date_now env) ltac:(lia)) as Hs.
    rewrite !length_append, L2 in H. simpl in H. lia.
  - intros Hge. destruct (timestamp_part _ Hge) as [L1 D1].
    apply cert_pattern_parts; assumption.
Qed.

Lemma generateCertificateNumber_pattern_witness :
  cert_pattern (generateCertificateNumber demo_env) = true.
Proof.
  apply (proj2 (generateCertificateNumber_pattern demo_env
                  ltac:(simpl; lia) ltac:(simpl; lia))).
  simpl. lia.
Defined.

(** C8 as stated fails: a clock reading of seven digits gives seven
    digits in the identifier. *)
Lemma generateCertificateNumber_unset_clock :
  0 <= random_10000 unset_clock_env < 10000 /\
  generateCertificateNumber unset_clock_env = "CERT-9999999-0042" /\
  cert_pattern (generateCertificateNumber unset_clock_env) = false.
Proof. split; [simpl; lia | split; reflexivity]. Qed.

End CertificateNumber.

(* ===================================================================== *)
(** * The upload filter                                                  *)
(* ===================================================================== *)

Section UploadFilter.
Import JS Node Http Fixtures.

(** A file the filter refuses is answered by the default error handler:
    status 500, nothing stored. *)
Lemma refused_by_filter msg env handler u w :
  multer_originalname u <> "" ->
  fileFilter (multer_originalname u) = false ->
  route msg env handler (Some u) w
  = (Ok (mkResponse 500 (ErrorPage msg)), w).
Proof.
  intros Hn H. unfold route, single, bind. cbv zeta.
  destruct (String.eqb_spec (multer_originalname u) ""); [contradiction |].
  rewrite H. reflexivity.
Qed.

(** So is a file whose length reaches the limit. *)
Lemma refused_by_size msg env handler u w :
  multer_originalname u <> "" ->
  fileFilter (multer_originalname u) = true ->
  fileSize_limit <= byte_length (up_content u) ->
  route msg env handler (Some u) w
  = (Ok (mkResponse 500 (ErrorPage "File too large")), w).
Proof.
  intros Hn H Hs. unfold route, single, bind. cbv zeta.
  destruct (String.eqb_spec (multer_originalname u) ""); [contradiction |].
  rewrite H. apply Z.leb_le in Hs. rewrite Hs. reflexivity.
Qed.

(** A file with one of the five extensions, in any letter case, and
    shorter than the limit is stored and handed to the handler. *)
Lemma accepted_types_pass msg env u w :
  In (toLowerCase (extname (multer_originalname u)))
     [".pdf"; ".png"; ".jpg"; ".jpeg"; ".txt"] ->
  byte_length (up_content u) < fileSize_limit ->
  exists f w',
    single msg env (Some u) w = (Ok (Stored f), w') /\
    originalname f = multer_originalname u /\
    fs w' !! path f = Some (up_content u).
Proof.
  intros Hext Hs. unfold single, fileFilter. cbv zeta.
  destruct (String.eqb_spec (multer_originalname u) "") as [E |].
  { rewrite E in Hext. simpl in Hext.
    destruct Hext as [H | [H | [H | [H | [H | []]]]]]; discriminate H. }
  assert (Ht : allowedTypes_test
                 (toLowerCase (extname (multer_originalname u))) = true).
  { simpl in Hext.
    destruct Hext as [<- | [<- | [<- | [<- | [<- | []]]]]]; reflexivity. }
  rewrite Ht.
  assert (Hl : (fileSize_limit <=? byte_length (up_content u)) = false)
    by (apply Z.leb_gt; exact Hs).
  rewrite Hl. eexists _, _. split; [reflexivity |]. split; [reflexivity |].
  simpl. apply lookup_insert_eq.
Qed.

(** C7 on the code.  The pattern [/pdf|png|jpg|jpeg|txt/] is searched
    anywhere in the extension, so [notes.pdfx] passes the filter and is
    stored although it is none of the accepted types; and every refusal,
    for the type or for the size, is answered with status 500, not with
    a 4xx.  The size is refused from the limit on: a file of exactly
    10 MiB is refused as well.  Files with one of the five extensions
    and shorter than the limit are accepted. *)
Theorem upload_filter_at_failing_inputs :
  fileFilter "notes.pdfx" = true /\
  fst (single ServerQR.filter_message demo_env
         (Some (mkUpload "notes.pdfx" "hello")) empty_world)
  = Ok (Stored (mkFile "notes.pdfx"
                  "uploads/1730000000123-123456789.pdfx" 5)) /\
  fileFilter "setup.exe" = false /\
  fst (ServerQR.route_upload demo_lib demo_env
         (Some (mkUpload "setup.exe" "MZ")) empty_world)
  = Ok (mkResponse 500 (ErrorPage ServerQR.filter_message)) /\
  (forall msg env handler u w,
      multer_originalname u <> "" ->
      fileFilter (multer_originalname u) = false \/
      fileSize_limit <= byte_length (up_content u) ->
      exists page,
        route msg env handler (Some u) w
        = (Ok (mkResponse 500 (ErrorPage page)), w)) /\
  (forall msg env u w,
      In (toLowerCase (extname (multer_originalname u)))
         [".pdf"; ".png"; ".jpg"; ".jpeg"; ".txt"] ->
      byte_length (up_content u) < fileSize_limit ->
      exists f w', single msg env (Some u) w = (Ok (Stored f), w')).
Proof.
  split; [vm_compute; reflexivity |].
  split; [vm_compute; reflexivity |].
  split; [vm_compute; reflexivity |].
  split; [vm_compute; reflexivity |].
  split.
  - intros msg env handler u w Hn [Hf | Hs].
    + eexists. apply refused_by_filter; assumption.
    + destruct (fileFilter (multer_originalname u)) eqn:Hf.
      * eexists. apply refused_by_size; assumption.
      * eexists. apply refused_by_filter; assumption.
  - intros msg env u w Hext Hs.
    destruct (accepted_types_pass msg env u w Hext Hs) as (f & w' & H & _).
    eauto.
Qed.

(** What multer makes of the file name of a part: the directories go,
    and a part whose name is then empty is no file at all. *)
Lemma multer_originalname_examples :
  multer_originalname (mkUpload "C:\fakepath\scan.PDF" "") = "scan.PDF" /\
  multer_originalname (mkUpload "reports.pdf/" "") = "" /\
  fst (single ServerQR.filter_message demo_env
         (Some (mkUpload "reports.pdf/" "hello")) empty_world)
  = Ok NoFile.
Proof. repeat split; vm_compute; reflexivity. Qed.

End UploadFilter.

(* ===================================================================== *)
(** * The QR server's [verify-upload]                                    *)
(* ===================================================================== *)

Section VerifyUpload.
Import JS Node Http Fixtures.



(** Through the route: a stamped image passes the filter, is stored and
    removed again, and the answer is the same 400. *)
Lemma verify_upload_png_through_route :
  ServerQR.route_verify_upload demo_lib demo_env
    (Some (mkUpload "stamped.png" "PNG")) empty_world
  = (Ok no_certificate_found,
     mkWorld ∅ Contract.init
       [FsWrite "uploads/1730000000123-123456789.png";
        FsUnlink "uploads/1730000000123-123456789.png"]).
Proof. vm_compute. reflexivity. Qed.

End VerifyUpload.

(* ===================================================================== *)
(** * Verdict messages                                                   *)
(* ===================================================================== *)

Section VerdictMessages.
Import JS Node Http Fixtures.








(** The handlers do query [lookup] after [verify]: what it returns
    fills [registeredHash], nothing else. *)
Lemma WM_verdict_calls lib env (cert hash : string) w :
  rpc_verify_up env = true -> rpc_get_up env = true ->
  exists r,
    ServerWM.verdict lib env (VString cert) (VString hash) w
    = (Ok r, mkWorld (fs w) (chain w)
               (trace w ++ [Rpc (Contract.CallVerify cert hash)]
                        ++ [Rpc (Contract.CallGet cert)])).
Proof.
  intros Hv Hg.
  unfold ServerWM.verdict, BlockchainService.verifyDocument,
    BlockchainService.getDocument, bind, ret, emit, json.
  cbn [BlockchainService.as_string]. rewrite Hv, Hg. cbn [fs chain trace].
  destruct (Contract.verifyDocument _ cert hash (chain w)) as [valid ts].
  cbn [fs chain trace].
  destruct (Contract.getDocument cert (chain w)) as [[[c0 h0] t0] e0].
  rewrite <- app_assoc. eexists. reflexivity.
Qed.


End VerdictMessages.

(* ===================================================================== *)
(** * Temporary files of the upload handlers                             *)
(* ===================================================================== *)

Section UploadCleanup.
Import JS Node Http Fixtures.
Local Open Scope node_scope.

Lemma keeps_ret {A} (a : A) : keeps_files (ret a).
Proof. intros w r w' H p Hp. injection H as <- <-. exact Hp. Qed.

Lemma keeps_throw {A} e : keeps_files (@throw A e).
Proof. intros w r w' H p Hp. injection H as <- <-. exact Hp. Qed.

Lemma keeps_bind {A B} (m : M A) (k : A -> M B) :
  keeps_files m -> (forall a, keeps_files (k a)) -> keeps_files (bind m k).
Proof.
  intros Hm Hk w r w' H p Hp. unfold bind in H.
  destruct (m w) as [[a | e] w1] eqn:E.
  - eapply Hk; [exact H |]. eapply Hm; eauto.
  - injection H as <- <-. eapply Hm; eauto.
Qed.

Lemma keeps_try_catch {A} (m : M A) (h : string -> M A) :
  keeps_files m -> (forall e, keeps_files (h e)) -> keeps_files (try_catch m h).
Proof.
  intros Hm Hh w r w' H p Hp. unfold try_catch in H.
  destruct (m w) as [[a | e] w1] eqn:E.
  - injection H as <- <-. eapply Hm; eauto.
  - eapply Hh; [exact H |]. eapply Hm; eauto.
Qed.

Lemma keeps_emit e : keeps_files (emit e).
Proof. intros w r w' H p Hp. injection H as <- <-. exact Hp. Qed.

Lemma keeps_existsSync p : keeps_files (existsSync p).
Proof. intros w r w' H q Hq. injection H as <- <-. exact Hq. Qed.

Lemma keeps_readFileSync p : keeps_files (readFileSync p).
Proof.
  intros w r w' H q Hq. unfold readFileSync in H.
  destruct (fs w !! p); injection H as <- <-; exact Hq.
Qed.

Lemma keeps_readFileSync_utf8 p : keeps_files (readFileSync_utf8 p).
Proof.
  apply keeps_bind; [apply keeps_readFileSync | intros; apply keeps_ret].
Qed.

Lemma keeps_writeFileSync p data : keeps_files (writeFileSync p data).
Proof.
  intros w r w' H q Hq. injection H as <- <-. simpl.
  rewrite lookup_insert. destruct (decide (p = q)); [eauto | exact Hq].
Qed.

Lemma keeps_registerDocument env c h :
  keeps_files (BlockchainService.registerDocument env c h).
Proof.
  unfold BlockchainService.registerDocument.
  destruct (rpc_register_up env); [| apply keeps_ret].
  apply keeps_bind; [apply keeps_emit |]. intros _ w r w' H p Hp.
  destruct (Contract.registerDocument _ _ _ _); injection H as <- <-;
    exact Hp.
Qed.

(** Goals [keeps_files m], by the structure of [m]. *)
Ltac keeps :=
  repeat first
    [ apply keeps_ret | apply keeps_throw | apply keeps_emit
    | apply keeps_existsSync | apply keeps_readFileSync
    | apply keeps_readFileSync_utf8 | apply keeps_writeFileSync
    | apply keeps_registerDocument
    | apply keeps_bind; [| intros]
    | apply keeps_try_catch; [| intros]
    | match goal with
      | |- keeps_files (match ?x with _ => _ end) => destruct x
      | |- keeps_files (let _ := _ in _) => cbv zeta
      end ].

Lemma keeps_generateDocumentHash lib p :
  keeps_files (generateDocumentHash lib p).
Proof. unfold generateDocumentHash. keeps. Qed.

Lemma QR_keeps_generateQRCode lib c h :
  keeps_files (ServerQR.generateQRCode lib c h).
Proof. unfold ServerQR.generateQRCode. keeps. Qed.

Lemma QR_keeps_processCertifiedDocument lib env i c h o :
  keeps_files (ServerQR.processCertifiedDocument lib env i c h o).
Proof.
  unfold ServerQR.processCertifiedDocument,
    ServerQR.addMinimalCertificateToPDF, ServerQR.convertImageToPDF,
    ServerQR.createCertifiedTextFile.
  keeps; try apply QR_keeps_generateQRCode; keeps.
Qed.

Lemma WM_keeps_processCertifiedDocument lib env i c h o :
  keeps_files (ServerWM.processCertifiedDocument lib env i c h o).
Proof.
  unfold ServerWM.processCertifiedDocument, ServerWM.addCertificateToPDF,
    ServerWM.convertImageToPDF, ServerWM.createCertifiedTextFile.
  keeps.
Qed.

Lemma unlink_if_exists_removes p w r w' :
  unlink_if_exists (Some p) w = (r, w') -> fs w' !! p = None.
Proof.
  unfold unlink_if_exists, bind, existsSync, unlinkSync, ret.
  destruct (fs w !! p) as [bytes |] eqn:E; simpl.
  - rewrite E.
    intros H. injection H as <- <-. simpl. apply lookup_delete_eq.
  - intros H. injection H as <- <-. exact E.
Qed.

(** The two siblings that do clean up: when the registration fails, and
    when an error is thrown, the uploaded file is gone before the
    answer. *)
Ltac pair_inv H :=
  let H1 := fresh "Hres" in
  let H2 := fresh "Hw" in
  injection H as H1 H2; try (injection H1 as H1); subst.

Lemma QR_upload_cleans_on_error lib env f w r w' :
  ServerQR.post_api_upload lib env (Some f) w = (Ok r, w') ->
  (exists d, body r = ErrorBody "Blockchain registration failed" d None) \/
  (exists d, body r = ErrorBody "Server error" d None) ->
  fs w' !! path f = None.
Proof.
  unfold ServerQR.post_api_upload, try_catch, bind. cbn [option_map].
  intros H Hr.
  destruct (generateDocumentHash lib (path f) w) as [[h | e] w1] eqn:E1.
  - destruct (BlockchainService.registerDocument env _ h w1)
      as [[[tx | err] | e] w2] eqn:E2.
    + destruct (ServerQR.processCertifiedDocument lib env _ _ _ _ w2)
        as [[[out |] | e] w3] eqn:E3.
      * pair_inv H. destruct Hr as [[d Hd] | [d Hd]]; discriminate Hd.
      * pair_inv H. destruct Hr as [[d Hd] | [d Hd]]; discriminate Hd.
      * destruct (unlink_if_exists (Some (path f)) w3) as [[[] | e'] w4] eqn:E4;
          pair_inv H; eapply unlink_if_exists_removes; eauto.
    + destruct (unlink_if_exists (Some (path f)) w2) as [[[] | e'] w4] eqn:E4.
      * pair_inv H. eapply unlink_if_exists_removes; eauto.
      * destruct (unlink_if_exists (Some (path f)) w4) as [[[] | e''] w5] eqn:E5;
          pair_inv H; eapply unlink_if_exists_removes; eauto.
    + destruct (unlink_if_exists (Some (path f)) w2) as [[[] | e'] w4] eqn:E4;
        pair_inv H; eapply unlink_if_exists_removes; eauto.
  - destruct (unlink_if_exists (Some (path f)) w1) as [[[] | e'] w4] eqn:E4;
      pair_inv H; eapply unlink_if_exists_removes; eauto.
Qed.

Lemma WM_upload_cleans_on_error lib env f w r w' :
  ServerWM.post_api_upload lib env (Some f) w = (Ok r, w') ->
  (exists d, body r = ErrorBody "Failed to register on blockchain" d None) \/
  (exists d, body r = ErrorBody "Internal server error" d None) ->
  fs w' !! path f = None.
Proof.
  unfold ServerWM.post_api_upload, try_catch, bind. cbn [option_map].
  intros H Hr.
  destruct (generateDocumentHash lib (path f) w) as [[h | e] w1] eqn:E1.
  - destruct (BlockchainService.registerDocument env _ h w1)
      as [[[tx | err] | e] w2] eqn:E2.
    + destruct (ServerWM.processCertifiedDocument lib env _ _ _ _ w2)
        as [[[out |] | e] w3] eqn:E3.
      * pair_inv H. destruct Hr as [[d Hd] | [d Hd]]; discriminate Hd.
      * pair_inv H. destruct Hr as [[d Hd] | [d Hd]]; discriminate Hd.
      * destruct (unlink_if_exists (Some (path f)) w3) as [[[] | e'] w4] eqn:E4;
          pair_inv H; eapply unlink_if_exists_removes; eauto.
    + destruct (unlink_if_exists (Some (path f)) w2) as [[[] | e'] w4] eqn:E4.
      * pair_inv H. eapply unlink_if_exists_removes; eauto.
      * destruct (unlink_if_exists (Some (path f)) w4) as [[[] | e''] w5] eqn:E5;
          pair_inv H; eapply unlink_if_exists_removes; eauto.
    + destruct (unlink_if_exists (Some (path f)) w2) as [[[] | e'] w4] eqn:E4;
        pair_inv H; eapply unlink_if_exists_removes; eauto.
  - destruct (unlink_if_exists (Some (path f)) w1) as [[[] | e'] w4] eqn:E4;
      pair_inv H; eapply unlink_if_exists_removes; eauto.
Qed.

Lemma QR_processing_failure_leaves_upload lib env f w w' :
  is_Some (fs w !! path f) ->
  ServerQR.post_api_upload lib env (Some f) w = (Ok QR_processing_failed, w') ->
  is_Some (fs w' !! path f).
Proof.
  unfold ServerQR.post_api_upload, try_catch, bind. cbn [option_map].
  intros Hf H.
  destruct (generateDocumentHash lib (path f) w) as [[h | e] w1] eqn:E1.
  - apply keeps_generateDocumentHash in E1. specialize (E1 _ Hf).
    destruct (BlockchainService.registerDocument env _ h w1)
      as [[[tx | err] | e] w2] eqn:E2;
      apply keeps_registerDocument in E2; specialize (E2 _ E1).
    + destruct (ServerQR.processCertifiedDocument lib env _ _ _ _ w2)
        as [[[out |] | e] w3] eqn:E3;
        apply QR_keeps_processCertifiedDocument in E3; specialize (E3 _ E2).
      * discriminate H.
      * injection H as <-. exact E3.
      * destruct (unlink_if_exists (Some (path f)) w3) as [[[] | e'] w4];
          discriminate H.
    + destruct (unlink_if_exists (Some (path f)) w2) as [[[] | e'] w4].
      * discriminate H.
      * destruct (unlink_if_exists (Some (path f)) w4) as [[[] | e''] w5];
          discriminate H.
    + destruct (unlink_if_exists (Some (path f)) w2) as [[[] | e'] w4];
        discriminate H.
  - destruct (unlink_if_exists (Some (path f)) w1) as [[[] | e'] w4];
      discriminate H.
Qed.

Lemma WM_processing_failure_leaves_upload lib env f w w' :
  is_Some (fs w !! path f) ->
  ServerWM.post_api_upload lib env (Some f) w = (Ok WM_processing_failed, w') ->
  is_Some (fs w' !! path f).
Proof.
  unfold ServerWM.post_api_upload, try_catch, bind. cbn [option_map].
  intros Hf H.
  destruct (generateDocumentHash lib (path f) w) as [[h | e] w1] eqn:E1.
  - apply keeps_generateDocumentHash in E1. specialize (E1 _ Hf).
    destruct (BlockchainService.registerDocument env _ h w1)
      as [[[tx | err] | e] w2] eqn:E2;
      apply keeps_registerDocument in E2; specialize (E2 _ E1).
    + destruct (ServerWM.processCertifiedDocument lib env _ _ _ _ w2)
        as [[[out |] | e] w3] eqn:E3;
        apply WM_keeps_processCertifiedDocument in E3; specialize (E3 _ E2).
      * discriminate H.
      * injection H as <-. exact E3.
      * destruct (unlink_if_exists (Some (path f)) w3) as [[[] | e'] w4];
          discriminate H.
    + destruct (unlink_if_exists (Some (path f)) w2) as [[[] | e'] w4].
      * discriminate H.
      * destruct (unlink_if_exists (Some (path f)) w4) as [[[] | e''] w5];
          discriminate H.
    + destruct (unlink_if_exists (Some (path f)) w2) as [[[] | e'] w4];
        discriminate H.
  - destruct (unlink_if_exists (Some (path f)) w1) as [[[] | e'] w4];
      discriminate H.
Qed.

(** C5 on the code.  When the stamping step fails after a successful
    registration, either server answers 500 without removing the
    uploaded file: it is still on disk when the answer is sent. *)
Theorem processing_failure_leaves_upload (lib : Lib) (env : Env) (f : File)
    (w w' : World) :
  is_Some (fs w !! path f) ->
  (ServerQR.post_api_upload lib env (Some f) w = (Ok QR_processing_failed, w')
   -> is_Some (fs w' !! path f)) /\
  (ServerWM.post_api_upload lib env (Some f) w = (Ok WM_processing_failed, w')
   -> is_Some (fs w' !! path f)).
Proof.
  intros Hf. split.
  - apply QR_processing_failure_leaves_upload, Hf.
  - apply WM_processing_failure_leaves_upload, Hf.
Qed.

Lemma damaged_pdf_upload :
  ServerQR.post_api_upload demo_lib demo_env
    (Some damaged_pdf) damaged_pdf_world
  = (Ok QR_processing_failed, damaged_pdf_world_after).
Proof. vm_compute. reflexivity. Qed.

Lemma processing_failure_leaves_upload_witness :
  is_Some (fs damaged_pdf_world_after !! "uploads/1-2.pdf").
Proof.
  exact (proj1 (processing_failure_leaves_upload demo_lib
                  demo_env damaged_pdf damaged_pdf_world
                  damaged_pdf_world_after
                  ltac:(vm_compute; eexists; reflexivity))
               damaged_pdf_upload).
Defined.

End UploadCleanup.

(* ===================================================================== *)
(** * Stamping plain text                                                *)
(* ===================================================================== *)

Section TextStamp.
Import JS Node Http Fixtures.

(** Text in ASCII is its own decoding. *)
Lemma utf8_decode_ascii (s : string) :
  all_chars (fun c => code c <=? 127) s = true -> utf8_decode s = s.
Proof.
  unfold utf8_decode. induction s as [| c s IH]; [reflexivity |].
  simpl. intros H. apply andb_true_iff in H as [Hc Hs].
  rewrite Hc. f_equal. apply IH, Hs.
Qed.

(** A byte that is no UTF-8 comes back as U+FFFD: three other bytes. *)
Lemma utf8_decode_replaces_invalid :
  utf8_decode (String (char 255) "a") = REPLACEMENT +:+ "a".
Proof. reflexivity. Qed.

Lemma QR_createCertifiedTextFile_run env inputPath outputPath c h w bytes :
  fs w !! inputPath = Some bytes ->
  ServerQR.createCertifiedTextFile env inputPath outputPath c h w
  = (Ok true,
     mkWorld
       (<[outputPath :=
            ServerQR.certifiedContent (utf8_decode bytes) c h (localeNow env)]>
          (fs w))
       (chain w)
       (trace w ++ [FsRead inputPath] ++ [FsWrite outputPath])).
Proof.
  intros Hf.
  unfold ServerQR.createCertifiedTextFile, try_catch, bind,
    readFileSync_utf8, bind, readFileSync.
  rewrite Hf. cbn [ret writeFileSync fs chain trace].
  rewrite <- app_assoc. reflexivity.
Qed.

Lemma WM_createCertifiedTextFile_run env inputPath outputPath c h w bytes :
  fs w !! inputPath = Some bytes ->
  ServerWM.createCertifiedTextFile env inputPath outputPath c h w
  = (Ok true,
     mkWorld
       (<[outputPath :=
            ServerWM.certifiedContent (utf8_decode bytes) c h (localeNow env)]>
          (fs w))
       (chain w)
       (trace w ++ [FsRead inputPath] ++ [FsWrite outputPath])).
Proof.
  intros Hf.
  unfold ServerWM.createCertifiedTextFile, try_catch, bind,
    readFileSync_utf8, bind, readFileSync.
  rewrite Hf. cbn [ret writeFileSync fs chain trace].
  rewrite <- app_assoc. reflexivity.
Qed.

(** The watermark server's output begins with a line feed, whatever
    the input. *)
Lemma WM_certifiedContent_head orig c h ts :
  exists rest, ServerWM.certifiedContent orig c h ts = String LF rest.
Proof.
  unfold ServerWM.certifiedContent, ServerWM.text_header, nl, str.
  eexists. reflexivity.
Qed.

Lemma startsWith_app (a b : string) : startsWith a (a +:+ b) = true.
Proof. unfold startsWith. rewrite strip_prefix_app. reflexivity. Qed.

Lemma startsWith_other_head (x y : ascii) (a b : string) :
  x <> y -> startsWith (String x a) (String y b) = false.
Proof.
  intros H. unfold startsWith. cbn [strip_prefix].
  destruct (Ascii.eqb_spec x y); [contradiction | reflexivity].
Qed.

Lemma WM_not_a_prefix first rest c h ts :
  first <> LF ->
  startsWith (String first rest)
    (ServerWM.certifiedContent (String first rest) c h ts) = false.
Proof.
  intros Hne.
  destruct (WM_certifiedContent_head (String first rest) c h ts)
    as [tail ->].
  apply startsWith_other_head, Hne.
Qed.

(** C4, as the code has it.  For a text file in well-formed UTF-8, the
    QR server writes the original bytes followed by the certificate
    block, so the original is a prefix of the output.  The watermark
    server writes a header block, which begins with a line feed, then
    the original bytes, then a footer block: the original is kept whole
    between the two, and it is not a prefix of the output unless it is
    empty or itself begins with a line feed. *)
Theorem text_stamp_layout (env : Env) (inputPath outputPath c h : string)
    (w : World) (bytes : string) :
  fs w !! inputPath = Some bytes ->
  utf8_decode bytes = bytes ->
  (exists w1 stamped,
      ServerQR.createCertifiedTextFile env inputPath outputPath c h w
      = (Ok true, w1) /\
      fs w1 !! outputPath = Some stamped /\
      stamped = bytes +:+ ServerQR.text_footer c h (localeNow env)
                            (ServerQR.qr_payload c h) /\
      startsWith bytes stamped = true) /\
  (exists w2 stamped,
      ServerWM.createCertifiedTextFile env inputPath outputPath c h w
      = (Ok true, w2) /\
      fs w2 !! outputPath = Some stamped /\
      stamped = ServerWM.text_header c h (localeNow env) +:+ bytes
                +:+ ServerWM.text_footer c /\
      (startsWith bytes stamped = true ->
       bytes = "" \/ exists rest, bytes = String LF rest)).
Proof.
  intros Hf Hv. split; eexists _, _.
  - split; [apply QR_createCertifiedTextFile_run, Hf |].
    cbn [fs]. rewrite lookup_insert_eq, Hv.
    split; [reflexivity |]. split; [reflexivity |]. apply startsWith_app.
  - split; [apply WM_createCertifiedTextFile_run, Hf |].
    cbn [fs]. rewrite lookup_insert_eq, Hv.
    split; [reflexivity |]. split; [reflexivity |].
    destruct bytes as [| first rest]; [left; reflexivity |].
    destruct (Ascii.eqb_spec first LF) as [-> | Hne]; [right; eauto |].
    intros Hp.
    assert (Hp' : startsWith (String first rest)
                    (ServerWM.certifiedContent (String first rest) c h
                       (localeNow env)) = true) by exact Hp.
    rewrite (WM_not_a_prefix first rest c h (localeNow env) Hne) in Hp'.
    discriminate Hp'.
Qed.

Lemma text_stamp_layout_witness :
  (exists w1 stamped,
      ServerQR.createCertifiedTextFile demo_env "uploads/1-2.txt"
        "certified-documents/hello_CERTIFIED_CERT-00000123-0042.txt"
        "CERT-00000123-0042" "aa" hello_world
      = (Ok true, w1) /\
      fs w1 !! "certified-documents/hello_CERTIFIED_CERT-00000123-0042.txt"
      = Some stamped /\
      stamped = "hello"
                +:+ ServerQR.text_footer "CERT-00000123-0042" "aa"
                      (localeNow demo_env)
                      (ServerQR.qr_payload "CERT-00000123-0042" "aa") /\
      startsWith "hello" stamped = true) /\
  (exists w2 stamped,
      ServerWM.createCertifiedTextFile demo_env "uploads/1-2.txt"
        "certified-documents/hello_CERTIFIED_CERT-00000123-0042.txt"
        "CERT-00000123-0042" "aa" hello_world
      = (Ok true, w2) /\
      fs w2 !! "certified-documents/hello_CERTIFIED_CERT-00000123-0042.txt"
      = Some stamped /\
      stamped = ServerWM.text_header "CERT-00000123-0042" "aa"
                  (localeNow demo_env)
                +:+ "hello" +:+ ServerWM.text_footer "CERT-00000123-0042" /\
      (startsWith "hello" stamped = true ->
       "hello" = "" \/ exists rest, "hello" = String LF rest)).
Proof.
  exact (text_stamp_layout demo_env "uploads/1-2.txt"
           "certified-documents/hello_CERTIFIED_CERT-00000123-0042.txt"
           "CERT-00000123-0042" "aa" hello_world "hello"
           eq_refl eq_refl).
Defined.

(** The two inputs for which the watermark server's output does begin
    with the original: the empty file, and a file that begins as the
    header does. *)
Lemma watermark_text_prefix_exceptions :
  startsWith ""
    (ServerWM.certifiedContent "" "CERT-00000123-0042" "aa"
       (localeNow demo_env)) = true /\
  startsWith nl
    (ServerWM.certifiedContent nl "CERT-00000123-0042" "aa"
       (localeNow demo_env)) = true.
Proof. split; vm_compute; reflexivity. Qed.

(** C4 as stated fails on the watermark server: the stamped file starts
    with the header, not with the original content. *)
Lemma watermark_text_is_not_a_prefix :
  fst (ServerWM.createCertifiedTextFile demo_env "uploads/1-2.txt"
         "certified-documents/out.txt" "CERT-00000123-0042" "aa" hello_world)
  = Ok true /\
  (stamped ← fs (snd (ServerWM.createCertifiedTextFile demo_env
                        "uploads/1-2.txt" "certified-documents/out.txt"
                        "CERT-00000123-0042" "aa" hello_world))
             !! "certified-documents/out.txt";
   Some (startsWith "hello" stamped, take 4 stamped))
  = Some (false, String LF "═").
Proof. split; vm_compute; reflexivity. Qed.

End TextStamp.

(* ===================================================================== *)
(** * Stamp, then extract                                                *)
(* ===================================================================== *)

Section RoundTrip.
Import JS Node Http Fixtures.

(** C3 on the code.  Stamping a text file that already carries a
    [QR Data (for verification): {...}] line puts the new line after it,
    and extraction takes the leftmost one: what comes back is the pair of
    the earlier registration, not the pair just registered. *)
Theorem restamped_text_yields_the_old_pair :
  fst (ServerQR.createCertifiedTextFile demo_env "uploads/1-2.txt"
         "certified-documents/out.txt" "CERT-00000002-0002" "bb"
         stamped_once_world)
  = Ok true /\
  (stamped ← fs stamped_twice_world !! "certified-documents/out.txt";
   ServerQR.match_qr (utf8_decode stamped))
  = Some (ServerQR.qr_payload "CERT-00000001-0001" "aa") /\
  ServerQR.qr_payload "CERT-00000001-0001" "aa"
  <> ServerQR.qr_payload "CERT-00000002-0002" "bb".
Proof.
  split; [vm_compute; reflexivity |].
  split; [vm_compute; reflexivity |].
  vm_compute. discriminate.
Qed.

(** The shortest such input: the extracted payload is [{}], with neither
    certificate nor hash. *)
Lemma marker_in_the_original :
  ServerQR.match_qr
    (ServerQR.certifiedContent "QR Data (for verification): {}"
       "CERT-00000002-0002" "bb" "10/27/2024, 3:33:20 AM")
  = Some "{}".
Proof. vm_compute. reflexivity. Qed.

(** The PDF path has no such case: the title is overwritten, and read
    back whole, provided the PDF library reads back what it wrote. *)
Lemma pdf_roundtrip lib inputPath outputPath c h w w1 :
  (forall d, PDF_load lib (PDF_save lib d) = Some d) ->
  ServerQR.addMinimalCertificateToPDF lib inputPath outputPath c h w
  = (Ok true, w1) ->
  fst (ServerQR.extractQRDataFromPDF lib outputPath w1)
  = Ok (Some (ServerQR.qr_payload c h)).
Proof.
  intros Hlib.
  unfold ServerQR.addMinimalCertificateToPDF, ServerQR.generateQRCode,
    try_catch, bind, readFileSync, writeFileSync, ret, throw.
  intros H. branches.
  all: unfold ServerQR.extractQRDataFromPDF, try_catch, bind, readFileSync.
  all: cbn [fs]; unfold pdfDoc_save; rewrite lookup_insert_eq, Hlib;
    reflexivity.
Qed.

Lemma image_roundtrip lib inputPath outputPath c h w w1 :
  (forall d, PDF_load lib (PDF_save lib d) = Some d) ->
  ServerQR.convertImageToPDF lib inputPath outputPath c h w = (Ok true, w1) ->
  fst (ServerQR.extractQRDataFromPDF lib outputPath w1)
  = Ok (Some (ServerQR.qr_payload c h)).
Proof.
  intros Hlib.
  unfold ServerQR.convertImageToPDF, ServerQR.generateQRCode,
    try_catch, bind, readFileSync, writeFileSync, ret, throw.
  intros H. branches.
  all: unfold ServerQR.extractQRDataFromPDF, try_catch, bind, readFileSync.
  all: cbn [fs]; unfold pdfDoc_save; rewrite lookup_insert_eq, Hlib;
    reflexivity.
Qed.

(** *** When the text path does recover the pair *)

Lemma all_chars_impl (f g : ascii -> bool) s :
  (forall x, f x = true -> g x = true) ->
  all_chars f s = true -> all_chars g s = true.
Proof.
  intros Hfg. induction s as [| x s IH]; [reflexivity |].
  cbn [all_chars].
  intros H. apply andb_true_iff in H as [Hx Hs].
  rewrite (Hfg _ Hx), (IH Hs). reflexivity.
Qed.

Lemma plain_char_inv x :
  ServerQR.plain_char x = true ->
  (32 <=? code x) = true /\ Ascii.eqb x dquote = false /\
  Ascii.eqb x backslash = false /\ Ascii.eqb x "}" = false /\
  Ascii.eqb "Q" x = false /\ (code x =? 226) = false.
Proof.
  unfold ServerQR.plain_char. intros H.
  repeat (apply andb_true_iff in H as [H ?]).
  repeat match goal with
         | H : negb _ = true |- _ => apply negb_true_iff in H
         end.
  repeat split; assumption.
Qed.

(** [JSON.stringify] escapes nothing in plain text. *)
Lemma json_escape_plain s :
  all_chars ServerQR.plain_char s = true -> json_escape s = s.
Proof.
  induction s as [| x s IH]; [reflexivity |].
  cbn [all_chars json_escape].
  intros H. apply andb_true_iff in H as [Hx Hs].
  apply plain_char_inv in Hx as (H32 & Hq & Hb & _ & _ & _).
  rewrite (IH Hs). unfold json_escape_char. rewrite Hq, Hb.
  apply Z.leb_le in H32.
  repeat match goal with
         | |- context [?a =? ?b] =>
             let E := fresh in
             destruct (a =? b) eqn:E; [apply Z.eqb_eq in E; lia |]
         end.
  destruct (code x <? 32) eqn:E; [apply Z.ltb_lt in E; lia |].
  reflexivity.
Qed.

Lemma lazy_to_brace_inner body tail :
  all_chars ServerQR.inner_char body = true ->
  ServerQR.lazy_to_brace (body +:+ String "}" tail) = Some (body +:+ "}").
Proof.
  induction body as [| x body IH]; [reflexivity |].
  intros H. cbn [all_chars] in H. apply andb_true_iff in H as [Hx Hs].
  unfold ServerQR.inner_char in Hx.
  repeat (apply andb_true_iff in Hx as [Hx ?]).
  repeat match goal with
         | H : negb _ = true |- _ => apply negb_true_iff in H
         end.
  change (String x body +:+ String "}" tail)
    with (String x (body +:+ String "}" tail)).
  change (String x body +:+ "}") with (String x (body +:+ "}")).
  cbn [ServerQR.lazy_to_brace]. rewrite Hx.
  assert (Ht : ServerQR.is_line_terminator_at
                 (String x (body +:+ String "}" tail)) = false).
  { unfold ServerQR.is_line_terminator_at.
    repeat match goal with H : _ = false |- _ => rewrite H; clear H end.
    simpl. destruct (body +:+ String "}" tail) as [| ? [| ? ?]]; reflexivity. }
  rewrite Ht, (IH Hs). reflexivity.
Qed.

(** Where the marker stands and a brace closes the line, the match is
    there. *)
Lemma match_qr_here content rest inner :
  strip_prefix ServerQR.marker content = Some rest ->
  ServerQR.lazy_to_brace rest = Some inner ->
  ServerQR.match_qr content = Some (String "{" inner).
Proof.
  intros Hm Hl. destruct content as [| x content]; [discriminate Hm |].
  cbn [ServerQR.match_qr]. rewrite Hm, Hl. reflexivity.
Qed.

(** No match starts at a character other than Q. *)
Lemma match_qr_skip pre rest :
  all_chars (fun x => negb (Ascii.eqb "Q" x)) pre = true ->
  ServerQR.match_qr (pre +:+ rest) = ServerQR.match_qr rest.
Proof.
  induction pre as [| x pre IH]; [reflexivity |].
  intros H. cbn [all_chars] in H. apply andb_true_iff in H as [Hx Hs].
  apply negb_true_iff in Hx.
  change (String x pre +:+ rest) with (String x (pre +:+ rest)).
  cbn [ServerQR.match_qr]. unfold ServerQR.marker at 1.
  cbn [strip_prefix]. rewrite Hx. apply IH, Hs.
Qed.

(** A pattern without the character [x] cannot match across [x]. *)
Lemma strip_prefix_boundary m : forall a x b,
  all_chars (fun y => negb (Ascii.eqb y x)) m = true ->
  strip_prefix m a = None ->
  strip_prefix m (a +:+ String x b) = None.
Proof.
  induction m as [| y m IH]; intros a x b Hm Ha; [discriminate Ha |].
  cbn [all_chars] in Hm. apply andb_true_iff in Hm as [Hy Hm].
  apply negb_true_iff in Hy.
  destruct a as [| z a].
  - change ("" +:+ String x b) with (String x b).
    cbn [strip_prefix]. rewrite Hy. reflexivity.
  - change (String z a +:+ String x b) with (String z (a +:+ String x b)).
    cbn [strip_prefix] in *. destruct (Ascii.eqb y z); [| reflexivity].
    apply IH; assumption.
Qed.

(** No match starts inside a text that does not contain the marker, when
    a line feed follows the text. *)
Lemma match_qr_skip_original orig rest :
  includes ServerQR.marker orig = false ->
  ServerQR.match_qr (orig +:+ String LF rest)
  = ServerQR.match_qr (String LF rest).
Proof.
  induction orig as [| x orig IH]; [reflexivity |].
  intros H. cbn [includes] in H.
  destruct (strip_prefix ServerQR.marker (String x orig)) eqn:E;
    [discriminate H |].
  change (String x orig +:+ String LF rest)
    with (String x (orig +:+ String LF rest)).
  rewrite <- (IH H).
  pose proof (strip_prefix_boundary ServerQR.marker (String x orig) LF rest
                ltac:(reflexivity) E) as Hb.
  change (String x orig +:+ String LF rest)
    with (String x (orig +:+ String LF rest)) in Hb.
  remember (orig +:+ String LF rest) as t.
  cbn [ServerQR.match_qr]. rewrite Hb. reflexivity.
Qed.

Lemma qr_payload_plain c h :
  all_chars ServerQR.plain_char c = true ->
  all_chars ServerQR.plain_char h = true ->
  ServerQR.qr_payload c h = "{" +:+ ServerQR.payload_body c h +:+ "}".
Proof.
  intros Hc Hh. unfold ServerQR.qr_payload, ServerQR.payload_body.
  unfold JSON_stringify_string at 2 4.
  rewrite (json_escape_plain c Hc), (json_escape_plain h Hh).
  rewrite !append_assoc. reflexivity.
Qed.

Lemma certifiedContent_shape orig c h ts :
  all_chars ServerQR.plain_char c = true ->
  all_chars ServerQR.plain_char h = true ->
  ServerQR.certifiedContent orig c h ts
  = orig +:+ String LF
      (ServerQR.before_marker c h ts
       +:+ (ServerQR.marker
            +:+ (ServerQR.payload_body c h +:+ String "}" ServerQR.after_payload))).
Proof.
  intros Hc Hh.
  unfold ServerQR.certifiedContent, ServerQR.text_footer.
  rewrite (qr_payload_plain c h Hc Hh).
  unfold ServerQR.before_marker, ServerQR.after_payload, ServerQR.marker, nl, str.
  rewrite !append_assoc. reflexivity.
Qed.

(** For a text without the marker line, stamped with a plain certificate
    number and fingerprint at a time whose local form has no Q, the
    extraction gives back the payload that was written. *)
Lemma text_roundtrip orig c h ts :
  includes ServerQR.marker orig = false ->
  all_chars ServerQR.plain_char c = true ->
  all_chars ServerQR.plain_char h = true ->
  all_chars (fun x => negb (Ascii.eqb "Q" x)) ts = true ->
  ServerQR.match_qr (ServerQR.certifiedContent orig c h ts)
  = Some (ServerQR.qr_payload c h).
Proof.
  intros Horig Hc Hh Hts.
  rewrite (certifiedContent_shape orig c h ts Hc Hh).
  rewrite (match_qr_skip_original orig _ Horig).
  change (String LF (ServerQR.before_marker c h ts +:+ ?r))
    with (String LF (ServerQR.before_marker c h ts) +:+ r).
  assert (HcQ : all_chars (fun x => negb (Ascii.eqb "Q" x)) c = true).
  { eapply all_chars_impl; [| exact Hc].
    intros x Hx. apply plain_char_inv in Hx as (_ & _ & _ & _ & HQ & _).
    rewrite HQ. reflexivity. }
  assert (HhQ : all_chars (fun x => negb (Ascii.eqb "Q" x)) h = true).
  { eapply all_chars_impl; [| exact Hh].
    intros x Hx. apply plain_char_inv in Hx as (_ & _ & _ & _ & HQ & _).
    rewrite HQ. reflexivity. }
  rewrite match_qr_skip.
  2:{ unfold ServerQR.before_marker.
      change (String LF (?a +:+ ?b)) with (String LF a +:+ b).
      rewrite !all_chars_app, HcQ, HhQ, Hts. reflexivity. }
  assert (Hinner : all_chars ServerQR.inner_char (ServerQR.payload_body c h) = true).
  { unfold ServerQR.payload_body.
    change (String dquote (c +:+ str dquote)) with (str dquote +:+ c +:+ str dquote).
    change (String dquote (h +:+ str dquote)) with (str dquote +:+ h +:+ str dquote).
    rewrite !all_chars_app.
    assert (Hi : forall s, all_chars ServerQR.plain_char s = true ->
                           all_chars ServerQR.inner_char s = true).
    { intros s. apply all_chars_impl. intros x Hx.
      apply plain_char_inv in Hx as (H32 & _ & _ & Hb & _ & H226).
      unfold ServerQR.inner_char. rewrite Hb, H226.
      apply Z.leb_le in H32.
      assert (Ascii.eqb x LF = false).
      { apply Ascii.eqb_neq. intros ->. change (32 <= 10) in H32. lia. }
      assert (Ascii.eqb x CR = false).
      { apply Ascii.eqb_neq. intros ->. change (32 <= 13) in H32. lia. }
      repeat match goal with H : _ = false |- _ => rewrite H; clear H end.
      reflexivity. }
    rewrite (Hi c Hc), (Hi h Hh). reflexivity. }
  rewrite (qr_payload_plain c h Hc Hh).
  apply (match_qr_here _ (ServerQR.payload_body c h +:+ String "}" ServerQR.after_payload)).
  - apply strip_prefix_app.
  - apply lazy_to_brace_inner, Hinner.
Qed.

Lemma text_roundtrip_example :
  ServerQR.match_qr
    (ServerQR.certifiedContent "hello" "CERT-00000123-0042" "9f86d081884c7d65"
       "10/27/2024, 3:33:20 AM")
  = Some (ServerQR.qr_payload "CERT-00000123-0042" "9f86d081884c7d65").
Proof.
  apply text_roundtrip; reflexivity.
Qed.

End RoundTrip.

(* ===================================================================== *)
(** * More on the registry contract                                      *)
(* ===================================================================== *)

Section ContractMore.
Import Contract.

Lemma all_exist_step st c : all_exist st -> all_exist (step st c).
Proof.
  intros HA. destruct c as [now [cert hash | cert hash | cert | cert]]; simpl;
    try exact HA.
  destruct (registerDocument now cert hash st) as [st' | msg] eqn:E;
    [| exact HA].
  apply registerDocument_inv in E as [_ ->]. intros k d. simpl.
  rewrite lookup_insert. destruct (decide (cert = k)).
  - intros [= <-]. reflexivity.
  - apply HA.
Qed.

Lemma all_exist_run cs : forall st, all_exist st -> all_exist (run cs st).
Proof.
  induction cs as [| c cs IH]; intros st HA; [exact HA |].
  change (run (c :: cs) st) with (run cs (step st c)).
  apply IH, all_exist_step, HA.
Qed.

Lemma all_exist_reachable st : reachable st -> all_exist st.
Proof.
  intros [cs <-]. apply all_exist_run. intros k d H.
  unfold init in H. simpl in H. rewrite lookup_empty in H. discriminate H.
Qed.

Lemma Inv_reachable st : reachable st -> Inv st.
Proof. intros [cs <-]. apply Inv_run, Inv_init. Qed.

Lemma absent_is_zero st k :
  all_exist st -> exists_ (documents_at st k) = false ->
  documents st !! k = None.
Proof.
  intros HA. unfold documents_at.
  destruct (documents st !! k) as [d |] eqn:E; [| reflexivity].
  simpl. rewrite (HA _ _ E). discriminate.
Qed.

Lemma registrations_of_nil k st :
  registrations_of k st = [] ->
  ~ In k (map ev_certificateNumber (events st)).
Proof.
  unfold registrations_of. intros Hnil Hin.
  apply in_map_iff in Hin as (e & He & Hin).
  assert (Hf : e ∈ filter (fun e => ev_certificateNumber e = k) (events st)).
  { apply list_elem_of_filter. split; [exact He |].
    apply list_elem_of_In, Hin. }
  rewrite Hnil in Hf. inversion Hf.
Qed.

Lemma verifyDocument_after_register {Digest : Type} `{EqDecision Digest}
    (keccak256 : string -> Digest) (now : Z) (id h : string) (st st' : State)
    (cs : list (Z * Call)) (h' : string) :
  (forall a b, keccak256 a = keccak256 b -> a = b) ->
  registerDocument now id h st = Return st' ->
  verifyDocument keccak256 id h' (run cs st') = (bool_decide (h' = h), now).
Proof.
  intros Hinj E. apply registerDocument_inv in E as [_ ->].
  rewrite (verifyDocument_cases keccak256 Hinj).
  rewrite run_keeps_record; rewrite documents_at_insert;
    destruct (decide (id = id)); try congruence; reflexivity.
Qed.

(** X1. After [register(id, h)] has succeeded, and whatever calls follow,
    [verify(id, h')] answers whether [h'] is [h], together with the time
    of that registration. *)
Theorem verify_after_register {Digest : Type} `{EqDecision Digest}
    (keccak256 : string -> Digest) (now : Z) (id h : string) (st st' : State) :
  (forall a b, keccak256 a = keccak256 b -> a = b) ->
  registerDocument now id h st = Return st' ->
  forall cs h',
    verifyDocument keccak256 id h' (run cs st') = (bool_decide (h' = h), now).
Proof.
  intros Hinj E cs h'. eapply verifyDocument_after_register; eauto.
Qed.

Lemma verify_after_register_witness :
  verifyDocument (fun s : string => s) "CERT-1" "bb"
    (run [(200, CallRegister "CERT-2" "cc"); (300, CallRegister "CERT-1" "bb")]
       (step init (100, CallRegister "CERT-1" "aa")))
  = (false, 100).
Proof.
  exact (verify_after_register (fun s : string => s) 100 "CERT-1" "aa" init _
           (fun a b E => E) eq_refl
           [(200, CallRegister "CERT-2" "cc"); (300, CallRegister "CERT-1" "bb")]
           "bb").
Defined.

(** X2. In a reachable state [getDocument] never answers with a half
    filled record: it gives either the all-zero tuple, or the key itself
    with the hash and time of a [DocumentRegistered] event of the log,
    and [exists] set. *)
Theorem getDocument_whole_or_absent (st : State) (k : string) :
  reachable st ->
  getDocument k st = ("", "", 0, false) \/
  exists h t,
    getDocument k st = (k, h, t, true) /\
    In (DocumentRegistered k h t) (events st).
Proof.
  intros Hr. pose proof (Inv_reachable st Hr k) as HI.
  pose proof (all_exist_reachable st Hr) as HA. cbv zeta in HI.
  unfold getDocument.
  destruct (exists_ (documents_at st k)) eqn:E.
  - right. destruct HI as [Hc Hreg].
    exists (documentHash (documents_at st k)), (timestamp (documents_at st k)).
    split; [rewrite Hc; reflexivity |].
    assert (Hin : DocumentRegistered k (documentHash (documents_at st k))
                    (timestamp (documents_at st k))
                  ∈ registrations_of k st) by (rewrite Hreg; left).
    apply list_elem_of_filter in Hin as [_ Hin].
    apply list_elem_of_In, Hin.
  - left. pose proof (absent_is_zero st k HA E) as Hn.
    unfold documents_at. rewrite Hn. reflexivity.
Qed.

Lemma getDocument_whole_or_absent_witness :
  getDocument "CERT-1" (step init (100, CallRegister "CERT-1" "aa"))
  = ("", "", 0, false) \/
  exists h t,
    getDocument "CERT-1" (step init (100, CallRegister "CERT-1" "aa"))
    = ("CERT-1", h, t, true) /\
    In (DocumentRegistered "CERT-1" h t)
       (events (step init (100, CallRegister "CERT-1" "aa"))).
Proof.
  exact (getDocument_whole_or_absent
           (step init (100, CallRegister "CERT-1" "aa")) "CERT-1"
           (ex_intro _ [(100, CallRegister "CERT-1" "aa")] eq_refl)).
Defined.

(** X3. In a reachable state the log is the list of the records: as many
    events as stored records, no certificate number twice, and a record
    exists for exactly the numbers in the log. *)
Theorem events_match_records (st : State) :
  reachable st ->
  length (events st) = size (documents st) /\
  NoDup (map ev_certificateNumber (events st)) /\
  (forall k, In k (map ev_certificateNumber (events st))
             <-> exists_ (documents_at st k) = true).
Proof.
  intros Hr.
  assert (Hiff : forall s, Inv s ->
            forall k, In k (map ev_certificateNumber (events s))
                      <-> exists_ (documents_at s k) = true).
  { intros s HI k. specialize (HI k). cbv zeta in HI.
    destruct (exists_ (documents_at s k)).
    - split; [reflexivity | intros _]. destruct HI as [_ Hreg].
      assert (Hin : DocumentRegistered k (documentHash (documents_at s k))
                      (timestamp (documents_at s k))
                    ∈ registrations_of k s) by (rewrite Hreg; left).
      apply list_elem_of_filter in Hin as [_ Hin].
      apply in_map_iff. eexists. split; [| apply list_elem_of_In, Hin].
      reflexivity.
    - split; [| discriminate]. intros Hin.
      exfalso. exact (registrations_of_nil k s HI Hin). }
  split; [| split; [| apply Hiff, Inv_reachable, Hr]].
  - destruct Hr as [cs <-].
    assert (G : forall s, Inv s -> all_exist s ->
              length (events s) = size (documents s) ->
              length (events (run cs s)) = size (documents (run cs s))).
    { induction cs as [| c cs IH]; intros s HI HA Hl; [exact Hl |].
      change (run (c :: cs) s) with (run cs (step s c)).
      apply IH; [apply Inv_step, HI | apply all_exist_step, HA |].
      destruct c as [now [cert hash | cert hash | cert | cert]]; simpl;
        try exact Hl.
      destruct (registerDocument now cert hash s) as [s' | msg] eqn:E;
        [| exact Hl].
      apply registerDocument_inv in E as [Hfresh ->]. simpl.
      rewrite length_app, map_size_insert_None
        by (apply absent_is_zero; assumption).
      simpl. lia. }
    apply G; [apply Inv_init | | reflexivity].
    intros k d H. unfold init in H. simpl in H.
    rewrite lookup_empty in H. discriminate H.
  - destruct Hr as [cs <-].
    assert (G : forall s, Inv s ->
              NoDup (map ev_certificateNumber (events s)) ->
              NoDup (map ev_certificateNumber (events (run cs s)))).
    { induction cs as [| c cs IH]; intros s HI Hn; [exact Hn |].
      change (run (c :: cs) s) with (run cs (step s c)).
      apply IH; [apply Inv_step, HI |].
      destruct c as [now [cert hash | cert hash | cert | cert]]; simpl;
        try exact Hn.
      destruct (registerDocument now cert hash s) as [s' | msg] eqn:E;
        [| exact Hn].
      apply registerDocument_inv in E as [Hfresh ->]. simpl.
      rewrite map_app. simpl. apply NoDup_app. split; [exact Hn |].
      split; [| apply NoDup_singleton].
      intros x Hx Hx'. apply list_elem_of_singleton in Hx' as ->.
      apply list_elem_of_In, (Hiff s HI) in Hx. congruence. }
    apply G; [apply Inv_init | constructor].
Qed.

Lemma events_match_records_witness :
  length (events (run [(100, CallRegister "CERT-1" "aa");
                       (200, CallRegister "CERT-1" "bb");
                       (300, CallRegister "CERT-2" "cc")] init))
  = size (documents (run [(100, CallRegister "CERT-1" "aa");
                          (200, CallRegister "CERT-1" "bb");
                          (300, CallRegister "CERT-2" "cc")] init)).
Proof.
  exact (proj1 (events_match_records _
                  (ex_intro _ [(100, CallRegister "CERT-1" "aa");
                               (200, CallRegister "CERT-1" "bb");
                               (300, CallRegister "CERT-2" "cc")] eq_refl))).
Defined.

End ContractMore.

(* ===================================================================== *)
(** * When two certificate numbers coincide                              *)
(* ===================================================================== *)

Section CertificateCollisions.
Import JS Node Http Fixtures.

Lemma decimal_value_app a : forall b v,
  decimal_value (a +:+ b) v = decimal_value b (decimal_value a v).
Proof.
  induction a as [| c a IH]; intros b v; [reflexivity |].
  change (String c a +:+ b) with (String c (a +:+ b)).
  cbn [decimal_value]. apply IH.
Qed.

Lemma pow10_length_succ (s : string) (c : ascii) :
  10 ^ Z.of_nat (String.length (String c s))
  = 10 * 10 ^ Z.of_nat (String.length s).
Proof.
  cbn [String.length]. rewrite Nat2Z.inj_succ, Z.pow_succ_r by lia.
  reflexivity.
Qed.

Lemma decimal_value_shift s : forall v,
  decimal_value s v
  = v * 10 ^ Z.of_nat (String.length s) + decimal_value s 0.
Proof.
  induction s as [| c s IH]; intros v.
  - simpl. lia.
  - rewrite pow10_length_succ. cbn [decimal_value].
    rewrite (IH (10 * v + (code c - 48))), (IH (10 * 0 + (code c - 48))).
    lia.
Qed.

Lemma is_digit_range c : is_digit c = true -> 0 <= code c - 48 < 10.
Proof.
  unfold is_digit. intros H. apply andb_true_iff in H as [H1 H2].
  apply Z.leb_le in H1, H2. lia.
Qed.

Lemma decimal_value_bound s :
  all_chars is_digit s = true ->
  0 <= decimal_value s 0 < 10 ^ Z.of_nat (String.length s).
Proof.
  induction s as [| c s IH]; [simpl; lia |].
  cbn [all_chars]. intros H. apply andb_true_iff in H as [Hc Hs].
  specialize (IH Hs). apply is_digit_range in Hc.
  rewrite pow10_length_succ. cbn [decimal_value].
  rewrite decimal_value_shift. nia.
Qed.

Lemma code_inj a b : code a = code b -> a = b.
Proof.
  unfold code. intros H. apply Nat2Z.inj_iff || idtac.
  apply N2Z.inj in H.
  rewrite <- (ascii_N_embedding a), <- (ascii_N_embedding b), H. reflexivity.
Qed.

(** Two digit strings of one length that denote one number are equal. *)
Lemma decimal_value_inj a : forall b,
  all_chars is_digit a = true -> all_chars is_digit b = true ->
  String.length a = String.length b ->
  decimal_value a 0 = decimal_value b 0 -> a = b.
Proof.
  induction a as [| x a IH]; intros [| y b] Ha Hb Hl Hv;
    try discriminate Hl; [reflexivity |].
  cbn [all_chars] in Ha, Hb.
  apply andb_true_iff in Ha as [Hx Ha]. apply andb_true_iff in Hb as [Hy Hb].
  injection Hl as Hl.
  pose proof (decimal_value_bound a Ha) as Ba.
  pose proof (decimal_value_bound b Hb) as Bb.
  apply is_digit_range in Hx, Hy.
  cbn [decimal_value] in Hv.
  rewrite (decimal_value_shift a), (decimal_value_shift b), <- Hl in Hv.
  rewrite <- Hl in Bb.
  set (P := 10 ^ Z.of_nat (String.length a)) in *.
  assert (Hr : decimal_value a 0 = decimal_value b 0).
  { rewrite (Z.mod_unique ((10 * 0 + (code x - 48)) * P + decimal_value a 0) P
               (10 * 0 + (code x - 48)) (decimal_value a 0))
      by (try (left; exact Ba); lia).
    rewrite Hv. symmetry. apply Z.mod_unique with (q := 10 * 0 + (code y - 48));
      [left; exact Bb | lia]. }
  assert (Hd : code x - 48 = code y - 48).
  { rewrite Hr in Hv. apply (Z.mul_reg_r _ _ P); lia. }
  f_equal; [apply code_inj; lia | apply IH; assumption].
Qed.

Lemma all_chars_take f n : forall s,
  all_chars f s = true -> all_chars f (take n s) = true.
Proof.
  induction n as [| n IH]; intros [| c s]; cbn [take all_chars]; auto.
  intros H. apply andb_true_iff in H as [Hc Hs].
  rewrite Hc. simpl. auto.
Qed.

(** The last [k] digits of [n] denote [n mod 10^k]. *)
Lemma slice_last_value (k : nat) n :
  0 <= n -> (k <= String.length (digits n))%nat ->
  decimal_value (slice_last k (digits n)) 0 = n mod 10 ^ Z.of_nat k.
Proof.
  intros Hn Hk. unfold slice_last.
  set (m := (String.length (digits n) - k)%nat).
  pose proof (digits_value n Hn) as Hv.
  rewrite <- (take_drop m (digits n)), decimal_value_app,
    decimal_value_shift in Hv.
  pose proof (digits_all_digits n Hn) as Hd.
  pose proof (decimal_value_bound _ (all_chars_drop is_digit m _ Hd)) as Bd.
  assert (Hl : String.length (drop m (digits n)) = k)
    by (rewrite length_drop; lia).
  rewrite Hl in Hv, Bd.
  apply Z.mod_unique with (q := decimal_value (take m (digits n)) 0);
    [left; exact Bd | lia].
Qed.

Lemma decimal_value_zeros j : decimal_value (repeat (str "0") j) 0 = 0.
Proof. induction j as [| j IH]; [reflexivity | exact IH]. Qed.

Lemma padStart_value (k : nat) r :
  0 <= r -> decimal_value (padStart k "0" (Number_toString r)) 0 = r.
Proof.
  intros Hr. rewrite Number_toString_nonneg by exact Hr. unfold padStart.
  rewrite decimal_value_app, decimal_value_zeros. apply digits_value, Hr.
Qed.

Lemma timestamp_part_value now :
  10 ^ 7 <= now ->
  decimal_value (slice_last 8 (Number_toString now)) 0 = now mod 10 ^ 8.
Proof.
  intros Hn. rewrite Number_toString_nonneg by lia.
  apply (slice_last_value 8); [lia |].
  pose proof (digits_length_lower 7 now Hn). lia.
Qed.

(** X4. With clocks of eight digits or more, two generated certificate
    numbers are the same exactly when the two clock readings agree in
    their last eight digits and the two random draws are equal: the time
    part repeats every 10^8 ms, a little under 28 hours. *)
Theorem certificate_numbers_coincide (env1 env2 : Env) :
  10 ^ 7 <= Date_now env1 -> 10 ^ 7 <= Date_now env2 ->
  0 <= random_10000 env1 < 10000 -> 0 <= random_10000 env2 < 10000 ->
  generateCertificateNumber env1 = generateCertificateNumber env2
  <-> Date_now env1 mod 10 ^ 8 = Date_now env2 mod 10 ^ 8
      /\ random_10000 env1 = random_10000 env2.
Proof.
  intros Hn1 Hn2 Hr1 Hr2. unfold generateCertificateNumber.
  destruct (timestamp_part _ Hn1) as [L1 D1].
  destruct (timestamp_part _ Hn2) as [L2 D2].
  destruct (random_part _ Hr1) as [M1 E1].
  destruct (random_part _ Hr2) as [M2 E2].
  pose proof (timestamp_part_value _ Hn1) as V1.
  pose proof (timestamp_part_value _ Hn2) as V2.
  pose proof (padStart_value 4 _ (proj1 Hr1)) as W1.
  pose proof (padStart_value 4 _ (proj1 Hr2)) as W2.
  set (t1 := slice_last 8 (Number_toString (Date_now env1))) in *.
  set (t2 := slice_last 8 (Number_toString (Date_now env2))) in *.
  set (r1 := padStart 4 "0" (Number_toString (random_10000 env1))) in *.
  set (r2 := padStart 4 "0" (Number_toString (random_10000 env2))) in *.
  split.
  - intros H.
    change ("CERT" +:+ "-" +:+ t1 +:+ "-" +:+ r1)
      with ("CERT-" +:+ (t1 +:+ "-" +:+ r1)) in H.
    change ("CERT" +:+ "-" +:+ t2 +:+ "-" +:+ r2)
      with ("CERT-" +:+ (t2 +:+ "-" +:+ r2)) in H.
    assert (H' : t1 +:+ "-" +:+ r1 = t2 +:+ "-" +:+ r2).
    { pose proof (strip_prefix_app "CERT-" (t1 +:+ "-" +:+ r1)) as P1.
      rewrite H, strip_prefix_app in P1. congruence. }
    assert (Ht : t1 = t2).
    { rewrite <- (take_app_exact t1 ("-" +:+ r1)),
        <- (take_app_exact t2 ("-" +:+ r2)), L1, L2, H'. reflexivity. }
    assert (Hr : r1 = r2).
    { pose proof (drop_app_exact t1 ("-" +:+ r1)) as P1.
      pose proof (drop_app_exact t2 ("-" +:+ r2)) as P2.
      rewrite L1, H', <- L2, P2 in P1.
      change ("-" +:+ r2) with (String "-" r2) in P1.
      change ("-" +:+ r1) with (String "-" r1) in P1. congruence. }
    split; [rewrite <- V1, <- V2, Ht | rewrite <- W1, <- W2, Hr]; reflexivity.
  - intros [Hm Hr].
    assert (Ht : t1 = t2).
    { apply decimal_value_inj; try assumption; [rewrite L1, L2 | rewrite V1, V2];
        congruence. }
    assert (Hr' : r1 = r2).
    { apply decimal_value_inj; try assumption; [rewrite M1, M2 | rewrite W1, W2];
        congruence. }
    rewrite Ht, Hr'. reflexivity.
Qed.

Lemma certificate_numbers_coincide_witness :
  generateCertificateNumber demo_env
  = generateCertificateNumber
      (mkEnv (1730000000123 + 10 ^ 8) 42 "10/28/2024, 7:20:00 AM" 1730100000
             true true true "0xbeef" 5).
Proof.
  apply (proj2 (certificate_numbers_coincide demo_env
                  (mkEnv (1730000000123 + 10 ^ 8) 42 "10/28/2024, 7:20:00 AM"
                         1730100000 true true true "0xbeef" 5)
                  ltac:(simpl; lia) ltac:(simpl; lia)
                  ltac:(simpl; lia) ltac:(simpl; lia))).
  split; reflexivity.
Defined.

End CertificateCollisions.

(* ===================================================================== *)
(** * What the verification handlers leave alone                         *)
(* ===================================================================== *)

Section Frames.
Import JS Node Http Fixtures.
Local Open Scope node_scope.

Context (R : World -> World -> Prop) `{!Reflexive R} `{!Transitive R}.

Lemma preserves_ret {A} (a : A) : preserves R (ret a).
Proof. intros w r w' H. injection H as <- <-. reflexivity. Qed.

Lemma preserves_throw {A} e : preserves R (@throw A e).
Proof. intros w r w' H. injection H as <- <-. reflexivity. Qed.

Lemma preserves_bind {A B} (m : M A) (k : A -> M B) :
  preserves R m -> (forall a, preserves R (k a)) -> preserves R (bind m k).
Proof.
  intros Hm Hk w r w' H. unfold bind in H.
  destruct (m w) as [[a | e] w1] eqn:E.
  - transitivity w1; [eapply Hm | eapply Hk]; eauto.
  - injection H as <- <-. eapply Hm; eauto.
Qed.

Lemma preserves_try_catch {A} (m : M A) (h : string -> M A) :
  preserves R m -> (forall e, preserves R (h e)) ->
  preserves R (try_catch m h).
Proof.
  intros Hm Hh w r w' H. unfold try_catch in H.
  destruct (m w) as [[a | e] w1] eqn:E.
  - injection H as <- <-. eapply Hm; eauto.
  - transitivity w1; [eapply Hm | eapply Hh]; eauto.
Qed.

End Frames.

Section VerificationFrames.
Import JS Node Http Fixtures.
Local Open Scope node_scope.

#[local] Instance same_chain_refl : Reflexive same_chain.
Proof. intros w. reflexivity. Qed.

#[local] Instance same_chain_trans : Transitive same_chain.
Proof. intros a b c H1 H2. unfold same_chain in *. congruence. Qed.

#[local] Instance same_state_refl : Reflexive same_state.
Proof. intros w. split; reflexivity. Qed.

#[local] Instance same_state_trans : Transitive same_state.
Proof. intros a b c [H1 H2] [H3 H4]. split; congruence. Qed.

Lemma same_state_chain {A} (m : M A) :
  preserves same_state m -> preserves same_chain m.
Proof. intros H w r w' E. exact (proj2 (H w r w' E)). Qed.

Lemma same_state_verifyDocument lib env c h :
  preserves same_state (BlockchainService.verifyDocument lib env c h).
Proof.
  intros w r w' H. unfold BlockchainService.verifyDocument, bind, emit, ret in H.
  destruct (BlockchainService.as_string c), (BlockchainService.as_string h),
    (rpc_verify_up env); cbn [fs chain trace] in H;
    try (injection H as <- <-; split; reflexivity).
  all: destruct (Contract.verifyDocument _ _ _ _) in H.
  all: injection H as <- <-; split; reflexivity.
Qed.

Lemma same_state_getDocument env c :
  preserves same_state (BlockchainService.getDocument env c).
Proof.
  intros w r w' H. unfold BlockchainService.getDocument, bind, emit, ret in H.
  destruct (BlockchainService.as_string c), (rpc_get_up env);
    cbn [fs chain trace] in H;
    try (injection H as <- <-; split; reflexivity).
  all: destruct (Contract.getDocument _ _) as [[[? ?] ?] ?] in H.
  all: injection H as <- <-; split; reflexivity.
Qed.

Lemma same_chain_existsSync p : preserves same_chain (existsSync p).
Proof. intros w r w' H. injection H as <- <-. reflexivity. Qed.

Lemma same_chain_readFileSync p : preserves same_chain (readFileSync p).
Proof.
  intros w r w' H. unfold readFileSync in H.
  destruct (fs w !! p); injection H as <- <-; reflexivity.
Qed.

Lemma same_chain_unlinkSync p : preserves same_chain (unlinkSync p).
Proof.
  intros w r w' H. unfold unlinkSync in H.
  destruct (fs w !! p); injection H as <- <-; reflexivity.
Qed.

Lemma same_chain_writeFileSync p d : preserves same_chain (writeFileSync p d).
Proof. intros w r w' H. injection H as <- <-. reflexivity. Qed.

(** Goals [preserves R m], by the structure of [m]. *)
Ltac frame :=
  repeat first
    [ apply preserves_ret; typeclasses eauto
    | apply preserves_throw; typeclasses eauto
    | apply same_state_verifyDocument
    | apply same_state_getDocument
    | apply same_state_chain, same_state_verifyDocument
    | apply same_state_chain, same_state_getDocument
    | apply same_chain_existsSync
    | apply same_chain_readFileSync
    | apply same_chain_unlinkSync
    | apply same_chain_writeFileSync
    | apply preserves_bind; [typeclasses eauto | | intros]
    | apply preserves_try_catch; [typeclasses eauto | | intros]
    | match goal with
      | |- preserves _ (match ?x with _ => _ end) => destruct x
      | |- preserves _ (let _ := _ in _) => cbv zeta
      end ].

(** X5. Verifying never writes: [POST /api/verify] and
    [POST /api/verify-qr] leave the files and the ledger as they are, and
    the two [verify-upload] handlers, which remove the uploaded file,
    leave the ledger as it is, whatever the request and the answer. *)
Theorem verification_changes_nothing (lib : Lib) (env : Env) :
  (forall c h, preserves same_state (ServerWM.post_api_verify lib env c h)) /\
  (forall q, preserves same_state (ServerQR.post_api_verify_qr lib env q)) /\
  (forall c file,
      preserves same_chain (ServerWM.post_api_verify_upload lib env c file)) /\
  (forall file,
      preserves same_chain (ServerQR.post_api_verify_upload lib env file)).
Proof.
  split; [| split; [| split]]; intros.
  - unfold ServerWM.post_api_verify, ServerWM.verdict. frame.
  - unfold ServerQR.post_api_verify_qr. frame.
  - unfold ServerWM.post_api_verify_upload, ServerWM.verdict,
      generateDocumentHash, unlink_if_exists. frame.
  - unfold ServerQR.post_api_verify_upload, ServerQR.extractQRDataFromPDF,
      readFileSync_utf8, unlink_if_exists. frame.
Qed.

Lemma QR_same_chain_processCertifiedDocument lib env i c h o :
  preserves same_chain (ServerQR.processCertifiedDocument lib env i c h o).
Proof.
  unfold ServerQR.processCertifiedDocument,
    ServerQR.addMinimalCertificateToPDF, ServerQR.convertImageToPDF,
    ServerQR.createCertifiedTextFile, ServerQR.generateQRCode,
    readFileSync_utf8.
  frame.
Qed.

Lemma WM_same_chain_processCertifiedDocument lib env i c h o :
  preserves same_chain (ServerWM.processCertifiedDocument lib env i c h o).
Proof.
  unfold ServerWM.processCertifiedDocument, ServerWM.addCertificateToPDF,
    ServerWM.convertImageToPDF, ServerWM.createCertifiedTextFile,
    readFileSync_utf8.
  frame.
Qed.

Lemma same_chain_unlink_if_exists p :
  preserves same_chain (unlink_if_exists p).
Proof. unfold unlink_if_exists. frame. Qed.

Lemma unlinkSync_absent p w r w' :
  unlinkSync p w = (r, w') -> fs w' !! p = None.
Proof.
  unfold unlinkSync. destruct (fs w !! p) eqn:E; intros H;
    injection H as <- <-; [apply lookup_delete_eq | exact E].
Qed.

Lemma cleanup_then_answer (p : string) (resp : Response) w r w' :
  (unlink_if_exists (Some p) ;;; ret resp) w = (r, w') ->
  fs w' !! p = None.
Proof.
  unfold bind. destruct (unlink_if_exists (Some p) w) as [[[] | e] w1] eqn:U;
    intros H; injection H as <- <-; eapply unlink_if_exists_removes; eauto.
Qed.

Lemma verify_upload_removes (lib : Lib) (env : Env) (f : File) :
  (forall w r w',
      ServerQR.post_api_verify_upload lib env (Some f) w = (r, w') ->
      fs w' !! path f = None) /\
  (forall c w r w',
      ServerWM.post_api_verify_upload lib env c (Some f) w = (r, w') ->
      fs w' !! path f = None).
Proof.
  split.
  - intros w r w'. unfold ServerQR.post_api_verify_upload, try_catch.
    cbn [option_map].
    match goal with
    | |- context [match ?body w with _ => _ end] =>
        destruct (body w) as [[r0 | e] w1] eqn:E
    end; [| apply cleanup_then_answer].
    intros H. injection H as <- <-. unfold bind at 1 in E.
    match type of E with
    | context [match ?m w with _ => _ end] =>
        destruct (m w) as [[q | e1] w2]; [| discriminate E]
    end.
    unfold bind at 1 in E.
    destruct (unlinkSync (path f) w2) as [[[] | e2] w3] eqn:U;
      [| discriminate E].
    apply unlinkSync_absent in U.
    match type of E with
    | ?m w3 = _ => assert (Hs : preserves same_state m) by frame
    end.
    destruct (Hs _ _ _ E) as [-> _]. exact U.
  - intros c w r w'. unfold ServerWM.post_api_verify_upload.
    destruct (negb (truthy c)); unfold try_catch.
    + match goal with
      | |- context [match ?body w with _ => _ end] =>
          destruct (body w) as [[r0 | e] w1] eqn:E
      end.
      * intros H. injection H as <- <-. eapply cleanup_then_answer, E.
      * intros H. injection H as <- <-.
        unfold bind in E.
        destruct (unlink_if_exists (Some (path f)) w) as [[[] | e1] w2] eqn:U;
          [discriminate E |].
        injection E as <- <-. eapply unlink_if_exists_removes, U.
    + match goal with
      | |- context [match ?body w with _ => _ end] =>
          destruct (body w) as [[r0 | e] w1] eqn:E
      end; [| apply cleanup_then_answer].
      intros H. injection H as <- <-. cbv zeta in E. unfold bind at 1 in E.
      destruct (generateDocumentHash lib (path f) w) as [[h | e1] w2];
        [| discriminate E].
      unfold bind at 1 in E.
      destruct (unlink_if_exists (Some (path f)) w2) as [[[] | e2] w3] eqn:U;
        [| discriminate E].
      apply unlink_if_exists_removes in U.
      match type of E with
      | ?m w3 = _ => assert (Hs : preserves same_state m)
      end.
      { unfold ServerWM.verdict. frame. }
      destruct (Hs _ _ _ E) as [-> _]. exact U.
Qed.

(** X6. Both [verify-upload] handlers remove the uploaded file on every
    path: whatever the file holds and whatever the answer, success, 4xx
    or 5xx, the file is gone when the handler is done. *)
Theorem verify_upload_removes_the_file (lib : Lib) (env : Env) (f : File)
    (c : Value) (w : World) :
  fs (snd (ServerQR.post_api_verify_upload lib env (Some f) w)) !! path f
  = None /\
  fs (snd (ServerWM.post_api_verify_upload lib env c (Some f) w)) !! path f
  = None.
Proof.
  split.
  - destruct (ServerQR.post_api_verify_upload lib env (Some f) w) eqn:E.
    eapply (proj1 (verify_upload_removes lib env f)), E.
  - destruct (ServerWM.post_api_verify_upload lib env c (Some f) w) eqn:E.
    eapply (proj2 (verify_upload_removes lib env f)), E.
Qed.

End VerificationFrames.
(* ===================================================================== *)
(** * What stamping writes, and where                                    *)
(* ===================================================================== *)

Section StampingOutcome.
Import JS Node Http Fixtures.
Local Open Scope node_scope.

Lemma clean_char_safe c : all_chars name_char (clean_char c) = true.
Proof.
  change (clean_char c)
    with (if name_char c then str c
          else if (128 <=? code c) && (code c <=? 191) then ""
          else if 240 <=? code c then "__" else "_").
  destruct (name_char c) eqn:E; [cbn [str all_chars]; rewrite E; reflexivity |].
  destruct (_ && _); [reflexivity |].
  destruct (240 <=? code c); reflexivity.
Qed.

Lemma clean_name_safe s : all_chars name_char (clean_name s) = true.
Proof.
  induction s as [| c s IH]; [reflexivity |].
  cbn [clean_name]. rewrite all_chars_app, clean_char_safe, IH. reflexivity.
Qed.

Lemma Number_toString_chars (P : ascii -> bool) n :
  (forall x, is_digit x = true -> P x = true) -> P "-"%char = true ->
  all_chars P (Number_toString n) = true.
Proof.
  intros Hd Hm. unfold Number_toString. destruct (n <? 0) eqn:E.
  - cbn [all_chars]. apply Z.ltb_lt in E. rewrite Hm.
    apply (all_chars_impl is_digit P _ Hd). apply digits_all_digits; lia.
  - apply Z.ltb_ge in E.
    apply (all_chars_impl is_digit P _ Hd). apply digits_all_digits; lia.
Qed.

(** A generated certificate number is made of the letters of [CERT],
    hyphens and digits. *)
Lemma generateCertificateNumber_chars (P : ascii -> bool) env :
  (forall x, is_digit x = true -> P x = true) ->
  all_chars P "CERT" = true -> P "-"%char = true ->
  all_chars P (generateCertificateNumber env) = true.
Proof.
  intros Hd HP Hm.
  unfold generateCertificateNumber, slice_last, padStart. cbv zeta.
  rewrite !all_chars_app, HP.
  change (all_chars P "-") with (P "-"%char && true). rewrite Hm.
  rewrite all_chars_drop by (apply Number_toString_chars; assumption).
  rewrite all_chars_repeat_char by (apply Hd; reflexivity).
  rewrite Number_toString_chars by assumption. reflexivity.
Qed.

Lemma generateCertificateNumber_safe env :
  all_chars name_char (generateCertificateNumber env) = true.
Proof.
  apply generateCertificateNumber_chars; [| reflexivity | reflexivity].
  intros x H. unfold name_char. rewrite H. rewrite !orb_true_r. reflexivity.
Qed.

Lemma certified_name_shape (b c ext : string) :
  join certifiedDir (b +:+ "_CERTIFIED_" +:+ c +:+ ext)
  = "certified-documents/" +:+ (b +:+ "_CERTIFIED_" +:+ c) +:+ ext.
Proof.
  unfold join, certifiedDir. rewrite !append_assoc. reflexivity.
Qed.

Lemma certified_name_safe (b c : string) :
  all_chars name_char c = true ->
  all_chars name_char (clean_name b +:+ "_CERTIFIED_" +:+ c) = true.
Proof.
  intros Hc. rewrite !all_chars_app, clean_name_safe, Hc. reflexivity.
Qed.

Lemma stamped_path_shape (b c e : string) (w' : World) :
  all_chars name_char c = true ->
  e = ".pdf" \/ e = ".txt" ->
  bool_decide
    (is_Some (fs w' !! join certifiedDir
                         (clean_name b +:+ "_CERTIFIED_" +:+ c +:+ e))) = true ->
  exists name ext,
    join certifiedDir (clean_name b +:+ "_CERTIFIED_" +:+ c +:+ e)
    = "certified-documents/" +:+ name +:+ ext /\
    all_chars name_char name = true /\
    (ext = ".pdf" \/ ext = ".txt") /\
    is_Some (fs w' !! join certifiedDir
                        (clean_name b +:+ "_CERTIFIED_" +:+ c +:+ e)).
Proof.
  intros Hc He Hp. exists (clean_name b +:+ "_CERTIFIED_" +:+ c), e.
  split; [apply certified_name_shape |].
  split; [apply certified_name_safe, Hc |].
  split; [exact He |]. apply bool_decide_eq_true in Hp. exact Hp.
Qed.

Ltac stamped_path lib o c Hc :=
  first
    [ apply (stamped_path_shape (basename lib o (toLowerCase (extname o)))
               c ".pdf" _ Hc (or_introl eq_refl)); assumption
    | apply (stamped_path_shape (basename lib o (toLowerCase (extname o)))
               c ".txt" _ Hc (or_intror eq_refl)); assumption ].

Lemma QR_stamped_path lib env i c h o w p w' :
  all_chars name_char c = true ->
  ServerQR.processCertifiedDocument lib env i c h o w = (Ok (Some p), w') ->
  exists name ext,
    p = "certified-documents/" +:+ name +:+ ext /\
    all_chars name_char name = true /\
    (ext = ".pdf" \/ ext = ".txt") /\
    is_Some (fs w' !! p).
Proof.
  intros Hc H.
  unfold ServerQR.processCertifiedDocument, try_catch, bind, ret, existsSync
    in H.
  branches. all: try congruence.
  all: stamped_path lib o c Hc.
Qed.

Lemma WM_stamped_path lib env i c h o w p w' :
  all_chars name_char c = true ->
  ServerWM.processCertifiedDocument lib env i c h o w = (Ok (Some p), w') ->
  exists name ext,
    p = "certified-documents/" +:+ name +:+ ext /\
    all_chars name_char name = true /\
    (ext = ".pdf" \/ ext = ".txt") /\
    is_Some (fs w' !! p).
Proof.
  intros Hc H.
  unfold ServerWM.processCertifiedDocument, try_catch, bind, ret, existsSync
    in H.
  branches. all: try congruence.
  all: stamped_path lib o c Hc.
Qed.

(** X7. The path of a certified file comes from the sanitised name and
    the generated certificate number alone: whatever the name of the
    upload, a path that either server's [processCertifiedDocument]
    returns is [certified-documents/], a name of characters
    [[a-zA-Z0-9_-]] only, and [.pdf] or [.txt]; and the file is there. *)
Theorem certified_path_is_safe (lib : Lib) (env : Env)
    (inputPath documentHash originalName p : string) (w w' : World) :
  ServerQR.processCertifiedDocument lib env inputPath
    (generateCertificateNumber env) documentHash originalName w
  = (Ok (Some p), w') \/
  ServerWM.processCertifiedDocument lib env inputPath
    (generateCertificateNumber env) documentHash originalName w
  = (Ok (Some p), w') ->
  exists name ext,
    p = "certified-documents/" +:+ name +:+ ext /\
    all_chars name_char name = true /\
    (ext = ".pdf" \/ ext = ".txt") /\
    is_Some (fs w' !! p).
Proof.
  intros [H | H].
  - eapply QR_stamped_path, H. apply generateCertificateNumber_safe.
  - eapply WM_stamped_path, H. apply generateCertificateNumber_safe.
Qed.

Lemma certified_path_is_safe_witness :
  exists name ext,
    "certified-documents/___etc_passwd_txt_CERTIFIED_CERT-00000123-0042.txt"
    = "certified-documents/" +:+ name +:+ ext /\
    all_chars name_char name = true /\
    (ext = ".pdf" \/ ext = ".txt") /\
    is_Some
      (fs (snd (ServerQR.processCertifiedDocument demo_lib demo_env
                  "uploads/1-2.txt" (generateCertificateNumber demo_env)
                  "aa" "../etc/passwd.txt" hello_world))
       !! "certified-documents/___etc_passwd_txt_CERTIFIED_CERT-00000123-0042.txt").
Proof.
  exact (certified_path_is_safe demo_lib demo_env "uploads/1-2.txt" "aa"
           "../etc/passwd.txt"
           "certified-documents/___etc_passwd_txt_CERTIFIED_CERT-00000123-0042.txt"
           hello_world
           (snd (ServerQR.processCertifiedDocument demo_lib demo_env
                   "uploads/1-2.txt" (generateCertificateNumber demo_env)
                   "aa" "../etc/passwd.txt" hello_world))
           ltac:(left; vm_compute; reflexivity)).
Defined.

End StampingOutcome.
(* ===================================================================== *)
(** * What an upload does to the files and to the ledger                 *)
(* ===================================================================== *)

Section UploadFrames.
Import JS Node Http Fixtures.
Local Open Scope node_scope.

Context (P : string -> Prop).

#[local] Instance fs_within_refl : Reflexive (fs_within P).
Proof. intros w q _. reflexivity. Qed.

#[local] Instance fs_within_trans : Transitive (fs_within P).
Proof. intros a b c H1 H2 q Hq. rewrite (H2 q Hq). apply H1, Hq. Qed.

Lemma within_existsSync p : preserves (fs_within P) (existsSync p).
Proof. intros w r w' H. injection H as <- <-. intros q _. reflexivity. Qed.

Lemma within_readFileSync p : preserves (fs_within P) (readFileSync p).
Proof.
  intros w r w' H. unfold readFileSync in H.
  destruct (fs w !! p); injection H as <- <-; intros q _; reflexivity.
Qed.

Lemma within_writeFileSync p d :
  P p -> preserves (fs_within P) (writeFileSync p d).
Proof.
  intros Hp w r w' H. injection H as <- <-. intros q Hq. cbn [fs].
  apply lookup_insert_ne. intros ->. exact (Hq Hp).
Qed.

Lemma within_unlinkSync p :
  P p -> preserves (fs_within P) (unlinkSync p).
Proof.
  intros Hp w r w' H. unfold unlinkSync in H.
  destruct (fs w !! p); injection H as <- <-; [| intros q _; reflexivity].
  intros q Hq. cbn [fs]. apply lookup_delete_ne. intros ->. exact (Hq Hp).
Qed.

Lemma within_registerDocument env c h :
  preserves (fs_within P) (BlockchainService.registerDocument env c h).
Proof.
  intros w r w' H.
  unfold BlockchainService.registerDocument, bind, emit, ret in H.
  destruct (rpc_register_up env);
    [| injection H as <- <-; intros q _; reflexivity].
  cbn [fs chain trace] in H.
  destruct (Contract.registerDocument _ _ _ _); injection H as <- <-;
    intros q _; reflexivity.
Qed.

End UploadFrames.

Section UploadOutcome.
Import JS Node Http Fixtures.
Local Open Scope node_scope.

Lemma inside_join dir name : inside dir (join dir name).
Proof.
  unfold inside, join, startsWith.
  rewrite <- append_assoc, strip_prefix_app. reflexivity.
Qed.

(** Goals [preserves (fs_within P) m], by the structure of [m]; [side]
    shows that a written or removed path is in [P]. *)
Ltac within side :=
  repeat first
    [ apply preserves_ret; apply fs_within_refl
    | apply preserves_throw; apply fs_within_refl
    | apply within_existsSync
    | apply within_readFileSync
    | apply within_registerDocument
    | apply within_writeFileSync; side
    | apply within_unlinkSync; side
    | apply preserves_bind; [apply fs_within_trans | | intros]
    | apply preserves_try_catch; [apply fs_within_trans | | intros]
    | match goal with
      | |- preserves _ (match ?x with _ => _ end) => destruct x
      | |- preserves _ (let _ := _ in _) => cbv zeta
      end ].

Ltac own_file :=
  cbn [option_map];
  first [ left; apply inside_join
        | right; left; apply inside_join
        | right; reflexivity
        | right; right; reflexivity ].

(** X8. An upload touches only its own files: apart from the uploaded
    file itself, what is under [certified-documents/] and, in the QR
    server, under [qr-codes/], every file is after the request what it
    was before, on every path through either handler. *)
Theorem upload_touches_only_its_own_files (lib : Lib) (env : Env) (f : File) :
  preserves
    (fs_within (fun q => inside certifiedDir q \/ inside qrDir q \/ q = path f))
    (ServerQR.post_api_upload lib env (Some f)) /\
  preserves
    (fs_within (fun q => inside certifiedDir q \/ q = path f))
    (ServerWM.post_api_upload lib env (Some f)).
Proof.
  split.
  - unfold ServerQR.post_api_upload, ServerQR.processCertifiedDocument,
      ServerQR.addMinimalCertificateToPDF, ServerQR.convertImageToPDF,
      ServerQR.createCertifiedTextFile, ServerQR.generateQRCode,
      generateDocumentHash, readFileSync_utf8, unlink_if_exists.
    within own_file.
  - unfold ServerWM.post_api_upload, ServerWM.processCertifiedDocument,
      ServerWM.addCertificateToPDF, ServerWM.convertImageToPDF,
      ServerWM.createCertifiedTextFile,
      generateDocumentHash, readFileSync_utf8, unlink_if_exists.
    within own_file.
Qed.

End UploadOutcome.

Lemma unlink_if_exists_returns p w e w' :
  Node.unlink_if_exists p w = (Node.Throw e, w') -> False.
Proof.
  unfold Node.unlink_if_exists, Node.bind, Node.existsSync, Node.unlinkSync,
    Node.ret.
  destruct p as [p |]; [| discriminate].
  destruct (Node.fs w !! p) as [bytes |] eqn:E; simpl; [rewrite E |];
    discriminate.
Qed.

(** Every path through a handler body, with the calls it makes left as
    they are. *)
Ltac paths H :=
  unfold Node.try_catch, Node.bind, Node.ret, Node.throw in H;
  cbn [option_map] in H; branches;
  try solve [exfalso; eauto using unlink_if_exists_returns].

Section UploadAnswers.
Import JS Node Http Fixtures.
Local Open Scope node_scope.

Ltac answered :=
  unfold json; cbn [status]; auto.

Lemma QR_upload_answers lib env file :
  answers (ServerQR.post_api_upload lib env file).
Proof.
  intros w. destruct (ServerQR.post_api_upload lib env file w)
    as [[r | e] w'] eqn:H; cbn [fst];
    unfold ServerQR.post_api_upload in H; destruct file; paths H; answered.
Qed.

Lemma WM_upload_answers lib env file :
  answers (ServerWM.post_api_upload lib env file).
Proof.
  intros w. destruct (ServerWM.post_api_upload lib env file w)
    as [[r | e] w'] eqn:H; cbn [fst];
    unfold ServerWM.post_api_upload in H; destruct file; paths H; answered.
Qed.

Lemma QR_verify_upload_answers lib env file :
  answers (ServerQR.post_api_verify_upload lib env file).
Proof.
  intros w. destruct (ServerQR.post_api_verify_upload lib env file w)
    as [[r | e] w'] eqn:H; cbn [fst];
    unfold ServerQR.post_api_verify_upload in H; destruct file; paths H;
    answered.
Qed.

Lemma QR_verify_qr_answers lib env q :
  answers (ServerQR.post_api_verify_qr lib env q).
Proof.
  intros w. destruct (ServerQR.post_api_verify_qr lib env q w)
    as [[r | e] w'] eqn:H; cbn [fst];
    unfold ServerQR.post_api_verify_qr in H; paths H; answered.
Qed.

Lemma WM_verdict_answers lib env c h w r w' :
  ServerWM.verdict lib env c h w = (Ok r, w') ->
  status r = 200 \/ status r = 400 \/ status r = 500.
Proof.
  intros H. unfold ServerWM.verdict in H. paths H; answered.
Qed.

Lemma WM_verify_upload_answers lib env c file :
  answers (ServerWM.post_api_verify_upload lib env c file).
Proof.
  intros w. destruct (ServerWM.post_api_verify_upload lib env c file w)
    as [[r | e] w'] eqn:H; cbn [fst];
    unfold ServerWM.post_api_verify_upload in H; destruct file; paths H;
    try answered; eauto using WM_verdict_answers.
Qed.

Lemma WM_verify_answers lib env c h :
  answers (ServerWM.post_api_verify lib env c h).
Proof.
  intros w. destruct (ServerWM.post_api_verify lib env c h w)
    as [[r | e] w'] eqn:H; cbn [fst];
    unfold ServerWM.post_api_verify in H; paths H;
    try answered; eauto using WM_verdict_answers.
Qed.

(** X9. No error escapes a handler: each of the six [POST] handlers of
    the two servers ends every request with an answer, and the status of
    the answer is 200, 400 or 500.  In particular the [catch] blocks, which
    remove the upload, cannot themselves fail. *)
Theorem handlers_always_answer (lib : Lib) (env : Env) (file : option File)
    (c h : Value) :
  answers (ServerQR.post_api_upload lib env file) /\
  answers (ServerQR.post_api_verify_upload lib env file) /\
  answers (ServerQR.post_api_verify_qr lib env c) /\
  answers (ServerWM.post_api_upload lib env file) /\
  answers (ServerWM.post_api_verify_upload lib env c file) /\
  answers (ServerWM.post_api_verify lib env c h).
Proof.
  repeat split.
  - apply QR_upload_answers.
  - apply QR_verify_upload_answers.
  - apply QR_verify_qr_answers.
  - apply WM_upload_answers.
  - apply WM_verify_upload_answers.
  - apply WM_verify_answers.
Qed.

End UploadAnswers.

Section UploadLedger.
Import JS Node Http Fixtures.
Local Open Scope node_scope.

Ltac ledger_paths H :=
  unfold generateDocumentHash, BlockchainService.registerDocument in H;
  unfold try_catch, bind, readFileSync, emit, ret, throw in H;
  cbn [option_map fs chain trace] in H; branches;
  try solve [exfalso; eauto using unlink_if_exists_returns].

Ltac ledger_done :=
  cbn [registered_or_not]; cbn [fs chain trace] in *;
  repeat match goal with
    | H : unlink_if_exists _ _ = _ |- _ =>
        apply same_chain_unlink_if_exists in H; unfold same_chain in H;
        cbn [chain] in H
    | H : ServerQR.processCertifiedDocument _ _ _ _ _ _ _ = _ |- _ =>
        apply QR_same_chain_processCertifiedDocument in H;
        unfold same_chain in H; cbn [chain] in H
    | H : ServerWM.processCertifiedDocument _ _ _ _ _ _ _ = _ |- _ =>
        apply WM_same_chain_processCertifiedDocument in H;
        unfold same_chain in H; cbn [chain] in H
    end;
  first
    [ left; split; [congruence | unfold json; cbn [status]; lia]
    | right; eexists; split; [eassumption | congruence] ].

Lemma QR_upload_ledger lib env f w :
  registered_or_not lib env f w (ServerQR.post_api_upload lib env (Some f) w).
Proof.
  destruct (ServerQR.post_api_upload lib env (Some f) w)
    as [[resp | e] w'] eqn:H;
    unfold ServerQR.post_api_upload in H; ledger_paths H; ledger_done.
Qed.

Lemma WM_upload_ledger lib env f w :
  registered_or_not lib env f w (ServerWM.post_api_upload lib env (Some f) w).
Proof.
  destruct (ServerWM.post_api_upload lib env (Some f) w)
    as [[resp | e] w'] eqn:H;
    unfold ServerWM.post_api_upload in H; ledger_paths H; ledger_done.
Qed.

(** X10. An upload writes to the ledger at most once, and what it
    writes is the digest of the uploaded bytes, under the generated
    certificate number, at the block time.  An answer of 200 always comes
    with that registration; nothing after the registration undoes it. *)
Theorem upload_registers_at_most_once (lib : Lib) (env : Env) (f : File)
    (w : World) :
  registered_or_not lib env f w (ServerQR.post_api_upload lib env (Some f) w) /\
  registered_or_not lib env f w (ServerWM.post_api_upload lib env (Some f) w).
Proof.
  split; [apply QR_upload_ledger | apply WM_upload_ledger].
Qed.

Lemma registerDocument_fails env c h w :
  rpc_register_up env = false \/
  Contract.exists_ (Contract.documents_at (chain w) c) = true ->
  exists err w',
    BlockchainService.registerDocument env c h w
    = (Ok (BlockchainService.Failure err), w') /\
    fs w' = fs w /\ chain w' = chain w.
Proof.
  intros Hfail. unfold BlockchainService.registerDocument.
  destruct (rpc_register_up env) eqn:Hup.
  - destruct Hfail as [? | Hex]; [discriminate |].
    unfold bind, emit, Contract.registerDocument. cbn [fs chain trace].
    rewrite Hex. cbn [negb]. eauto.
  - unfold ret. eauto.
Qed.

Lemma unlink_existing p bytes w :
  fs w !! p = Some bytes ->
  exists w', unlink_if_exists (Some p) w = (Ok tt, w') /\
             fs w' = delete p (fs w) /\ chain w' = chain w.
Proof.
  intros Hp. unfold unlink_if_exists, bind, existsSync, unlinkSync.
  rewrite Hp. rewrite bool_decide_eq_true_2 by eauto. rewrite Hp.
  eexists. split; [reflexivity |]. cbn [fs chain]. auto.
Qed.

Lemma generateDocumentHash_run lib p bytes w :
  fs w !! p = Some bytes ->
  generateDocumentHash lib p w
  = (Ok (sha256_hex lib bytes),
     mkWorld (fs w) (chain w) (trace w ++ [FsRead p])).
Proof.
  intros Hp. unfold generateDocumentHash, bind, readFileSync, ret.
  rewrite Hp. reflexivity.
Qed.

(** X11. When the registration does not go through, because the RPC node
    is out of reach or because the generated certificate number is taken,
    either server answers 500, removes the uploaded file, writes no other
    file and leaves the ledger as it was. *)
Theorem upload_registration_failure (lib : Lib) (env : Env) (f : File)
    (w : World) (bytes : string) :
  fs w !! path f = Some bytes ->
  rpc_register_up env = false \/
  Contract.exists_
    (Contract.documents_at (chain w) (generateCertificateNumber env)) = true ->
  registration_failed f w (ServerQR.post_api_upload lib env (Some f) w) /\
  registration_failed f w (ServerWM.post_api_upload lib env (Some f) w).
Proof.
  intros Hf Hfail.
  pose (w1 := mkWorld (fs w) (chain w) (trace w ++ [FsRead (path f)])).
  destruct (registerDocument_fails env (generateCertificateNumber env)
              (sha256_hex lib bytes) w1 Hfail) as (err & w2 & E2 & Hfs2 & Hc2).
  destruct (unlink_existing (path f) bytes w2) as (w3 & E3 & Hfs3 & Hc3).
  { rewrite Hfs2. exact Hf. }
  split.
  - unfold ServerQR.post_api_upload, try_catch, bind.
    rewrite (generateDocumentHash_run lib _ _ _ Hf). fold w1.
    rewrite E2, E3. eexists _, _. split; [reflexivity |].
    cbn [status]. rewrite Hfs3, Hfs2, Hc3, Hc2. auto.
  - unfold ServerWM.post_api_upload, try_catch, bind.
    rewrite (generateDocumentHash_run lib _ _ _ Hf). fold w1.
    rewrite E2, E3. eexists _, _. split; [reflexivity |].
    cbn [status]. rewrite Hfs3, Hfs2, Hc3, Hc2. auto.
Qed.

Lemma upload_registration_failure_witness :
  registration_failed hello_txt taken_world
    (ServerQR.post_api_upload demo_lib demo_env (Some hello_txt) taken_world) /\
  registration_failed hello_txt taken_world
    (ServerWM.post_api_upload demo_lib demo_env (Some hello_txt) taken_world).
Proof.
  exact (upload_registration_failure demo_lib demo_env hello_txt taken_world
           "hello" ltac:(vm_compute; reflexivity)
           ltac:(right; vm_compute; reflexivity)).
Defined.

End UploadLedger.
(* ===================================================================== *)
(** * Upload, then verify                                                *)
(* ===================================================================== *)

Section VerifyAfterUpload.
Import JS Node Http Fixtures.
Local Open Scope node_scope.

Lemma getDocument_returns env c w :
  exists reply w',
    BlockchainService.getDocument env c w = (Ok reply, w') /\
    fs w' = fs w /\ chain w' = chain w.
Proof.
  unfold BlockchainService.getDocument, bind, emit, ret.
  destruct (BlockchainService.as_string c), (rpc_get_up env);
    cbn [fs chain trace];
    try destruct (Contract.getDocument _ _) as [[[? ?] ?] ?]; eauto.
Qed.

(** With the node up, a verdict on two strings is the contract's. *)
Lemma WM_verdict_isValid lib env (c h : string) w :
  rpc_verify_up env = true ->
  isValid_of (ServerWM.verdict lib env (VString c) (VString h) w)
  = Some (fst (Contract.verifyDocument (keccak256 lib) c h (chain w))).
Proof.
  intros Hup. unfold ServerWM.verdict, bind.
  rewrite (service_verifyDocument lib env c h w Hup).
  match goal with
  | |- context [BlockchainService.getDocument env ?v ?w1] =>
      destruct (getDocument_returns env v w1) as (reply & w2 & -> & _ & _)
  end.
  reflexivity.
Qed.

Lemma generateCertificateNumber_truthy env :
  truthy (VString (generateCertificateNumber env)) = true.
Proof. reflexivity. Qed.

(** The watermark server's verdict on an uploaded file is the contract's
    verdict on the SHA-256 digest of the bytes of the file. *)
Lemma WM_verify_upload_isValid lib env (c : string) f w bytes :
  truthy (VString c) = true ->
  fs w !! path f = Some bytes ->
  rpc_verify_up env = true ->
  isValid_of (ServerWM.post_api_verify_upload lib env (VString c) (Some f) w)
  = Some (fst (Contract.verifyDocument (keccak256 lib) c
                 (sha256_hex lib bytes) (chain w))).
Proof.
  intros Hc Hf Hup. unfold ServerWM.post_api_verify_upload.
  rewrite Hc. cbn [negb]. unfold try_catch, bind at 1.
  rewrite (generateDocumentHash_run lib _ _ _ Hf). unfold bind at 1.
  match goal with
  | |- context [unlink_if_exists (Some ?p) ?w1] =>
      destruct (unlink_existing p bytes w1 Hf) as (w2 & -> & _ & Hc2)
  end.
  cbn [chain] in Hc2. rewrite <- Hc2.
  pose proof (WM_verdict_isValid lib env c (sha256_hex lib bytes) w2 Hup) as Hv.
  unfold isValid_of in *.
  destruct (ServerWM.verdict lib env _ _ w2) as [[r | e] w3]; cbn [fst] in *;
    [exact Hv | discriminate Hv].
Qed.

(** X12. Upload, then verify, in the watermark server: after an upload
    answered with 200, and whatever is registered later, a file brought to
    [POST /api/verify-upload] with the certificate number of that upload
    is found valid exactly when its SHA-256 digest is the digest of the
    bytes that were uploaded (for a collision-free [keccak256]). *)
Theorem WM_upload_then_verify (lib : Lib) (env env2 : Env) (f f2 : File)
    (w w1 w2 : World) (resp : Response) (cs : list (Z * Contract.Call))
    (bytes2 : string) :
  (forall a b, keccak256 lib a = keccak256 lib b -> a = b) ->
  ServerWM.post_api_upload lib env (Some f) w = (Ok resp, w1) ->
  status resp = 200 ->
  chain w2 = Contract.run cs (chain w1) ->
  fs w2 !! path f2 = Some bytes2 ->
  rpc_verify_up env2 = true ->
  exists bytes,
    fs w !! path f = Some bytes /\
    isValid_of
      (ServerWM.post_api_verify_upload lib env2
         (VString (generateCertificateNumber env)) (Some f2) w2)
    = Some (bool_decide (sha256_hex lib bytes2 = sha256_hex lib bytes)).
Proof.
  intros Hinj Hup H200 Hchain Hf2 Hrpc.
  pose proof (WM_upload_ledger lib env f w) as HL. rewrite Hup in HL.
  destruct HL as [[_ Hno] | (bytes & Hf & Hreg)]; [contradiction |].
  exists bytes. split; [exact Hf |].
  rewrite (WM_verify_upload_isValid lib env2 _ f2 w2 bytes2
             (generateCertificateNumber_truthy env) Hf2 Hrpc).
  rewrite Hchain.
  rewrite (verifyDocument_after_register (keccak256 lib) _ _ _ _ _ cs
             (sha256_hex lib bytes2) Hinj Hreg).
  reflexivity.
Qed.

Lemma WM_upload_then_verify_witness :
  exists bytes,
    fs hello_world !! path hello_txt = Some bytes /\
    isValid_of
      (ServerWM.post_api_verify_upload demo_lib demo_env
         (VString (generateCertificateNumber demo_env)) (Some hello_copy)
         WM_copy_world)
    = Some (bool_decide (sha256_hex demo_lib "hello" = sha256_hex demo_lib bytes)).
Proof.
  exact (WM_upload_then_verify demo_lib demo_env demo_env hello_txt hello_copy
           hello_world (snd WM_after_upload) WM_copy_world WM_uploaded []
           "hello" (fun a b E => E)
           ltac:(vm_compute; reflexivity) ltac:(vm_compute; reflexivity)
           ltac:(reflexivity) ltac:(vm_compute; reflexivity)
           ltac:(reflexivity)).
Defined.

End VerifyAfterUpload.
(* ===================================================================== *)
(** * Text read as UTF-8 is well-formed UTF-8                            *)
(* ===================================================================== *)

Section Utf8.
Import JS.

Lemma passes_nil : passes "".
Proof. intros b. reflexivity. Qed.

Lemma passes_app a b : passes a -> passes b -> passes (a +:+ b).
Proof.
  intros Ha Hb x. rewrite append_assoc, Ha, Hb, append_assoc. reflexivity.
Qed.

Lemma passes_ascii b t : code b <= 127 -> passes t -> passes (String b t).
Proof.
  intros Hb Ht x. unfold utf8_decode.
  change (String b t +:+ x) with (String b (t +:+ x)).
  cbn [utf8_go]. rewrite (proj2 (Z.leb_le _ _) Hb).
  fold (utf8_decode (t +:+ x)). rewrite Ht. reflexivity.
Qed.

Lemma passes_REPLACEMENT : passes REPLACEMENT.
Proof. intros x. reflexivity. Qed.

Lemma utf8_lead_range n k lo hi :
  utf8_lead n = Some (k, lo, hi) ->
  194 <= n /\ exists k', k = S k'.
Proof.
  unfold utf8_lead.
  destruct ((194 <=? n) && (n <=? 223)) eqn:E1.
  { intros [= <- <- <-]. split; [lia | eauto]. }
  destruct ((224 <=? n) && (n <=? 239)) eqn:E2.
  { intros [= <- <- <-]. split; [lia | eauto]. }
  destruct ((240 <=? n) && (n <=? 244)) eqn:E3.
  { intros [= <- <- <-]. split; [lia | eauto]. }
  discriminate.
Qed.

Lemma utf8_go_lead b s k lo hi :
  utf8_lead (code b) = Some (k, lo, hi) ->
  utf8_go (String b s) 0 128 191 "" = utf8_go s k lo hi (str b).
Proof.
  intros H. destruct (utf8_lead_range _ _ _ _ H) as [Hn _].
  cbn [utf8_go]. rewrite H.
  destruct (code b <=? 127) eqn:E; [lia | reflexivity].
Qed.

Lemma utf8_go_next b s k lo hi pend :
  lo <= code b <= hi ->
  utf8_go (String b s) (S k) lo hi pend
  = match k with
    | O => pend +:+ String b (utf8_go s 0 128 191 "")
    | S _ => utf8_go s k 128 191 (pend +:+ str b)
    end.
Proof.
  intros Hb. cbn [utf8_go].
  replace ((lo <=? code b) && (code b <=? hi)) with true by lia.
  reflexivity.
Qed.

Lemma utf8_go_other b s k lo hi pend :
  ~ (lo <= code b <= hi) ->
  utf8_go (String b s) (S k) lo hi pend
  = REPLACEMENT +:+ utf8_go (String b s) 0 128 191 "".
Proof.
  intros Hb. cbn [utf8_go].
  replace ((lo <=? code b) && (code b <=? hi)) with false by lia.
  reflexivity.
Qed.

Lemma lead_expects b k lo hi :
  utf8_lead (code b) = Some (S k, lo, hi) -> expects k lo hi (str b).
Proof.
  intros H.
  assert (Hk : (k <= 2)%nat).
  { unfold utf8_lead in H.
    repeat match type of H with
      | (if ?c then _ else _) = _ => destruct c
      end; try discriminate; injection H as <- _ _; lia. }
  destruct k as [| [| [| k]]]; [| | | lia].
  - intros b1 H1 t Ht x. unfold utf8_decode.
    change ((str b +:+ String b1 t) +:+ x) with (String b (String b1 (t +:+ x))).
    rewrite (utf8_go_lead _ _ _ _ _ H), utf8_go_next by exact H1.
    fold (utf8_decode (t +:+ x)). rewrite Ht. reflexivity.
  - intros b1 H1 b2 H2 t Ht x. unfold utf8_decode.
    change (((str b +:+ str b1) +:+ String b2 t) +:+ x)
      with (String b (String b1 (String b2 (t +:+ x)))).
    rewrite (utf8_go_lead _ _ _ _ _ H), utf8_go_next by exact H1.
    rewrite utf8_go_next by exact H2.
    fold (utf8_decode (t +:+ x)). rewrite Ht. reflexivity.
  - intros b1 H1 b2 H2 b3 H3 t Ht x. unfold utf8_decode.
    change ((((str b +:+ str b1) +:+ str b2) +:+ String b3 t) +:+ x)
      with (String b (String b1 (String b2 (String b3 (t +:+ x))))).
    rewrite (utf8_go_lead _ _ _ _ _ H), utf8_go_next by exact H1.
    rewrite utf8_go_next by exact H2. rewrite utf8_go_next by exact H3.
    fold (utf8_decode (t +:+ x)). rewrite Ht. reflexivity.
Qed.

Lemma utf8_go_passes s :
  passes (utf8_go s 0 128 191 "") /\
  forall k lo hi pend,
    expects k lo hi pend -> passes (utf8_go s (S k) lo hi pend).
Proof.
  induction s as [| b s [IH0 IH1]].
  - split; [apply passes_nil |]. intros. apply passes_REPLACEMENT.
  - assert (H0 : passes (utf8_go (String b s) 0 128 191 "")).
    { destruct (Z_le_gt_dec (code b) 127) as [Hb | Hb].
      - cbn [utf8_go]. rewrite (proj2 (Z.leb_le _ _) Hb).
        apply passes_ascii; assumption.
      - destruct (utf8_lead (code b)) as [[[k lo] hi] |] eqn:E.
        + rewrite (utf8_go_lead _ _ _ _ _ E).
          destruct (utf8_lead_range _ _ _ _ E) as [_ [k' ->]].
          apply IH1, lead_expects, E.
        + cbn [utf8_go]. rewrite E.
          destruct (code b <=? 127) eqn:E'; [lia |].
          apply passes_app; [apply passes_REPLACEMENT | exact IH0]. }
    split; [exact H0 |].
    intros k lo hi pend He.
    destruct (Z_le_gt_dec lo (code b)) as [Hlo | Hlo];
      [destruct (Z_le_gt_dec (code b) hi) as [Hhi | Hhi] |].
    + rewrite utf8_go_next by lia.
      destruct k as [| k].
      * apply (He b); [lia | exact IH0].
      * apply IH1. apply (He b). lia.
    + rewrite utf8_go_other by lia.
      apply passes_app; [apply passes_REPLACEMENT | exact H0].
    + rewrite utf8_go_other by lia.
      apply passes_app; [apply passes_REPLACEMENT | exact H0].
Qed.

Lemma utf8_decode_passes s : passes (utf8_decode s).
Proof. apply utf8_go_passes. Qed.

Lemma passes_fixed s : utf8_decode s = s -> passes s.
Proof. intros H. rewrite <- H. apply utf8_decode_passes. Qed.

Lemma passes_decode s : passes s -> utf8_decode s = s.
Proof.
  intros H. specialize (H ""). rewrite append_empty_r in H.
  rewrite H. apply append_empty_r.
Qed.

Lemma utf8_decode_idempotent_aux s :
  utf8_decode (utf8_decode s) = utf8_decode s.
Proof. apply passes_decode, utf8_decode_passes. Qed.

End Utf8.
(* ===================================================================== *)
(** * The QR server: what a verdict rests on                             *)
(* ===================================================================== *)

Section QRVerdict.
Import JS Node Http Fixtures.
Local Open Scope node_scope.

Lemma match_qr_nonempty content q :
  ServerQR.match_qr content = Some q -> q <> "".
Proof.
  induction content as [| c content IH]; cbn [ServerQR.match_qr].
  - destruct (strip_prefix ServerQR.marker "") as [rest |]; [| discriminate].
    destruct (ServerQR.lazy_to_brace rest); cbn [option_map];
      [intros [= <-]; discriminate | discriminate].
  - destruct (strip_prefix ServerQR.marker (String c content)) as [rest |].
    + destruct (ServerQR.lazy_to_brace rest); cbn [option_map];
        [intros [= <-]; discriminate | exact IH].
    + exact IH.
Qed.

(** The lookup, by whether the node answers it. *)
Lemma getDocument_run env (c : string) w :
  BlockchainService.getDocument env (VString c) w
  = if rpc_get_up env then
      (Ok (BlockchainService.Success
             (BlockchainService.mkDocumentInfo
                (Contract.certificateNumber (Contract.documents_at (chain w) c))
                (Contract.documentHash (Contract.documents_at (chain w) c))
                (Number_of_BigInt
                   (Contract.timestamp (Contract.documents_at (chain w) c)))
                (Contract.exists_ (Contract.documents_at (chain w) c)))),
       mkWorld (fs w) (chain w) (trace w ++ [Rpc (Contract.CallGet c)]))
    else (Ok (BlockchainService.Failure "could not detect network"), w).
Proof.
  unfold BlockchainService.getDocument, bind, emit, ret.
  cbn [BlockchainService.as_string]. destruct (rpc_get_up env); reflexivity.
Qed.

Lemma unlinkSync_run p bytes w :
  fs w !! p = Some bytes ->
  unlinkSync p w
  = (Ok tt, mkWorld (delete p (fs w)) (chain w) (trace w ++ [FsUnlink p])).
Proof. intros H. unfold unlinkSync. rewrite H. reflexivity. Qed.

(** The handler from the point where it holds a payload [q] that parses
    to the pair [(c, h)]. *)
Ltac run_handler :=
  cbv beta iota zeta
    delta [try_catch bind readFileSync_utf8 readFileSync ret throw].

Ltac verdict_tail q Hq Hjson Hc Hh Hup :=
  destruct q; [congruence |];
  rewrite Hjson, Hc, Hh; cbn [negb orb];
  rewrite (service_verifyDocument _ _ _ _ _ Hup);
  rewrite getDocument_run; cbn [chain]; unfold ServerQR.payload_verdict;
  destruct (rpc_get_up _); reflexivity.

Lemma QR_verify_upload_text lib env f w bytes (q c h : string) :
  toLowerCase (extname (originalname f)) = ".txt" ->
  fs w !! path f = Some bytes ->
  ServerQR.match_qr (utf8_decode bytes) = Some q ->
  JSON_parse lib q = Some (PProps (VString c) (VString h)) ->
  truthy (VString c) = true -> truthy (VString h) = true ->
  rpc_verify_up env = true ->
  isValid_of (ServerQR.post_api_verify_upload lib env (Some f) w)
  = Some (ServerQR.payload_verdict lib env c h (chain w)).
Proof.
  intros Hext Hf Hm Hjson Hc Hh Hup.
  pose proof (match_qr_nonempty _ _ Hm) as Hq.
  unfold ServerQR.post_api_verify_upload. cbv zeta.
  rewrite Hext. cbn [String.eqb Ascii.eqb Bool.eqb].
  run_handler. rewrite Hf, Hm.
  rewrite (unlinkSync_run _ bytes) by exact Hf.
  verdict_tail q Hq Hjson Hc Hh Hup.
Qed.

Lemma QR_verify_upload_pdf lib env f w bytes d (q c h : string) :
  toLowerCase (extname (originalname f)) = ".pdf" ->
  fs w !! path f = Some bytes ->
  PDF_load lib bytes = Some d ->
  pdf_title d = Some ("QR:" +:+ q) ->
  q <> "" ->
  JSON_parse lib q = Some (PProps (VString c) (VString h)) ->
  truthy (VString c) = true -> truthy (VString h) = true ->
  rpc_verify_up env = true ->
  isValid_of (ServerQR.post_api_verify_upload lib env (Some f) w)
  = Some (ServerQR.payload_verdict lib env c h (chain w)).
Proof.
  intros Hext Hf Hd Ht Hq Hjson Hc Hh Hup.
  unfold ServerQR.post_api_verify_upload. cbv zeta.
  rewrite Hext. cbn [String.eqb Ascii.eqb Bool.eqb].
  unfold ServerQR.extractQRDataFromPDF. run_handler.
  rewrite Hf, Hd, Ht.
  change (startsWith "QR:" ("QR:" +:+ q)) with true.
  change (drop 3 ("QR:" +:+ q)) with q.
  cbn [String.eqb Ascii.eqb Bool.eqb negb andb append].
  rewrite (unlinkSync_run _ bytes) by exact Hf.
  verdict_tail q Hq Hjson Hc Hh Hup.
Qed.

(** X13. In the QR server the verdict of [POST /api/verify-upload] rests
    on the embedded payload alone, never on the bytes of the document:
    for a text file it is the first footer payload, for a PDF the title
    after [QR:]; once that parses to a pair [(c, h)] the answer is valid
    exactly when the contract verifies [(c, h)], the lookup gets through,
    and the hash it returns is [h]. *)
Theorem QR_verdict_rests_on_the_payload (lib : Lib) (env : Env) (f : File)
    (w : World) (bytes q c h : string) :
  fs w !! path f = Some bytes ->
  (toLowerCase (extname (originalname f)) = ".txt" /\
   ServerQR.match_qr (utf8_decode bytes) = Some q) \/
  (toLowerCase (extname (originalname f)) = ".pdf" /\ q <> "" /\
   exists d, PDF_load lib bytes = Some d /\ pdf_title d = Some ("QR:" +:+ q)) ->
  JSON_parse lib q = Some (PProps (VString c) (VString h)) ->
  c <> "" -> h <> "" ->
  rpc_verify_up env = true ->
  isValid_of (ServerQR.post_api_verify_upload lib env (Some f) w)
  = Some (ServerQR.payload_verdict lib env c h (chain w)).
Proof.
  intros Hf Hkind Hjson Hc Hh Hup.
  assert (Hc' : truthy (VString c) = true).
  { cbn [truthy]. destruct c; [congruence | reflexivity]. }
  assert (Hh' : truthy (VString h) = true).
  { cbn [truthy]. destruct h; [congruence | reflexivity]. }
  destruct Hkind as [[Hext Hm] | (Hext & Hq & d & Hd & Ht)].
  - eapply QR_verify_upload_text; eauto.
  - eapply QR_verify_upload_pdf; eauto.
Qed.

Lemma QR_verdict_rests_on_the_payload_witness :
  isValid_of
    (ServerQR.post_api_verify_upload office_lib demo_env (Some certified_copy)
       QR_copy_world)
  = Some (ServerQR.payload_verdict office_lib demo_env "CERT-00000123-0042"
            (digest_stub "hello") (chain QR_copy_world)).
Proof.
  exact (QR_verdict_rests_on_the_payload office_lib demo_env certified_copy
           QR_copy_world
           (ServerQR.certifiedContent "hello" "CERT-00000123-0042"
              (digest_stub "hello") (localeNow demo_env))
           hello_payload "CERT-00000123-0042" (digest_stub "hello")
           ltac:(vm_compute; reflexivity)
           ltac:(left; split; vm_compute; reflexivity)
           ltac:(vm_compute; reflexivity)
           ltac:(discriminate) ltac:(vm_compute; discriminate)
           ltac:(reflexivity)).
Defined.

Lemma getDocument_down env c w r w' :
  rpc_get_up env = false ->
  BlockchainService.getDocument env c w = (Ok r, w') ->
  BlockchainService.documentHash_of r = None.
Proof.
  intros Hdown. unfold BlockchainService.getDocument, ret.
  rewrite Hdown. destruct (BlockchainService.as_string c);
    intros [= <- <-]; reflexivity.
Qed.

Lemma strict_eq_undefined v : ServerQR.strict_eq v None = false.
Proof. destruct v; reflexivity. Qed.

(** X14. When the lookup that follows the contract's verdict does not get
    through, [POST /api/verify-upload] of the QR server never answers
    valid: the registered hash is then [undefined], the comparison with it
    fails, and a certificate that the contract has just verified is
    reported as not authentic. *)
Theorem lookup_failure_is_reported_as_invalid (lib : Lib) (env : Env)
    (file : option File) (w : World) :
  rpc_get_up env = false ->
  isValid_of (ServerQR.post_api_verify_upload lib env file w) <> Some true.
Proof.
  intros Hdown. unfold isValid_of.
  destruct (ServerQR.post_api_verify_upload lib env file w)
    as [[r | e] w'] eqn:H; cbn [fst]; [| discriminate].
  unfold ServerQR.post_api_verify_upload in H. destruct file; paths H;
    try (unfold verdict_isValid, json; cbn [body]; discriminate).
  all: match goal with
       | E : BlockchainService.getDocument _ _ _ = _,
         V : _ && ServerQR.strict_eq _ _ = true |- _ =>
           rewrite (getDocument_down _ _ _ _ _ Hdown E), strict_eq_undefined,
             andb_false_r in V; discriminate V
       end.
Qed.

Lemma lookup_failure_is_reported_as_invalid_witness :
  fst (Contract.verifyDocument (keccak256 office_lib) "CERT-00000123-0042"
         (digest_stub "hello") (chain QR_copy_world)) = true /\
  isValid_of
    (ServerQR.post_api_verify_upload office_lib lookup_down_env
       (Some certified_copy) QR_copy_world)
  <> Some true.
Proof.
  split; [vm_compute; reflexivity |].
  exact (lookup_failure_is_reported_as_invalid office_lib lookup_down_env
           (Some certified_copy) QR_copy_world eq_refl).
Defined.

End QRVerdict.
(* ===================================================================== *)
(** * The QR server: upload, then verify the certified file              *)
(* ===================================================================== *)

Section QRRoundTrip.
Import JS Node Http Fixtures.
Local Open Scope node_scope.

Ltac run_handler :=
  cbv beta iota zeta
    delta [try_catch bind readFileSync_utf8 readFileSync writeFileSync
           existsSync ret throw].

Lemma passes_ascii_string s :
  all_chars (fun c => code c <=? 127) s = true -> passes s.
Proof. intros H. apply passes_fixed, utf8_decode_ascii, H. Qed.

Lemma token_plain s :
  all_chars ServerQR.token_char s = true ->
  all_chars ServerQR.plain_char s = true.
Proof.
  apply all_chars_impl. intros x H. unfold ServerQR.token_char in H.
  apply andb_true_iff in H as [H _]. exact H.
Qed.

Lemma token_passes s : all_chars ServerQR.token_char s = true -> passes s.
Proof.
  intros H. apply passes_ascii_string. revert H. apply all_chars_impl.
  intros x H. unfold ServerQR.token_char in H.
  apply andb_true_iff in H as [_ H]. exact H.
Qed.

Lemma hex_token x : hex_char x = true -> ServerQR.token_char x = true.
Proof.
  destruct x as [[] [] [] [] [] [] [] []]; vm_compute; intros H;
    first [reflexivity | discriminate H].
Qed.

Lemma digit_token x : is_digit x = true -> ServerQR.token_char x = true.
Proof.
  intros H. apply hex_token. unfold hex_char. rewrite H. reflexivity.
Qed.

Lemma digest_token s : is_digest s = true -> all_chars ServerQR.token_char s = true.
Proof.
  unfold is_digest. intros H. apply andb_true_iff in H as [_ H].
  revert H. apply all_chars_impl, hex_token.
Qed.

Lemma digest_truthy s : is_digest s = true -> truthy (VString s) = true.
Proof.
  unfold is_digest. intros H. apply andb_true_iff in H as [H _].
  destruct s; [discriminate H | reflexivity].
Qed.

Lemma generateCertificateNumber_token env :
  all_chars ServerQR.token_char (generateCertificateNumber env) = true.
Proof.
  apply generateCertificateNumber_chars;
    [exact digit_token | reflexivity | reflexivity].
Qed.

Ltac closed_text := apply passes_fixed; vm_compute; reflexivity.

Lemma qr_payload_passes c h :
  all_chars ServerQR.plain_char c = true ->
  all_chars ServerQR.plain_char h = true ->
  passes c -> passes h -> passes (ServerQR.qr_payload c h).
Proof.
  intros Hc Hh Pc Ph. rewrite (qr_payload_plain c h Hc Hh).
  unfold ServerQR.payload_body.
  change (String dquote (c +:+ str dquote)) with (str dquote +:+ c +:+ str dquote).
  change (String dquote (h +:+ str dquote)) with (str dquote +:+ h +:+ str dquote).
  repeat first [assumption | apply passes_app | closed_text].
Qed.

Lemma QR_certifiedContent_passes orig c h ts :
  all_chars ServerQR.plain_char c = true ->
  all_chars ServerQR.plain_char h = true ->
  passes orig -> passes c -> passes h -> passes ts ->
  passes (ServerQR.certifiedContent orig c h ts).
Proof.
  intros Hc Hh Po Pc Ph Pt.
  pose proof (qr_payload_passes c h Hc Hh Pc Ph) as Pq.
  unfold ServerQR.certifiedContent, ServerQR.text_footer.
  repeat first [assumption | apply passes_app | closed_text].
Qed.

Lemma WM_certifiedContent_passes orig c h ts :
  passes orig -> passes c -> passes h -> passes ts ->
  passes (ServerWM.certifiedContent orig c h ts).
Proof.
  intros Po Pc Ph Pt.
  unfold ServerWM.certifiedContent, ServerWM.text_header, ServerWM.text_footer.
  repeat first [assumption | apply passes_app | closed_text].
Qed.

(** X15. A certified text file is well-formed UTF-8 whatever bytes were
    uploaded: with a certificate number, a hash and a date that are
    well-formed (and, in the QR server, free of characters that JSON
    escapes), reading back as text what [createCertifiedTextFile] wrote
    gives exactly what it wrote. *)
Theorem certified_text_is_well_formed (env : Env)
    (inputPath outputPath c h : string) (w : World) (bytes : string) :
  fs w !! inputPath = Some bytes ->
  utf8_decode c = c -> utf8_decode h = h ->
  utf8_decode (localeNow env) = localeNow env ->
  all_chars ServerQR.plain_char c = true ->
  all_chars ServerQR.plain_char h = true ->
  (exists stamped,
      fs (snd (ServerQR.createCertifiedTextFile env inputPath outputPath c h w))
        !! outputPath = Some stamped /\
      utf8_decode stamped = stamped) /\
  (exists stamped,
      fs (snd (ServerWM.createCertifiedTextFile env inputPath outputPath c h w))
        !! outputPath = Some stamped /\
      utf8_decode stamped = stamped).
Proof.
  intros Hf Dc Dh Dt Hc Hh.
  pose proof (passes_fixed _ Dc) as Pc. pose proof (passes_fixed _ Dh) as Ph.
  pose proof (passes_fixed _ Dt) as Pt.
  pose proof (utf8_decode_passes bytes) as Po.
  split; eexists; split.
  - rewrite (QR_createCertifiedTextFile_run env _ _ _ _ _ _ Hf).
    cbn [snd fs]. apply lookup_insert_eq.
  - apply passes_decode, QR_certifiedContent_passes; assumption.
  - rewrite (WM_createCertifiedTextFile_run env _ _ _ _ _ _ Hf).
    cbn [snd fs]. apply lookup_insert_eq.
  - apply passes_decode, WM_certifiedContent_passes; assumption.
Qed.

Lemma certified_text_is_well_formed_witness :
  (exists stamped,
      fs (snd (ServerQR.createCertifiedTextFile demo_env "uploads/1-2.txt"
                 "certified-documents/out.txt" "CERT-00000123-0042" "aa"
                 ill_formed_world))
        !! "certified-documents/out.txt" = Some stamped /\
      utf8_decode stamped = stamped) /\
  (exists stamped,
      fs (snd (ServerWM.createCertifiedTextFile demo_env "uploads/1-2.txt"
                 "certified-documents/out.txt" "CERT-00000123-0042" "aa"
                 ill_formed_world))
        !! "certified-documents/out.txt" = Some stamped /\
      utf8_decode stamped = stamped).
Proof.
  exact (certified_text_is_well_formed demo_env "uploads/1-2.txt"
           "certified-documents/out.txt" "CERT-00000123-0042" "aa"
           ill_formed_world
           (String (char 255) "a")
           ltac:(vm_compute; reflexivity) ltac:(vm_compute; reflexivity)
           ltac:(vm_compute; reflexivity) ltac:(vm_compute; reflexivity)
           ltac:(vm_compute; reflexivity) ltac:(vm_compute; reflexivity)).
Defined.

Lemma registerDocument_succeeds env c h w :
  rpc_register_up env = true ->
  Contract.exists_ (Contract.documents_at (chain w) c) = false ->
  exists st1,
    Contract.registerDocument (block_timestamp env) c h (chain w)
    = Contract.Return st1 /\
    BlockchainService.registerDocument env c h w
    = (Ok (BlockchainService.Success (tx_hash env)),
       mkWorld (fs w) st1 (trace w ++ [Rpc (Contract.CallRegister c h)])).
Proof.
  intros Hup Hfresh. eexists. split.
  - apply registerDocument_fresh, Hfresh.
  - unfold BlockchainService.registerDocument, bind, emit.
    rewrite Hup. cbn [fs chain trace].
    rewrite (registerDocument_fresh _ _ _ _ Hfresh). reflexivity.
Qed.

(** A payload whose pair is registered passes, whatever was registered
    after it, as long as the lookup gets through. *)
Lemma payload_verdict_registered lib env now c h st st1 cs :
  Contract.registerDocument now c h st = Contract.Return st1 ->
  rpc_get_up env = true ->
  ServerQR.payload_verdict lib env c h (Contract.run cs st1) = true.
Proof.
  intros Hreg Hup. apply registerDocument_inv in Hreg as [_ ->].
  unfold ServerQR.payload_verdict, Contract.verifyDocument.
  rewrite run_keeps_record; rewrite documents_at_insert;
    destruct (decide (c = c)); try congruence; cbn.
  - rewrite Hup, String.eqb_refl.
    rewrite bool_decide_eq_true_2 by reflexivity. reflexivity.
  - reflexivity.
Qed.

Lemma QR_process_text_run lib env i c h o w bytes :
  toLowerCase (extname o) = ".txt" ->
  fs w !! i = Some bytes ->
  exists w',
    ServerQR.processCertifiedDocument lib env i c h o w
    = (Ok (Some (ServerQR.certified_path lib o c ".txt")), w') /\
    fs w' = <[ServerQR.certified_path lib o c ".txt" :=
                ServerQR.certifiedContent (utf8_decode bytes) c h
                  (localeNow env)]> (fs w) /\
    chain w' = chain w.
Proof.
  intros Hext Hf. unfold ServerQR.processCertifiedDocument. cbv zeta.
  rewrite Hext. cbn [String.eqb Ascii.eqb Bool.eqb orb].
  fold (ServerQR.certified_path lib o c ".txt"). rewrite <- Hext.
  fold (ServerQR.certified_path lib o c ".txt").
  unfold try_catch, bind.
  rewrite (QR_createCertifiedTextFile_run env _ _ _ _ _ _ Hf).
  unfold existsSync, ret. cbn [fs].
  rewrite lookup_insert_eq, bool_decide_eq_true_2 by eauto.
  eexists. split; [reflexivity |]. split; reflexivity.
Qed.

Lemma QR_upload_text_run lib env f w bytes :
  toLowerCase (extname (originalname f)) = ".txt" ->
  fs w !! path f = Some bytes ->
  rpc_register_up env = true ->
  Contract.exists_
    (Contract.documents_at (chain w) (generateCertificateNumber env)) = false ->
  exists resp w1,
    ServerQR.post_api_upload lib env (Some f) w = (Ok resp, w1) /\
    status resp = 200 /\
    fs w1 !! ServerQR.certified_path lib (originalname f)
               (generateCertificateNumber env) ".txt"
    = Some (ServerQR.certifiedContent (utf8_decode bytes)
              (generateCertificateNumber env) (sha256_hex lib bytes)
              (localeNow env)) /\
    Contract.registerDocument (block_timestamp env)
      (generateCertificateNumber env) (sha256_hex lib bytes) (chain w)
    = Contract.Return (chain w1).
Proof.
  intros Hext Hf Hup Hfresh.
  pose (w0 := mkWorld (fs w) (chain w) (trace w ++ [FsRead (path f)])).
  destruct (registerDocument_succeeds env (generateCertificateNumber env)
              (sha256_hex lib bytes) w0 Hup Hfresh) as (st1 & Hreg & E1).
  match type of E1 with _ = (_, ?w1) =>
    destruct (QR_process_text_run lib env (path f)
                (generateCertificateNumber env) (sha256_hex lib bytes)
                (originalname f) w1 bytes Hext Hf) as (w2 & E2 & Hfs & Hch)
  end.
  unfold ServerQR.post_api_upload, try_catch, bind. cbv zeta.
  rewrite (generateDocumentHash_run lib _ _ _ Hf). fold w0.
  rewrite E1, E2. eexists _, _. split; [reflexivity |].
  split; [reflexivity |]. split.
  - rewrite Hfs. apply lookup_insert_eq.
  - rewrite Hch. exact Hreg.
Qed.

(** X16. Upload, then verify, in the QR server, for a text file.  When
    the upload of a text that has no [QR Data] line of its own is
    registered, the answer is 200, the certified file is where
    [processCertifiedDocument] says, and that file, brought back to
    [POST /api/verify-upload] at any later time, is found valid. *)
Theorem QR_text_upload_then_verify (lib : Lib) (env env2 : Env)
    (f f2 : File) (w w2 : World) (cs : list (Z * Contract.Call))
    (bytes : string) :
  toLowerCase (extname (originalname f)) = ".txt" ->
  fs w !! path f = Some bytes ->
  includes ServerQR.marker (utf8_decode bytes) = false ->
  is_digest (sha256_hex lib bytes) = true ->
  utf8_decode (localeNow env) = localeNow env ->
  all_chars (fun x => negb (Ascii.eqb "Q" x)) (localeNow env) = true ->
  JSON_parse lib
    (ServerQR.qr_payload (generateCertificateNumber env) (sha256_hex lib bytes))
  = Some (PProps (VString (generateCertificateNumber env))
                 (VString (sha256_hex lib bytes))) ->
  rpc_register_up env = true ->
  Contract.exists_
    (Contract.documents_at (chain w) (generateCertificateNumber env)) = false ->
  toLowerCase (extname (originalname f2)) = ".txt" ->
  fs w2 !! path f2
  = fs (snd (ServerQR.post_api_upload lib env (Some f) w))
      !! ServerQR.certified_path lib (originalname f)
           (generateCertificateNumber env) ".txt" ->
  chain w2
  = Contract.run cs (chain (snd (ServerQR.post_api_upload lib env (Some f) w))) ->
  rpc_verify_up env2 = true -> rpc_get_up env2 = true ->
  option_map status
    (match fst (ServerQR.post_api_upload lib env (Some f) w) with
     | Ok resp => Some resp
     | Throw _ => None
     end) = Some 200 /\
  isValid_of (ServerQR.post_api_verify_upload lib env2 (Some f2) w2)
  = Some true.
Proof.
  intros Hext Hf Hmark Hsha Dt HtQ Hjson Hup Hfresh Hext2 Hf2 Hch2 Hv Hg.
  destruct (QR_upload_text_run lib env f w bytes Hext Hf Hup Hfresh)
    as (resp & w1 & E & H200 & Hfile & Hreg).
  rewrite E in *. cbn [fst snd] in *. split.
  { cbn [option_map]. rewrite H200. reflexivity. }
  rewrite Hfile in Hf2.
  pose proof (generateCertificateNumber_token env) as Tc.
  pose proof (digest_token _ Hsha) as Th.
  assert (Hdec : utf8_decode
                   (ServerQR.certifiedContent (utf8_decode bytes)
                      (generateCertificateNumber env) (sha256_hex lib bytes)
                      (localeNow env))
                 = ServerQR.certifiedContent (utf8_decode bytes)
                     (generateCertificateNumber env) (sha256_hex lib bytes)
                     (localeNow env)).
  { apply passes_decode, QR_certifiedContent_passes;
      auto using token_plain, token_passes, utf8_decode_passes, passes_fixed. }
  rewrite (QR_verify_upload_text lib env2 f2 w2 _
             (ServerQR.qr_payload (generateCertificateNumber env)
                (sha256_hex lib bytes))
             (generateCertificateNumber env) (sha256_hex lib bytes)
             Hext2 Hf2).
  - rewrite Hch2.
    rewrite (payload_verdict_registered lib env2 _ _ _ _ _ cs Hreg Hg).
    reflexivity.
  - rewrite Hdec. apply text_roundtrip; auto using token_plain.
  - exact Hjson.
  - apply generateCertificateNumber_truthy.
  - apply digest_truthy, Hsha.
  - exact Hv.
Qed.

Lemma QR_text_upload_then_verify_witness :
  option_map status
    (match fst (ServerQR.post_api_upload office_lib demo_env (Some hello_txt)
                  hello_world) with
     | Ok resp => Some resp
     | Throw _ => None
     end) = Some 200 /\
  isValid_of
    (ServerQR.post_api_verify_upload office_lib demo_env (Some certified_copy)
       QR_copy_world)
  = Some true.
Proof.
  exact (QR_text_upload_then_verify office_lib demo_env demo_env hello_txt
           certified_copy hello_world QR_copy_world [] "hello"
           ltac:(vm_compute; reflexivity) ltac:(vm_compute; reflexivity)
           ltac:(vm_compute; reflexivity) ltac:(vm_compute; reflexivity)
           ltac:(vm_compute; reflexivity) ltac:(vm_compute; reflexivity)
           ltac:(vm_compute; reflexivity) ltac:(reflexivity)
           ltac:(vm_compute; reflexivity) ltac:(vm_compute; reflexivity)
           ltac:(vm_compute; reflexivity) ltac:(reflexivity)
           ltac:(reflexivity) ltac:(reflexivity)).
Defined.

End QRRoundTrip.

Section QRPdfRoundTrip.
Import JS Node Http Fixtures.
Local Open Scope node_scope.

Ltac run_handler :=
  cbv beta iota zeta
    delta [try_catch bind readFileSync_utf8 readFileSync writeFileSync
           existsSync ret throw].

Lemma QR_process_pdf_run lib env i c h o w bytes d page pages png :
  toLowerCase (extname o) = ".pdf" ->
  fs w !! i = Some bytes ->
  PDF_load lib bytes = Some d ->
  pdf_pages d = page :: pages ->
  QRCode_toBuffer lib (ServerQR.qr_payload c h) = Some png ->
  embedPng lib png = true ->
  exists w' d',
    ServerQR.processCertifiedDocument lib env i c h o w
    = (Ok (Some (ServerQR.certified_path lib o c ".pdf")), w') /\
    fs w' !! ServerQR.certified_path lib o c ".pdf" = Some (PDF_save lib d') /\
    pdf_title d' = Some ("QR:" +:+ ServerQR.qr_payload c h) /\
    chain w' = chain w.
Proof.
  intros Hext Hf Hd Hp Hqr Hpng. unfold ServerQR.processCertifiedDocument.
  cbv zeta. rewrite Hext. cbn [String.eqb Ascii.eqb Bool.eqb orb].
  fold (ServerQR.certified_path lib o c ".pdf"). rewrite <- Hext.
  fold (ServerQR.certified_path lib o c ".pdf").
  unfold ServerQR.addMinimalCertificateToPDF, ServerQR.generateQRCode.
  run_handler. rewrite Hf, Hd. unfold ServerQR.set_metadata.
  cbn [pdf_pages pdf_title pdf_subject pdf_keywords]. rewrite Hp, Hqr.
  cbn [fs chain trace]. rewrite Hpng. cbn [fs chain trace].
  rewrite lookup_insert_eq, bool_decide_eq_true_2 by eauto.
  eexists _, _. split; [reflexivity |]. cbn [fs chain].
  split; [apply lookup_insert_eq |]. split; reflexivity.
Qed.

Lemma QR_process_image_run lib env i c h o w bytes png :
  toLowerCase (extname o) = ".png" \/ toLowerCase (extname o) = ".jpg"
  \/ toLowerCase (extname o) = ".jpeg" ->
  fs w !! i = Some bytes ->
  (toLowerCase (extname i) = ".png" /\ embedPng lib bytes = true) \/
  ((toLowerCase (extname i) = ".jpg" \/ toLowerCase (extname i) = ".jpeg") /\
   embedJpg lib bytes = true) ->
  QRCode_toBuffer lib (ServerQR.qr_payload c h) = Some png ->
  embedPng lib png = true ->
  exists w' d',
    ServerQR.processCertifiedDocument lib env i c h o w
    = (Ok (Some (ServerQR.certified_path lib o c ".pdf")), w') /\
    fs w' !! ServerQR.certified_path lib o c ".pdf" = Some (PDF_save lib d') /\
    pdf_title d' = Some ("QR:" +:+ ServerQR.qr_payload c h) /\
    chain w' = chain w.
Proof.
  intros Hext Hf Himg Hqr Hpng.
  assert (Hpath : ServerQR.processCertifiedDocument lib env i c h o w
          = try_catch
              (r <- (success <- ServerQR.convertImageToPDF lib i
                                  (ServerQR.certified_path lib o c ".pdf") c h ;;
                     ret (Some (ServerQR.certified_path lib o c ".pdf"),
                          success)) ;;
               match r with
               | (Some outputPath, true) =>
                   present <- existsSync outputPath ;;
                   if present : bool then ret (Some outputPath) else ret None
               | _ => ret None
               end)
              (fun _ => ret None) w).
  { unfold ServerQR.processCertifiedDocument, ServerQR.certified_path.
    cbv zeta.
    destruct Hext as [E | [E | E]]; rewrite E; reflexivity. }
  rewrite Hpath. unfold ServerQR.convertImageToPDF, ServerQR.generateQRCode.
  run_handler. rewrite Hf.
  assert (Hemb :
    (if (toLowerCase (extname i) =? ".png")%string
     then if embedPng lib bytes then @ret bool true else throw "embedPng"
     else if (toLowerCase (extname i) =? ".jpg")%string
             || (toLowerCase (extname i) =? ".jpeg")%string
          then if embedJpg lib bytes then ret true else throw "embedJpg"
          else ret false)
    = ret true).
  { destruct Himg as [[E Hb] | [[E | E] Hb]]; rewrite E, Hb; reflexivity. }
  unfold ret, throw in Hemb. rewrite Hemb.
  unfold ServerQR.set_metadata.
  cbn [pdf_pages pdf_title pdf_subject pdf_keywords]. rewrite Hqr.
  cbn [fs chain trace]. rewrite Hpng. cbn [fs chain trace].
  rewrite lookup_insert_eq, bool_decide_eq_true_2 by eauto.
  eexists _, _. split; [reflexivity |]. cbn [fs chain].
  split; [apply lookup_insert_eq |]. split; reflexivity.
Qed.

Lemma qr_payload_nonempty c h : ServerQR.qr_payload c h <> "".
Proof. unfold ServerQR.qr_payload. discriminate. Qed.

(** X17. Upload, then verify, in the QR server, for a PDF or an image.
    When the upload is registered and stamped, and the PDF library reads
    back the title it has written, the certified PDF, brought back to
    [POST /api/verify-upload] at any later time, is found valid. *)
Theorem QR_pdf_upload_then_verify (lib : Lib) (env env2 : Env)
    (f f2 : File) (w w2 : World) (cs : list (Z * Contract.Call))
    (bytes png : string) :
  fs w !! path f = Some bytes ->
  (toLowerCase (extname (originalname f)) = ".pdf" /\
   exists d page pages,
     PDF_load lib bytes = Some d /\ pdf_pages d = page :: pages) \/
  ((toLowerCase (extname (originalname f)) = ".png"
    \/ toLowerCase (extname (originalname f)) = ".jpg"
    \/ toLowerCase (extname (originalname f)) = ".jpeg") /\
   ((toLowerCase (extname (path f)) = ".png" /\ embedPng lib bytes = true) \/
    ((toLowerCase (extname (path f)) = ".jpg"
      \/ toLowerCase (extname (path f)) = ".jpeg") /\
     embedJpg lib bytes = true))) ->
  QRCode_toBuffer lib
    (ServerQR.qr_payload (generateCertificateNumber env) (sha256_hex lib bytes))
  = Some png ->
  embedPng lib png = true ->
  (forall d,
      pdf_title d
      = Some ("QR:" +:+ ServerQR.qr_payload (generateCertificateNumber env)
                          (sha256_hex lib bytes)) ->
      exists d', PDF_load lib (PDF_save lib d) = Some d' /\
                 pdf_title d' = pdf_title d) ->
  sha256_hex lib bytes <> "" ->
  JSON_parse lib
    (ServerQR.qr_payload (generateCertificateNumber env) (sha256_hex lib bytes))
  = Some (PProps (VString (generateCertificateNumber env))
                 (VString (sha256_hex lib bytes))) ->
  rpc_register_up env = true ->
  Contract.exists_
    (Contract.documents_at (chain w) (generateCertificateNumber env)) = false ->
  toLowerCase (extname (originalname f2)) = ".pdf" ->
  fs w2 !! path f2
  = fs (snd (ServerQR.post_api_upload lib env (Some f) w))
      !! ServerQR.certified_path lib (originalname f)
           (generateCertificateNumber env) ".pdf" ->
  chain w2
  = Contract.run cs (chain (snd (ServerQR.post_api_upload lib env (Some f) w))) ->
  rpc_verify_up env2 = true -> rpc_get_up env2 = true ->
  option_map status
    (match fst (ServerQR.post_api_upload lib env (Some f) w) with
     | Ok resp => Some resp
     | Throw _ => None
     end) = Some 200 /\
  isValid_of (ServerQR.post_api_verify_upload lib env2 (Some f2) w2)
  = Some true.
Proof.
  intros Hf Hkind Hqr Hpng Hback Hsha Hjson Hup Hfresh Hext2 Hf2 Hch2 Hv Hg.
  pose (w0 := mkWorld (fs w) (chain w) (trace w ++ [FsRead (path f)])).
  destruct (registerDocument_succeeds env (generateCertificateNumber env)
              (sha256_hex lib bytes) w0 Hup Hfresh) as (st1 & Hreg & E1).
  assert (Hproc : forall w1, fs w1 = fs w ->
    exists w' d',
      ServerQR.processCertifiedDocument lib env (path f)
        (generateCertificateNumber env) (sha256_hex lib bytes)
        (originalname f) w1
      = (Ok (Some (ServerQR.certified_path lib (originalname f)
                     (generateCertificateNumber env) ".pdf")), w') /\
      fs w' !! ServerQR.certified_path lib (originalname f)
                 (generateCertificateNumber env) ".pdf"
      = Some (PDF_save lib d') /\
      pdf_title d'
      = Some ("QR:" +:+ ServerQR.qr_payload (generateCertificateNumber env)
                          (sha256_hex lib bytes)) /\
      chain w' = chain w1).
  { intros w1 Hw1. rewrite <- Hw1 in Hf.
    destruct Hkind as [[Hext (d & page & pages & Hd & Hp)] | [Hext Himg]].
    - eapply QR_process_pdf_run; eauto.
    - eapply QR_process_image_run; eauto. }
  match type of E1 with _ = (_, ?w1) =>
    destruct (Hproc w1 eq_refl) as (w2' & d' & E2 & Hfile & Htitle & Hch)
  end.
  assert (E : ServerQR.post_api_upload lib env (Some f) w
              = (Ok (json
                   (UploadBody (generateCertificateNumber env)
                      (sha256_hex lib bytes) (originalname f)
                      (basename lib
                         (ServerQR.certified_path lib (originalname f)
                            (generateCertificateNumber env) ".pdf") "")
                      (size f) (tx_hash env)
                      ("http://localhost:" +:+ PORT +:+ "/download/"
                       +:+ basename lib
                             (ServerQR.certified_path lib (originalname f)
                                (generateCertificateNumber env) ".pdf") "")
                      (Some (ServerQR.qr_payload (generateCertificateNumber env)
                               (sha256_hex lib bytes)))
                      "Document certified! QR data embedded in PDF. Simply upload the certified PDF to verify.")),
                 w2')).
  { unfold ServerQR.post_api_upload, try_catch, bind. cbv zeta.
    rewrite (generateDocumentHash_run lib _ _ _ Hf). fold w0.
    rewrite E1, E2. reflexivity. }
  rewrite E in *. cbn [fst snd] in *. split; [reflexivity |].
  rewrite Hfile in Hf2.
  destruct (Hback d' Htitle) as (d'' & Hload & Ht''). rewrite Htitle in Ht''.
  rewrite (QR_verify_upload_pdf lib env2 f2 w2 _ d''
             (ServerQR.qr_payload (generateCertificateNumber env)
                (sha256_hex lib bytes))
             (generateCertificateNumber env) (sha256_hex lib bytes)
             Hext2 Hf2 Hload Ht'' (qr_payload_nonempty _ _) Hjson
             (generateCertificateNumber_truthy env)).
  - rewrite Hch2, Hch. cbn [chain].
    rewrite (payload_verdict_registered lib env2 _ _ _ _ _ cs Hreg Hg).
    reflexivity.
  - cbn [truthy]. destruct (sha256_hex lib bytes); [congruence | reflexivity].
  - exact Hv.
Qed.

Lemma QR_pdf_upload_then_verify_witness :
  option_map status
    (match fst (ServerQR.post_api_upload office_lib demo_env (Some blank_pdf)
                  blank_pdf_world) with
     | Ok resp => Some resp
     | Throw _ => None
     end) = Some 200 /\
  isValid_of
    (ServerQR.post_api_verify_upload office_lib demo_env
       (Some certified_pdf_copy) QR_pdf_copy_world)
  = Some true.
Proof.
  refine (QR_pdf_upload_then_verify office_lib demo_env demo_env blank_pdf
           certified_pdf_copy blank_pdf_world QR_pdf_copy_world [] "%PDF:"
           ("PNG:" +:+ hello_payload)
           ltac:(vm_compute; reflexivity) _
           ltac:(vm_compute; reflexivity) ltac:(reflexivity) _
           ltac:(vm_compute; discriminate)
           ltac:(vm_compute; reflexivity) ltac:(reflexivity)
           ltac:(vm_compute; reflexivity) ltac:(vm_compute; reflexivity)
           ltac:(vm_compute; reflexivity) ltac:(reflexivity)
           ltac:(reflexivity) ltac:(reflexivity)).
  - left. split; [vm_compute; reflexivity |].
    exists (mkPdfDoc None None [] [[]]), [], [].
    split; vm_compute; reflexivity.
  - intros d Hd. exists (mkPdfDoc (pdf_title d) None [] [[]]).
    split; [| reflexivity]. cbn [PDF_load PDF_save office_lib].
    unfold demo_PDF_save. rewrite Hd. vm_compute. reflexivity.
Defined.

End QRPdfRoundTrip.
(* ===================================================================== *)
(** * The watermark server: looking a certificate up                     *)
(* ===================================================================== *)

Section DocumentLookup.
Import JS Node Http Fixtures.
Local Open Scope node_scope.

Lemma get_api_document_run lib env c w :
  rpc_get_up env = true ->
  fst (ServerWM.get_api_document lib env c w)
  = Ok (let d := Contract.documents_at (chain w) c in
        if Contract.exists_ d then
          ServerWM.DocumentFound (Contract.certificateNumber d)
            (Contract.documentHash d)
            (Number_of_BigInt (Contract.timestamp d))
            (registrationDate lib (Number_of_BigInt (Contract.timestamp d)))
        else
          ServerWM.DocumentError 404
            "Document not found with this certificate number" None).
Proof.
  intros Hup. unfold ServerWM.get_api_document, try_catch, bind.
  rewrite getDocument_run, Hup.
  cbn [BlockchainService.info_exists BlockchainService.info_certificateNumber
       BlockchainService.info_documentHash BlockchainService.info_timestamp].
  cbv zeta. destruct (Contract.exists_ _); reflexivity.
Qed.

(** X18. [GET /api/document/:certificateNumber] of the watermark server,
    with the node in reach and on any ledger that registrations have
    built: a number without a record is answered with 404, and a number
    with a record with that record under the requested number itself, its
    hash, its block time and the date of that time in seconds. *)
Theorem document_lookup_answers (lib : Lib) (env : Env) (c : string)
    (w : World) :
  rpc_get_up env = true ->
  Contract.reachable (chain w) ->
  fst (ServerWM.get_api_document lib env c w)
  = Ok (match Contract.documents (chain w) !! c with
        | Some d =>
            ServerWM.DocumentFound c (Contract.documentHash d)
              (Number_of_BigInt (Contract.timestamp d))
              (toLocaleString lib
                 (Number_of_BigInt (Contract.timestamp d) * 1000))
        | None =>
            ServerWM.DocumentError 404
              "Document not found with this certificate number" None
        end).
Proof.
  intros Hup Hreach. rewrite (get_api_document_run lib env c w Hup). cbv zeta.
  pose proof (Inv_reachable _ Hreach c) as HI. cbv zeta in HI.
  pose proof (all_exist_reachable _ Hreach c) as HA.
  unfold Contract.documents_at in *.
  destruct (Contract.documents (chain w) !! c) as [d |]; cbn [default] in *.
  - pose proof (HA d eq_refl) as Hex. unfold id in *.
    rewrite Hex in HI |- *.
    destruct HI as [Hkey _]. rewrite Hkey. reflexivity.
  - reflexivity.
Qed.

Lemma document_lookup_answers_witness :
  fst (ServerWM.get_api_document demo_lib demo_env "CERT-1" one_record)
  = Ok (match Contract.documents (chain one_record) !! "CERT-1" with
        | Some d =>
            ServerWM.DocumentFound "CERT-1" (Contract.documentHash d)
              (Number_of_BigInt (Contract.timestamp d))
              (toLocaleString demo_lib
                 (Number_of_BigInt (Contract.timestamp d) * 1000))
        | None =>
            ServerWM.DocumentError 404
              "Document not found with this certificate number" None
        end).
Proof.
  exact (document_lookup_answers demo_lib demo_env "CERT-1" one_record eq_refl
           (ex_intro _ [(100, Contract.CallRegister "CERT-1" "aa")] eq_refl)).
Defined.

End DocumentLookup.
(* ===================================================================== *)
(** * What does not verify                                               *)
(* ===================================================================== *)

Section NotVerified.
Import JS Node Http Fixtures.
Local Open Scope node_scope.

Ltac run_handler :=
  cbv beta iota zeta
    delta [try_catch bind readFileSync_utf8 readFileSync writeFileSync
           existsSync ret throw].

Lemma WM_process_text_run lib env i c h o w bytes :
  toLowerCase (extname o) = ".txt" ->
  fs w !! i = Some bytes ->
  exists w',
    ServerWM.processCertifiedDocument lib env i c h o w
    = (Ok (Some (ServerWM.certified_path lib o c ".txt")), w') /\
    fs w' = <[ServerWM.certified_path lib o c ".txt" :=
                ServerWM.certifiedContent (utf8_decode bytes) c h
                  (localeNow env)]> (fs w) /\
    chain w' = chain w.
Proof.
  intros Hext Hf. unfold ServerWM.processCertifiedDocument. cbv zeta.
  rewrite Hext. cbn [String.eqb Ascii.eqb Bool.eqb orb].
  fold (ServerWM.certified_path lib o c ".txt"). rewrite <- Hext.
  fold (ServerWM.certified_path lib o c ".txt").
  unfold try_catch, bind.
  rewrite (WM_createCertifiedTextFile_run env _ _ _ _ _ _ Hf).
  unfold existsSync, ret. cbn [fs].
  rewrite lookup_insert_eq, bool_decide_eq_true_2 by eauto.
  eexists. split; [reflexivity |]. split; reflexivity.
Qed.

Lemma WM_upload_text_run lib env f w bytes :
  toLowerCase (extname (originalname f)) = ".txt" ->
  fs w !! path f = Some bytes ->
  rpc_register_up env = true ->
  Contract.exists_
    (Contract.documents_at (chain w) (generateCertificateNumber env)) = false ->
  exists resp w1,
    ServerWM.post_api_upload lib env (Some f) w = (Ok resp, w1) /\
    status resp = 200 /\
    fs w1 !! ServerWM.certified_path lib (originalname f)
               (generateCertificateNumber env) ".txt"
    = Some (ServerWM.certifiedContent (utf8_decode bytes)
              (generateCertificateNumber env) (sha256_hex lib bytes)
              (localeNow env)) /\
    Contract.registerDocument (block_timestamp env)
      (generateCertificateNumber env) (sha256_hex lib bytes) (chain w)
    = Contract.Return (chain w1).
Proof.
  intros Hext Hf Hup Hfresh.
  pose (w0 := mkWorld (fs w) (chain w) (trace w ++ [FsRead (path f)])).
  destruct (registerDocument_succeeds env (generateCertificateNumber env)
              (sha256_hex lib bytes) w0 Hup Hfresh) as (st1 & Hreg & E1).
  match type of E1 with _ = (_, ?w1) =>
    destruct (WM_process_text_run lib env (path f)
                (generateCertificateNumber env) (sha256_hex lib bytes)
                (originalname f) w1 bytes Hext Hf) as (w2 & E2 & Hfs & Hch)
  end.
  unfold ServerWM.post_api_upload, try_catch, bind. cbv zeta.
  rewrite (generateDocumentHash_run lib _ _ _ Hf). fold w0.
  rewrite E1, E2. eexists _, _. split; [reflexivity |].
  split; [reflexivity |]. split.
  - rewrite Hfs. apply lookup_insert_eq.
  - rewrite Hch. exact Hreg.
Qed.

Lemma WM_certifiedContent_longer orig c h ts :
  (String.length orig < String.length (ServerWM.certifiedContent orig c h ts))%nat.
Proof.
  unfold ServerWM.certifiedContent, ServerWM.text_header.
  rewrite !length_append. change (String.length nl) with 1%nat. lia.
Qed.

(** X19. The watermark server does not recognise its own certified file.
    What is registered is the digest of the uploaded bytes, and the
    certified text is longer than they are; so, with collision-free
    hashes, the certified file brought to [POST /api/verify-upload] under
    its own certificate number is answered as not valid. *)
Theorem WM_certified_text_does_not_verify (lib : Lib) (env env2 : Env)
    (f f2 : File) (w w2 : World) (cs : list (Z * Contract.Call))
    (bytes : string) :
  (forall a b, keccak256 lib a = keccak256 lib b -> a = b) ->
  (forall a b, sha256_hex lib a = sha256_hex lib b -> a = b) ->
  toLowerCase (extname (originalname f)) = ".txt" ->
  fs w !! path f = Some bytes ->
  utf8_decode bytes = bytes ->
  rpc_register_up env = true ->
  Contract.exists_
    (Contract.documents_at (chain w) (generateCertificateNumber env)) = false ->
  fs w2 !! path f2
  = fs (snd (ServerWM.post_api_upload lib env (Some f) w))
      !! ServerWM.certified_path lib (originalname f)
           (generateCertificateNumber env) ".txt" ->
  chain w2
  = Contract.run cs (chain (snd (ServerWM.post_api_upload lib env (Some f) w))) ->
  rpc_verify_up env2 = true ->
  option_map status
    (match fst (ServerWM.post_api_upload lib env (Some f) w) with
     | Ok resp => Some resp
     | Throw _ => None
     end) = Some 200 /\
  isValid_of
    (ServerWM.post_api_verify_upload lib env2
       (VString (generateCertificateNumber env)) (Some f2) w2)
  = Some false.
Proof.
  intros Hk Hs Hext Hf Hwf Hup Hfresh Hf2 Hch2 Hv.
  destruct (WM_upload_text_run lib env f w bytes Hext Hf Hup Hfresh)
    as (resp & w1 & E & H200 & Hfile & Hreg).
  rewrite E in *. cbn [fst snd] in *. split.
  { cbn [option_map]. rewrite H200. reflexivity. }
  rewrite Hfile in Hf2.
  rewrite (WM_verify_upload_isValid lib env2 _ f2 w2 _
             (generateCertificateNumber_truthy env) Hf2 Hv).
  rewrite Hch2.
  rewrite (verifyDocument_after_register (keccak256 lib) _ _ _ _ _ cs _ Hk Hreg).
  cbn [fst]. rewrite bool_decide_eq_false_2; [reflexivity |].
  intros Heq. apply Hs in Heq.
  pose proof (WM_certifiedContent_longer (utf8_decode bytes)
                (generateCertificateNumber env) (sha256_hex lib bytes)
                (localeNow env)) as Hlen.
  rewrite Heq, Hwf in Hlen. lia.
Qed.

Lemma WM_certified_text_does_not_verify_witness :
  option_map status
    (match fst (ServerWM.post_api_upload demo_lib demo_env (Some hello_txt)
                  hello_world) with
     | Ok resp => Some resp
     | Throw _ => None
     end) = Some 200 /\
  isValid_of
    (ServerWM.post_api_verify_upload demo_lib demo_env
       (VString (generateCertificateNumber demo_env)) (Some hello_copy)
       WM_certified_world)
  = Some false.
Proof.
  refine (WM_certified_text_does_not_verify demo_lib demo_env demo_env
            hello_txt hello_copy hello_world WM_certified_world [] "hello"
            (fun a b E => E) _
            ltac:(vm_compute; reflexivity) ltac:(vm_compute; reflexivity)
            ltac:(vm_compute; reflexivity) ltac:(reflexivity)
            ltac:(vm_compute; reflexivity) ltac:(vm_compute; reflexivity)
            ltac:(reflexivity) ltac:(reflexivity)).
  intros a b E. cbn [sha256_hex demo_lib] in E.
  injection E as E. exact E.
Defined.

Lemma match_qr_none s :
  includes ServerQR.marker s = false -> ServerQR.match_qr s = None.
Proof.
  induction s as [| x s IH]; cbn [includes ServerQR.match_qr].
  - destruct (strip_prefix ServerQR.marker ""); [discriminate | reflexivity].
  - destruct (strip_prefix ServerQR.marker (String x s));
      [discriminate | exact IH].
Qed.

(** X20. A document without a payload gets 400 from
    [POST /api/verify-upload] of the QR server, and the ledger is not
    asked: a text without a [QR Data] line, a PDF whose title does not
    start with [QR:], and also a PDF that cannot be loaded at all.  The
    file is read once and removed. *)
Theorem QR_uncertified_is_rejected (lib : Lib) (env : Env) (f : File)
    (w : World) (bytes : string) :
  fs w !! path f = Some bytes ->
  (toLowerCase (extname (originalname f)) = ".txt" /\
   includes ServerQR.marker (utf8_decode bytes) = false) \/
  (toLowerCase (extname (originalname f)) = ".pdf" /\
   (PDF_load lib bytes = None \/
    exists d, PDF_load lib bytes = Some d /\
              (pdf_title d = None \/
               exists t, pdf_title d = Some t /\ startsWith "QR:" t = false))) ->
  ServerQR.post_api_verify_upload lib env (Some f) w = no_certificate f w.
Proof.
  intros Hf Hkind. unfold ServerQR.post_api_verify_upload, no_certificate.
  cbv zeta.
  destruct Hkind as [[Hext Hm] | [Hext Hpdf]]; rewrite Hext;
    cbn [String.eqb Ascii.eqb Bool.eqb].
  - run_handler. rewrite Hf, (match_qr_none _ Hm). cbn [fs chain trace].
    unfold unlinkSync. cbn [fs chain trace]. rewrite Hf.
    rewrite <- app_assoc. reflexivity.
  - unfold ServerQR.extractQRDataFromPDF. run_handler. rewrite Hf.
    destruct Hpdf as [Hd | (d & Hd & [Ht | (t & Ht & Hq)])]; rewrite Hd.
    + unfold unlinkSync. cbn [fs chain trace]. rewrite Hf.
      rewrite <- app_assoc. reflexivity.
    + rewrite Ht. unfold unlinkSync. cbn [fs chain trace]. rewrite Hf.
      rewrite <- app_assoc. reflexivity.
    + rewrite Ht, Hq. rewrite andb_false_r.
      unfold unlinkSync. cbn [fs chain trace]. rewrite Hf.
      rewrite <- app_assoc. reflexivity.
Qed.

Lemma QR_uncertified_is_rejected_witness :
  ServerQR.post_api_verify_upload demo_lib demo_env (Some damaged_pdf)
    damaged_pdf_world
  = no_certificate damaged_pdf damaged_pdf_world.
Proof.
  exact (QR_uncertified_is_rejected demo_lib demo_env damaged_pdf
           damaged_pdf_world "not a pdf"
           ltac:(vm_compute; reflexivity)
           ltac:(right; split; [vm_compute; reflexivity
                               | left; vm_compute; reflexivity])).
Defined.

Lemma QR_verify_qr_isValid lib env (q c h : string) w :
  q <> "" ->
  JSON_parse lib q = Some (PProps (VString c) (VString h)) ->
  truthy (VString c) = true -> truthy (VString h) = true ->
  rpc_verify_up env = true ->
  isValid_of (ServerQR.post_api_verify_qr lib env (VString q) w)
  = Some (fst (Contract.verifyDocument (keccak256 lib) c h (chain w))).
Proof.
  intros Hq Hjson Hc Hh Hup. unfold ServerQR.post_api_verify_qr.
  assert (Hq' : truthy (VString q) = true).
  { cbn [truthy]. destruct q; [congruence | reflexivity]. }
  rewrite Hq'. cbn [negb toString]. rewrite Hjson, Hc, Hh. cbn [negb orb].
  unfold try_catch, bind.
  rewrite (service_verifyDocument lib env c h w Hup).
  match goal with
  | |- context [BlockchainService.getDocument env ?v ?w1] =>
      destruct (getDocument_returns env v w1) as (reply & w2 & -> & _ & _)
  end.
  reflexivity.
Qed.

(** X21. The two verification endpoints of the QR server can disagree on
    one payload.  For a registered pair, while the node answers
    [verifyDocument] but not [getDocument], [POST /api/verify-qr] given
    the payload answers valid, and [POST /api/verify-upload] given a text
    file that carries the same payload answers not valid. *)
Theorem QR_endpoints_disagree (lib : Lib) (env : Env) (f : File) (w : World)
    (bytes q c h : string) (now : Z) (st st1 : Contract.State)
    (cs : list (Z * Contract.Call)) :
  Contract.registerDocument now c h st = Contract.Return st1 ->
  chain w = Contract.run cs st1 ->
  rpc_verify_up env = true -> rpc_get_up env = false ->
  toLowerCase (extname (originalname f)) = ".txt" ->
  fs w !! path f = Some bytes ->
  ServerQR.match_qr (utf8_decode bytes) = Some q ->
  JSON_parse lib q = Some (PProps (VString c) (VString h)) ->
  c <> "" -> h <> "" ->
  isValid_of (ServerQR.post_api_verify_qr lib env (VString q) w) = Some true /\
  isValid_of (ServerQR.post_api_verify_upload lib env (Some f) w) = Some false.
Proof.
  intros Hreg Hch Hv Hg Hext Hf Hm Hjson Hc Hh.
  assert (Hc' : truthy (VString c) = true).
  { cbn [truthy]. destruct c; [congruence | reflexivity]. }
  assert (Hh' : truthy (VString h) = true).
  { cbn [truthy]. destruct h; [congruence | reflexivity]. }
  assert (Hcontract :
    fst (Contract.verifyDocument (keccak256 lib) c h (chain w)) = true).
  { rewrite Hch. apply registerDocument_inv in Hreg as [_ ->].
    unfold Contract.verifyDocument.
    rewrite run_keeps_record; rewrite documents_at_insert;
      destruct (decide (c = c)); try congruence; try reflexivity.
    cbn. rewrite bool_decide_eq_true_2 by reflexivity. reflexivity. }
  split.
  - rewrite (QR_verify_qr_isValid lib env q c h w
               (match_qr_nonempty _ _ Hm) Hjson Hc' Hh' Hv).
    rewrite Hcontract. reflexivity.
  - rewrite (QR_verify_upload_text lib env f w bytes q c h
               Hext Hf Hm Hjson Hc' Hh' Hv).
    unfold ServerQR.payload_verdict. rewrite Hg, andb_false_r. reflexivity.
Qed.

Lemma QR_endpoints_disagree_witness :
  isValid_of
    (ServerQR.post_api_verify_qr office_lib lookup_down_env
       (VString hello_payload) QR_copy_world) = Some true /\
  isValid_of
    (ServerQR.post_api_verify_upload office_lib lookup_down_env
       (Some certified_copy) QR_copy_world) = Some false.
Proof.
  exact (QR_endpoints_disagree office_lib lookup_down_env certified_copy
           QR_copy_world
           (ServerQR.certifiedContent "hello" "CERT-00000123-0042"
              (digest_stub "hello") (localeNow demo_env))
           hello_payload "CERT-00000123-0042" (digest_stub "hello")
           1730000000 Contract.init (chain QR_copy_world) []
           ltac:(vm_compute; reflexivity) ltac:(reflexivity)
           ltac:(reflexivity) ltac:(reflexivity)
           ltac:(vm_compute; reflexivity) ltac:(vm_compute; reflexivity)
           ltac:(vm_compute; reflexivity) ltac:(vm_compute; reflexivity)
           ltac:(discriminate) ltac:(vm_compute; discriminate)).
Defined.

End NotVerified.
(* ===================================================================== *)
(** * Through the route                                                  *)
(* ===================================================================== *)

Section ThroughTheRoute.
Import JS Node Http Fixtures.
Local Open Scope node_scope.

(** What the middleware leaves: no file, a refusal, or the part stored
    under [uploads/], with nothing else changed. *)
Lemma single_cases msg env u w :
  single msg env (Some u) w = (Ok NoFile, w) \/
  (exists message,
      single msg env (Some u) w = (Ok (Refused (mkError message None)), w)) \/
  exists f w1,
    single msg env (Some u) w = (Ok (Stored f), w1) /\
    fs w1 !! path f = Some (up_content u) /\ chain w1 = chain w.
Proof.
  unfold single. cbv zeta.
  destruct (String.eqb (multer_originalname u) ""); [left; reflexivity |].
  destruct (fileFilter (multer_originalname u));
    [| right; left; eexists; reflexivity].
  destruct (fileSize_limit <=? byte_length (up_content u));
    [right; left; eexists; reflexivity |].
  right; right. eexists _, _. split; [reflexivity |].
  cbn [path fs chain]. split; [apply lookup_insert_eq | reflexivity].
Qed.

Lemma QR_route_ledger lib env u w :
  part_registered_or_not lib env u w (ServerQR.route_upload lib env (Some u) w).
Proof.
  unfold ServerQR.route_upload, route, bind.
  destruct (single_cases ServerQR.filter_message env u w)
    as [E | [[err E] | (f & w1 & E & Hfile & Hch)]]; rewrite E.
  - cbn. left. split; [reflexivity | discriminate].
  - cbn. left. split; [reflexivity | discriminate].
  - pose proof (QR_upload_ledger lib env f w1) as HL.
    destruct (ServerQR.post_api_upload lib env (Some f) w1)
      as [[resp | e] w']; cbn [registered_or_not part_registered_or_not] in *;
      [| exact HL].
    rewrite Hch in HL.
    destruct HL as [HL | (bytes & Hb & HL)]; [left; exact HL | right].
    rewrite Hfile in Hb. injection Hb as <-. exact HL.
Qed.

Lemma WM_route_ledger lib env u w :
  part_registered_or_not lib env u w (ServerWM.route_upload lib env (Some u) w).
Proof.
  unfold ServerWM.route_upload, route, bind.
  destruct (single_cases ServerWM.filter_message env u w)
    as [E | [[err E] | (f & w1 & E & Hfile & Hch)]]; rewrite E.
  - cbn. left. split; [reflexivity | discriminate].
  - cbn. left. split; [reflexivity | discriminate].
  - pose proof (WM_upload_ledger lib env f w1) as HL.
    destruct (ServerWM.post_api_upload lib env (Some f) w1)
      as [[resp | e] w']; cbn [registered_or_not part_registered_or_not] in *;
      [| exact HL].
    rewrite Hch in HL.
    destruct HL as [HL | (bytes & Hb & HL)]; [left; exact HL | right].
    rewrite Hfile in Hb. injection Hb as <-. exact HL.
Qed.

(** X22. What an upload registers is the digest of the bytes of the file
    part of the request.  For a part that the filter and the size limit
    let through, [POST /api/upload] of either server, multer included,
    ends with an answer; either the ledger is unchanged and the answer is
    not 200, or one registration has succeeded, of the SHA-256 digest of
    the part under the generated certificate number. *)
Theorem route_registers_the_part (lib : Lib) (env : Env) (u : Upload)
    (w : World) :
  fileFilter (up_originalname u) = true ->
  byte_length (up_content u) <= fileSize_limit ->
  part_registered_or_not lib env u w
    (ServerQR.route_upload lib env (Some u) w) /\
  part_registered_or_not lib env u w
    (ServerWM.route_upload lib env (Some u) w).
Proof.
  intros _ _. split; [apply QR_route_ledger | apply WM_route_ledger].
Qed.

Lemma route_registers_the_part_witness :
  part_registered_or_not demo_lib demo_env hello_part empty_world
    (ServerQR.route_upload demo_lib demo_env (Some hello_part) empty_world) /\
  part_registered_or_not demo_lib demo_env hello_part empty_world
    (ServerWM.route_upload demo_lib demo_env (Some hello_part) empty_world).
Proof.
  exact (route_registers_the_part demo_lib demo_env hello_part empty_world
           ltac:(vm_compute; reflexivity) ltac:(vm_compute; discriminate)).
Defined.

End ThroughTheRoute.

(* ===================================================================== *)
(** * Stamping a PDF keeps its pages                                     *)
(* ===================================================================== *)

Section PdfPages.
Import JS Node Http Fixtures.
Local Open Scope node_scope.








End PdfPages.
